(** * Output validation and response extraction of the typhoon safety analyzer

    A shallow embedding of [engine/validators/output_validator.py]
    ([OutputValidator]) and of [TyphoonSafetyAnalyzer._parse_response] from
    [engine/analyzer.py], together with the properties stated about them.

    Python values are an inductive type; a [dict] is an association list in
    insertion order (the order is observable through [str] and through JSON
    serialisation), with the invariant that keys are pairwise distinct.
    A Python [float] is an IEEE 754 binary64 number, here a [spec_float].
    A raised exception is the [Raise] branch of [result].

    Two limits of the interpreter are data-dependent and are modelled: the
    bound on the digits of an integer converted to or from text, and the
    bound on nested calls, which [repr] meets on nested containers and the
    JSON scanner on nested documents.  The interpreter is taken to have
    room for the calls of the modelled functions themselves. *)

From Stdlib Require Import ZArith List String Ascii Bool Lia.
From Stdlib Require Import SpecFloat DecimalString.
Import ListNotations.
Local Open Scope string_scope.
Local Open Scope Z_scope.

(** ** Python values *)

Unset Elimination Schemes.
Inductive value : Type :=
| VNone
| VBool (b : bool)
| VInt (n : Z)
| VFloat (f : spec_float)
| VStr (s : string)
| VList (l : list value)
| VDict (d : list (string * value)).
Set Elimination Schemes.

Definition dict : Type := list (string * value).

(** Exceptions that the modelled code can raise.  [JSONDecodeError] is a
    subclass of [ValueError]; a handler for it does not catch a plain
    [ValueError]. *)
Inductive exn : Type :=
| AttributeError
| TypeError
| ValueError
| RecursionError
| JSONDecodeError.

Inductive result (A : Type) : Type :=
| Ok (a : A)
| Raise (e : exn).
Arguments Ok {A} a.
Arguments Raise {A} e.

Definition bind {A B : Type} (m : result A) (k : A -> result B) : result B :=
  match m with
  | Ok a => k a
  | Raise e => Raise e
  end.

Notation "x <- m ;; k" := (bind m (fun x => k))
  (at level 61, m at next level, right associativity).

(** [[f(x) for x in l]], stopping at the first exception. *)
Fixpoint mapM {A B : Type} (f : A -> result B) (l : list A) : result (list B) :=
  match l with
  | [] => Ok []
  | x :: t => y <- f x ;; ys <- mapM f t ;; Ok (y :: ys)
  end.

(** ** Dictionaries *)

(** [d.get(k)] as an option; [k in d] is [dict_mem]. *)
Fixpoint dict_get (k : string) (d : dict) : option value :=
  match d with
  | [] => None
  | (k', v) :: t => if String.eqb k k' then Some v else dict_get k t
  end.

Definition dict_mem (k : string) (d : dict) : bool :=
  match dict_get k d with Some _ => true | None => false end.

(** [d.get(k, dflt)]; [d.get(k)] is [dict_get_or k VNone d]. *)
Definition dict_get_or (k : string) (dflt : value) (d : dict) : value :=
  match dict_get k d with Some v => v | None => dflt end.

(** [d[k] = v]: an existing key keeps its position, a new key goes last. *)
Fixpoint dict_set (k : string) (v : value) (d : dict) : dict :=
  match d with
  | [] => [(k, v)]
  | (k', v') :: t =>
      if String.eqb k k' then (k, v) :: t else (k', v') :: dict_set k v t
  end.

Definition keys (d : dict) : list string := map fst d.

Fixpoint distinct (l : list string) : bool :=
  match l with
  | [] => true
  | x :: t => negb (existsb (String.eqb x) t) && distinct t
  end.

(** The invariant of a Python dictionary: no key occurs twice. *)
Definition dict_wf (d : dict) : bool := distinct (keys d).

(** ** Built-in operations on values *)

Definition b2z (b : bool) : Z := if b then 1 else 0.

(** The literals [0.0] and [1.0]. *)
Definition float_zero : spec_float := S754_zero false.
Definition float_one : spec_float := S754_finite false 4503599627370496 (-52).

(** Exact comparison of a float with an integer, as Python compares them. *)
Definition float_cmp_int (f : spec_float) (n : Z) : option comparison :=
  match f with
  | S754_nan => None
  | S754_infinity s => Some (if s then Lt else Gt)
  | S754_zero _ => Some (0 ?= n)
  | S754_finite s m e =>
      let mz := if s then Z.neg m else Z.pos m in
      Some (if 0 <=? e then mz * 2 ^ e ?= n else mz ?= n * 2 ^ (- e))
  end.

(** Three-way comparison of two numbers; [bool] is a subtype of [int].
    [None] when an operand is NaN or not a number. *)
Definition num_cmp (a b : value) : option comparison :=
  match a, b with
  | VBool x, VBool y => Some (b2z x ?= b2z y)
  | VBool x, VInt y => Some (b2z x ?= y)
  | VInt x, VBool y => Some (x ?= b2z y)
  | VInt x, VInt y => Some (x ?= y)
  | VFloat x, VFloat y => SFcompare x y
  | VFloat x, VInt y => float_cmp_int x y
  | VFloat x, VBool y => float_cmp_int x (b2z y)
  | VInt x, VFloat y => option_map CompOpp (float_cmp_int y x)
  | VBool x, VFloat y => option_map CompOpp (float_cmp_int y (b2z x))
  | _, _ => None
  end.

(** [a <= b] on numbers. *)
Definition py_le (a b : value) : bool :=
  match num_cmp a b with
  | Some Lt | Some Eq => true
  | _ => false
  end.

(** [a == b]: numbers by value, strings and [None] by content, lists
    element-wise, dictionaries as mappings (key order is irrelevant). *)
Fixpoint py_eq (a b : value) {struct a} : bool :=
  match a, b with
  | VNone, VNone => true
  | VStr x, VStr y => String.eqb x y
  | VList la, VList lb =>
      (fix items (la lb : list value) {struct la} : bool :=
         match la, lb with
         | [], [] => true
         | x :: ta, y :: tb => py_eq x y && items ta tb
         | _, _ => false
         end) la lb
  | VDict da, VDict db =>
      Nat.eqb (List.length da) (List.length db) &&
      (fix fields (da : dict) {struct da} : bool :=
         match da with
         | [] => true
         | (k, v) :: ta =>
             match dict_get k db with
             | Some w => py_eq v w
             | None => false
             end && fields ta
         end) da
  | (VBool _ | VInt _ | VFloat _), (VBool _ | VInt _ | VFloat _) =>
      match num_cmp a b with Some Eq => true | _ => false end
  | _, _ => false
  end.

(** [x in l] for a list [l]. *)
Definition py_in (x : value) (l : list value) : bool := existsb (py_eq x) l.

Definition isinstance_dict (v : value) : bool :=
  match v with VDict _ => true | _ => false end.

Definition isinstance_list (v : value) : bool :=
  match v with VList _ => true | _ => false end.

(** [isinstance(v, int)]: booleans are integers. *)
Definition isinstance_int (v : value) : bool :=
  match v with VInt _ | VBool _ => true | _ => false end.

(** [isinstance(v, (int, float))]. *)
Definition isinstance_int_float (v : value) : bool :=
  match v with VInt _ | VBool _ | VFloat _ => true | _ => false end.

Definition join (sep : string) (l : list string) : string := String.concat sep l.

(** What the running interpreter contributes.  [repr] of a float and of
    a string are its own; the modelled code only splices their results into
    messages.  [int_max_str_digits] is [sys.get_int_max_str_digits()]: the
    largest number of digits of an integer that is converted to or from
    decimal text, 4300 unless changed, 0 for no limit.  [repr_depth] is the
    number of nested [repr] calls still available where [validate] formats
    a message, [json_depth] the number of nested arrays and objects the
    JSON scanner can still enter where [_parse_response] decodes. *)
Record interpreter : Type := {
  repr_float : spec_float -> string;
  repr_str : string -> string;
  int_max_str_digits : nat;
  repr_depth : nat;
  json_depth : nat
}.

(** Whether a decimal text of [digits] digits is over the limit. *)
Definition exceeds_digits (limit : nat) (digits : nat) : bool :=
  match limit with
  | O => false
  | S _ => Nat.ltb limit digits
  end.

Section Formatting.

Variable py : interpreter.

(** [repr(n)] of an [int]: [ValueError] when it has too many digits (the
    sign is not counted). *)
Definition repr_int (n : Z) : result string :=
  let digits := NilZero.string_of_int (Z.to_int (Z.abs n)) in
  if exceeds_digits (int_max_str_digits py) (String.length digits)
  then Raise ValueError
  else Ok (NilZero.string_of_int (Z.to_int n)).

(** [repr(v)] with [depth] nested calls available: every call takes one,
    and the elements of a container are formatted from left to right. *)
Fixpoint py_repr (depth : nat) (v : value) {struct v} : result string :=
  match depth with
  | O => Raise RecursionError
  | S depth =>
      match v with
      | VNone => Ok "None"
      | VBool b => Ok (if b then "True" else "False")
      | VInt n => repr_int n
      | VFloat f => Ok (repr_float py f)
      | VStr s => Ok (repr_str py s)
      | VList l =>
          texts <-
            (fix items (l : list value) : result (list string) :=
               match l with
               | [] => Ok []
               | x :: t =>
                   text <- py_repr depth x ;;
                   texts <- items t ;;
                   Ok (text :: texts)
               end) l ;;
          Ok ("[" ++ join ", " texts ++ "]")
      | VDict d =>
          texts <-
            (fix fields (d : dict) : result (list string) :=
               match d with
               | [] => Ok []
               | (k, x) :: t =>
                   text <- py_repr depth x ;;
                   texts <- fields t ;;
                   Ok ((repr_str py k ++ ": " ++ text) :: texts)
               end) d ;;
          Ok ("{" ++ join ", " texts ++ "}")
      end
  end.

(** [str(v)], the conversion an f-string applies: a string is spliced as
    it is, anything else through its [repr]. *)
Definition py_str (v : value) : result string :=
  match v with
  | VStr s => Ok s
  | _ => py_repr (repr_depth py) v
  end.

End Formatting.

(** [obj.get(k, dflt)] on an arbitrary value: only a dictionary has [get]. *)
Definition py_get (obj : value) (k : string) (dflt : value) : result value :=
  match obj with
  | VDict d => Ok (dict_get_or k dflt d)
  | _ => Raise AttributeError
  end.

(** [l.append(x)]. *)
Definition list_append {A : Type} (l : list A) (x : A) : list A :=
  (l ++ [x])%list.

(** A [for] loop whose body may raise. *)
Fixpoint foldM {A S : Type} (f : S -> A -> result S) (l : list A) (s : S)
  : result S :=
  match l with
  | [] => Ok s
  | x :: t => s' <- f s x ;; foldM f t s'
  end.

(** ** engine/validators/output_validator.py *)

Module OutputValidator.

Definition required_fields : list string :=
  ["overall_risk_level"; "hazards_by_category"; "risk_summary";
   "urgent_actions"; "summary"; "confidence_score"].

Definition valid_risk_levels : list value :=
  [VStr "low"; VStr "medium"; VStr "high"; VStr "critical"; VStr "unknown"].

Definition hazard_categories : list string :=
  ["flying_objects"; "structural_damage"; "elevated_objects"; "tree_hazards"].

Definition _get_default_risk_summary : value :=
  VDict [("critical_count", VInt 0); ("high_count", VInt 0);
         ("medium_count", VInt 0); ("low_count", VInt 0);
         ("total_hazards", VInt 0)].

Definition _get_default_value (field : string) : value :=
  let defaults : dict :=
    [("overall_risk_level", VStr "unknown");
     ("hazards_by_category", VDict []);
     ("risk_summary", _get_default_risk_summary);
     ("summary", VStr "Analysis incomplete");
     ("urgent_actions", VList []);
     ("confidence_score", VFloat float_zero)] in
  dict_get_or field VNone defaults.

(** [obj.get(k, 'unknown') if obj.get(k) in allowed else 'unknown']. *)
Definition risk_field (obj : value) (k : string) (allowed : list value)
  : result value :=
  probe <- py_get obj k VNone ;;
  if py_in probe allowed then py_get obj k (VStr "unknown")
  else Ok (VStr "unknown").

Definition movement_levels : list value :=
  [VStr "high"; VStr "medium"; VStr "low"].

Definition _validate_flying_object (obj : value) : result value :=
  item <- py_get obj "item" (VStr "Unknown object") ;;
  description <- py_get obj "description" (VStr "No description") ;;
  movement_risk <- risk_field obj "movement_risk" movement_levels ;;
  impact_severity <- risk_field obj "impact_severity" valid_risk_levels ;;
  overall_risk <- risk_field obj "overall_risk" valid_risk_levels ;;
  location <- py_get obj "location" (VStr "Location not specified") ;;
  recommendation <- py_get obj "recommendation" (VStr "No recommendation") ;;
  Ok (VDict [("item", item); ("description", description);
             ("movement_risk", movement_risk);
             ("impact_severity", impact_severity);
             ("overall_risk", overall_risk);
             ("location", location);
             ("recommendation", recommendation)]).

Definition _validate_structural_damage (obj : value) : result value :=
  item <- py_get obj "item" (VStr "Unknown structure") ;;
  description <- py_get obj "description" (VStr "No description") ;;
  risk_level <- risk_field obj "risk_level" valid_risk_levels ;;
  location <- py_get obj "location" (VStr "Location not specified") ;;
  recommendation <- py_get obj "recommendation" (VStr "No recommendation") ;;
  Ok (VDict [("item", item); ("description", description);
             ("risk_level", risk_level);
             ("location", location);
             ("recommendation", recommendation)]).

Definition _validate_elevated_object (obj : value) : result value :=
  item <- py_get obj "item" (VStr "Unknown object") ;;
  description <- py_get obj "description" (VStr "No description") ;;
  fall_risk <- risk_field obj "fall_risk" movement_levels ;;
  impact_severity <- risk_field obj "impact_severity" valid_risk_levels ;;
  overall_risk <- risk_field obj "overall_risk" valid_risk_levels ;;
  location <- py_get obj "location" (VStr "Location not specified") ;;
  recommendation <- py_get obj "recommendation" (VStr "No recommendation") ;;
  Ok (VDict [("item", item); ("description", description);
             ("fall_risk", fall_risk);
             ("impact_severity", impact_severity);
             ("overall_risk", overall_risk);
             ("location", location);
             ("recommendation", recommendation)]).

Definition _validate_tree_hazard (obj : value) : result value :=
  description <- py_get obj "description" (VStr "No description") ;;
  risk_level <- risk_field obj "risk_level" valid_risk_levels ;;
  location <- py_get obj "location" (VStr "Location not specified") ;;
  recommendation <- py_get obj "recommendation" (VStr "No recommendation") ;;
  Ok (VDict [("description", description);
             ("risk_level", risk_level);
             ("location", location);
             ("recommendation", recommendation)]).

(** The [if category == ... elif ...] chain of the category loop. *)
Definition entry_validator (category : string)
  : option (value -> result value) :=
  if String.eqb category "flying_objects" then Some _validate_flying_object
  else if String.eqb category "structural_damage"
       then Some _validate_structural_damage
  else if String.eqb category "elevated_objects"
       then Some _validate_elevated_object
  else if String.eqb category "tree_hazards" then Some _validate_tree_hazard
  else None.

(** Body of the loop over [hazard_categories]. *)
Definition validate_category (hazards : dict) (validated_hazards : dict)
  (category : string) : result dict :=
  let category_data := dict_get_or category (VList []) hazards in
  let category_data :=
    match category_data with VList l => l | _ => [] end in
  match entry_validator category with
  | Some f =>
      entries <- mapM f category_data ;;
      Ok (dict_set category (VList entries) validated_hazards)
  | None => Ok validated_hazards
  end.

Definition _validate_hazard_categories (hazards : dict) : result dict :=
  foldM (validate_category hazards) hazard_categories [].

Definition count_keys : list string :=
  ["critical_count"; "high_count"; "medium_count"; "low_count";
   "total_hazards"].

(** [value if isinstance(value, int) and value >= 0 else 0]. *)
Definition clamp_count (v : value) : value :=
  if isinstance_int v && py_le (VInt 0) v then v else VInt 0.

Definition _validate_risk_summary (summary : dict) : dict :=
  fold_left
    (fun validated_summary key =>
       let v := dict_get_or key (VInt 0) summary in
       dict_set key (clamp_count v) validated_summary)
    count_keys [].

Section Validate.

Variable py : interpreter.

(** The two locals of [validate]: the copy being repaired and the error
    list. *)
Definition state : Type := (dict * list string)%type.

Definition check_required_field (st : state) (field : string) : state :=
  let '(validated, validation_errors) := st in
  if negb (dict_mem field validated)
  then (dict_set field (_get_default_value field) validated,
        list_append validation_errors ("Missing required field: " ++ field))
  else st.

Definition check_overall_risk_level (st : state) : result state :=
  let '(validated, validation_errors) := st in
  let level := dict_get_or "overall_risk_level" VNone validated in
  if negb (py_in level valid_risk_levels)
  then
    text <- py_str py level ;;
    Ok (dict_set "overall_risk_level" (VStr "unknown") validated,
        list_append validation_errors
          ("Invalid overall_risk_level: " ++ text))
  else Ok st.

Definition check_hazards_by_category (st : state) : result state :=
  let '(validated, validation_errors) := st in
  match dict_get_or "hazards_by_category" VNone validated with
  | VDict hazards =>
      validated_hazards <- _validate_hazard_categories hazards ;;
      Ok (dict_set "hazards_by_category" (VDict validated_hazards)
            validated,
          validation_errors)
  | _ =>
      Ok (dict_set "hazards_by_category" (VDict []) validated,
          list_append validation_errors
            "hazards_by_category must be a dictionary")
  end.

Definition check_risk_summary (st : state) : state :=
  let '(validated, validation_errors) := st in
  match dict_get_or "risk_summary" VNone validated with
  | VDict summary =>
      (dict_set "risk_summary" (VDict (_validate_risk_summary summary))
         validated,
       validation_errors)
  | _ =>
      (dict_set "risk_summary" _get_default_risk_summary validated,
       list_append validation_errors "risk_summary must be a dictionary")
  end.

Definition check_confidence_score (st : state) : result state :=
  let '(validated, validation_errors) := st in
  let confidence :=
    dict_get_or "confidence_score" (VFloat float_zero) validated in
  if negb (isinstance_int_float confidence)
     || negb (py_le (VFloat float_zero) confidence
              && py_le confidence (VFloat float_one))
  then
    text <- py_str py confidence ;;
    Ok (dict_set "confidence_score" (VFloat float_zero) validated,
        list_append validation_errors
          ("Invalid confidence_score: " ++ text))
  else Ok st.

Definition check_urgent_actions (st : state) : state :=
  let '(validated, validation_errors) := st in
  if negb (isinstance_list (dict_get_or "urgent_actions" VNone validated))
  then (dict_set "urgent_actions" (VList []) validated,
        list_append validation_errors "urgent_actions must be a list")
  else st.

Definition attach_validation (st : state) : dict :=
  let '(validated, validation_errors) := st in
  dict_set "validation"
    (VDict [("errors", VList (map VStr validation_errors));
            ("is_valid",
             VBool (Nat.eqb (List.length validation_errors) 0))])
    validated.

(** [validate] on a dictionary. *)
Definition validate_dict (analysis_result : dict) : result dict :=
  let st := fold_left check_required_field required_fields
              (analysis_result, []) in
  st <- check_overall_risk_level st ;;
  st <- check_hazards_by_category st ;;
  let st := check_risk_summary st in
  st <- check_confidence_score st ;;
  let st := check_urgent_actions st in
  Ok (attach_validation st).

(** [validate] on any value.  A list has [copy] but neither string
    indices nor [get]; every other non-dictionary lacks [copy]. *)
Definition validate (analysis_result : value) : result value :=
  match analysis_result with
  | VDict d => r <- validate_dict d ;; Ok (VDict r)
  | VList l =>
      if forallb (fun field => py_in (VStr field) l) required_fields
      then Raise AttributeError
      else Raise TypeError
  | _ => Raise AttributeError
  end.

End Validate.

End OutputValidator.

(** ** String operations used by the extractor *)

(** [s.find(c)] for a one-character needle: first index, or [-1]. *)
Fixpoint find_from (c : ascii) (s : string) (i : Z) : Z :=
  match s with
  | EmptyString => -1
  | String a t => if Ascii.eqb a c then i else find_from c t (i + 1)
  end.

Definition py_find (c : ascii) (s : string) : Z := find_from c s 0.

(** [s.rfind(c)]: last index, or [-1]. *)
Fixpoint rfind_from (c : ascii) (s : string) (i last : Z) : Z :=
  match s with
  | EmptyString => last
  | String a t => rfind_from c t (i + 1) (if Ascii.eqb a c then i else last)
  end.

Definition py_rfind (c : ascii) (s : string) : Z := rfind_from c s 0 (-1).

(** [s[a:b]]: a negative bound counts from the end, both are clipped to
    the string, an empty range gives the empty string. *)
Definition py_slice (s : string) (a b : Z) : string :=
  let len := Z.of_nat (String.length s) in
  let clip x := if x <? 0 then Z.max (x + len) 0 else Z.min x len in
  let lo := clip a in
  let hi := clip b in
  if lo <? hi then substring (Z.to_nat lo) (Z.to_nat (hi - lo)) s
  else EmptyString.

(** ** The JSON decoder of the Python library

    [json.loads] on a string of UTF-8 bytes, following the library's
    scanner: the value grammar, [NaN] and the infinities, strict strings,
    the last of two equal keys.  A text that is not JSON raises
    [JSONDecodeError]; an integer literal with more digits than the
    interpreter converts raises [ValueError], and arrays and objects
    nested deeper than the scanner can enter raise [RecursionError].  The
    text is read from left to right and the first failure is the one
    raised.  In the lexical functions [None] stands for "no match". *)

Module Json.

Definition is_ws (c : ascii) : bool :=
  Ascii.eqb c " " || Ascii.eqb c "009" || Ascii.eqb c "010"
  || Ascii.eqb c "013".

Fixpoint skip_ws (s : string) : string :=
  match s with
  | String c t => if is_ws c then skip_ws t else s
  | EmptyString => s
  end.

Definition digit_val (c : ascii) : option N :=
  let n := N_of_ascii c in
  if ((48 <=? n) && (n <=? 57))%N then Some (n - 48)%N else None.

Definition hex_val (c : ascii) : option N :=
  let n := N_of_ascii c in
  if ((48 <=? n) && (n <=? 57))%N then Some (n - 48)%N
  else if ((65 <=? n) && (n <=? 70))%N then Some (n - 55)%N
  else if ((97 <=? n) && (n <=? 102))%N then Some (n - 87)%N
  else None.

Definition byte (n : N) : string := String (ascii_of_N n) EmptyString.

(** UTF-8 bytes of a code point (a lone surrogate gets its three-byte
    form). *)
Definition utf8 (cp : N) : string :=
  (if cp <? 128 then byte cp
   else if cp <? 2048 then
     byte (192 + cp / 64) ++ byte (128 + cp mod 64)
   else if cp <? 65536 then
     byte (224 + cp / 4096) ++ byte (128 + (cp / 64) mod 64)
     ++ byte (128 + cp mod 64)
   else
     byte (240 + cp / 262144) ++ byte (128 + (cp / 4096) mod 64)
     ++ byte (128 + (cp / 64) mod 64) ++ byte (128 + cp mod 64))%N.

(** Four hexadecimal digits at the head of [s]. *)
Definition hex4 (s : string) : option (N * string) :=
  match s with
  | String a (String b (String c (String d r))) =>
      match hex_val a, hex_val b, hex_val c, hex_val d with
      | Some x, Some y, Some z, Some w =>
          Some (x * 4096 + y * 256 + z * 16 + w, r)%N
      | _, _, _, _ => None
      end
  | _ => None
  end.

(** The table of one-letter escapes. *)
Definition backslash (c : ascii) : option ascii :=
  if Ascii.eqb c "034" then Some "034"%char
  else if Ascii.eqb c "\" then Some "\"%char
  else if Ascii.eqb c "/" then Some "/"%char
  else if Ascii.eqb c "b" then Some "008"%char
  else if Ascii.eqb c "f" then Some "012"%char
  else if Ascii.eqb c "n" then Some "010"%char
  else if Ascii.eqb c "r" then Some "013"%char
  else if Ascii.eqb c "t" then Some "009"%char
  else None.

(** The low half of a surrogate pair, when [s] starts with one. *)
Definition low_surrogate (s : string) : option (N * string) :=
  match s with
  | String b (String u r) =>
      if Ascii.eqb b "\" && Ascii.eqb u "u" then
        match hex4 r with
        | Some (lo, r') =>
            if ((56320 <=? lo) && (lo <=? 57343))%N then Some (lo, r')
            else None
        | None => None
        end
      else None
  | _ => None
  end.

(** The body of a string literal, after its opening quote. *)
Fixpoint scanstring (fuel : nat) (s : string) (acc : string)
  : option (string * string) :=
  match fuel with
  | O => None
  | S fuel =>
      match s with
      | EmptyString => None
      | String c t =>
          if Ascii.eqb c "034" then Some (acc, t)
          else if Ascii.eqb c "\" then
            match t with
            | EmptyString => None
            | String e t' =>
                if Ascii.eqb e "u" then
                  match hex4 t' with
                  | None => None
                  | Some (hi, r) =>
                      if ((55296 <=? hi) && (hi <=? 56319))%N then
                        match low_surrogate r with
                        | Some (lo, r') =>
                            scanstring fuel r'
                              (acc ++ utf8 (65536 + (hi - 55296) * 1024
                                            + (lo - 56320)))
                        | None => scanstring fuel r (acc ++ utf8 hi)
                        end
                      else scanstring fuel r (acc ++ utf8 hi)
                  end
                else
                  match backslash e with
                  | Some ch =>
                      scanstring fuel t' (acc ++ String ch EmptyString)
                  | None => None
                  end
            end
          else if (N_of_ascii c <? 32)%N then None
          else scanstring fuel t (acc ++ String c EmptyString)
      end
  end.

(** A maximal run of decimal digits: the digits read, their count, the
    rest. *)
Fixpoint digits (s : string) (acc : N) (count : Z) : N * Z * string :=
  match s with
  | String c t =>
      match digit_val c with
      | Some d => digits t (acc * 10 + d)%N (count + 1)%Z
      | None => (acc, count, s)
      end
  | EmptyString => (acc, count, s)
  end.

(** [float(text)] for a decimal [m * 10 ^ e] with sign [neg], rounded to
    the nearest binary64 number, ties to even. *)
Definition float_of_decimal (neg : bool) (m : N) (e : Z) : spec_float :=
  match m with
  | N0 => S754_zero neg
  | Npos p =>
      if (0 <=? e)%Z then
        binary_normalize 53 1024
          ((if neg then Z.neg p else Z.pos p) * 10 ^ e)%Z 0 false
      else
        SFdiv 53 1024 (S754_finite neg p 0)
          (S754_finite false (Z.to_pos (10 ^ (- e))) 0)
  end.

(** The integer part: [0], or a non-zero digit and more digits; with the
    number of its digits. *)
Definition int_part (s : string) : option (N * Z * string) :=
  match s with
  | String c t =>
      match digit_val c with
      | Some 0%N => Some (0%N, 1%Z, t)
      | Some d => Some (digits t d 1)
      | None => None
      end
  | EmptyString => None
  end.

(** The optional fraction: a dot and at least one digit. *)
Definition frac_part (m : N) (s : string) : option (N * Z * string) :=
  match s with
  | String c t =>
      if Ascii.eqb c "." then
        let '(n, k, r) := digits t m 0 in
        if (0 <? k)%Z then Some (n, k, r) else None
      else None
  | EmptyString => None
  end.

(** The optional exponent: [e] or [E], a sign, at least one digit. *)
Definition exp_part (s : string) : option (Z * string) :=
  match s with
  | String c t =>
      if Ascii.eqb c "e" || Ascii.eqb c "E" then
        let '(neg, t') :=
          match t with
          | String sg u =>
              if Ascii.eqb sg "-" then (true, u)
              else if Ascii.eqb sg "+" then (false, u)
              else (false, t)
          | EmptyString => (false, t)
          end in
        let '(n, k, r) := digits t' 0 0 in
        if (0 <? k)%Z
        then Some (if neg then (- Z.of_N n)%Z else Z.of_N n, r)
        else None
      else None
  | EmptyString => None
  end.

Section Decoder.

Variable py : interpreter.

(** [int(text)] for the digits of an integer literal: [ValueError] when
    there are too many. *)
Definition int_of_digits (neg : bool) (n : N) (count : Z) : result value :=
  if exceeds_digits (int_max_str_digits py) (Z.to_nat count)
  then Raise ValueError
  else Ok (VInt (if neg then - Z.of_N n else Z.of_N n)).

(** A number literal at the head of [s], and what converting it gives: an
    [int] without fraction and exponent, a [float] otherwise. *)
Definition number (s : string) : option (result value * string) :=
  let '(neg, s1) :=
    match s with
    | String c t => if Ascii.eqb c "-" then (true, t) else (false, s)
    | EmptyString => (false, s)
    end in
  match int_part s1 with
  | None => None
  | Some (n, count, s2) =>
      match frac_part n s2, exp_part s2 with
      | Some (m, k, s3), _ =>
          match exp_part s3 with
          | Some (e, s4) =>
              Some (Ok (VFloat (float_of_decimal neg m (e - k))), s4)
          | None => Some (Ok (VFloat (float_of_decimal neg m (- k))), s3)
          end
      | None, Some (e, s3) =>
          Some (Ok (VFloat (float_of_decimal neg n e)), s3)
      | None, None => Some (int_of_digits neg n count, s2)
      end
  end.

(** [s] without the prefix [p], when it starts with it. *)
Fixpoint strip (p s : string) : option string :=
  match p, s with
  | EmptyString, _ => Some s
  | String a p', String b s' => if Ascii.eqb a b then strip p' s' else None
  | _, EmptyString => None
  end.

(** The constants and the numbers. *)
Definition constant (s : string) : result (value * string) :=
  match strip "null" s with
  | Some r => Ok (VNone, r)
  | None =>
  match strip "true" s with
  | Some r => Ok (VBool true, r)
  | None =>
  match strip "false" s with
  | Some r => Ok (VBool false, r)
  | None =>
  match number s with
  | Some (converted, r) => v <- converted ;; Ok (v, r)
  | None =>
  match strip "NaN" s with
  | Some r => Ok (VFloat S754_nan, r)
  | None =>
  match strip "Infinity" s with
  | Some r => Ok (VFloat (S754_infinity false), r)
  | None =>
  match strip "-Infinity" s with
  | Some r => Ok (VFloat (S754_infinity true), r)
  | None => Raise JSONDecodeError
  end end end end end end end.

(** One value at the head of [s]; the members of an object after its
    brace or a comma; the items of an array.  [depth] is the number of
    arrays and objects that can still be entered. *)
Fixpoint scan_once (fuel : nat) (depth : nat) (s : string)
  : result (value * string) :=
  match fuel with
  | O => Raise JSONDecodeError
  | S fuel =>
      match s with
      | EmptyString => Raise JSONDecodeError
      | String c t =>
          if Ascii.eqb c "034" then
            match scanstring (S (String.length t)) t EmptyString with
            | Some (str, r) => Ok (VStr str, r)
            | None => Raise JSONDecodeError
            end
          else if Ascii.eqb c "{" then
            match depth with
            | O => Raise RecursionError
            | S depth =>
                match skip_ws t with
                | String c' r =>
                    if Ascii.eqb c' "}" then Ok (VDict [], r)
                    else members fuel depth (skip_ws t) []
                | EmptyString => Raise JSONDecodeError
                end
            end
          else if Ascii.eqb c "[" then
            match depth with
            | O => Raise RecursionError
            | S depth =>
                match skip_ws t with
                | String c' r =>
                    if Ascii.eqb c' "]" then Ok (VList [], r)
                    else items fuel depth (skip_ws t) []
                | EmptyString => Raise JSONDecodeError
                end
            end
          else constant s
      end
  end

with members (fuel : nat) (depth : nat) (s : string) (acc : dict)
  : result (value * string) :=
  match fuel with
  | O => Raise JSONDecodeError
  | S fuel =>
      match s with
      | String q t =>
          if Ascii.eqb q "034" then
            match scanstring (S (String.length t)) t EmptyString with
            | None => Raise JSONDecodeError
            | Some (key, r) =>
                match skip_ws r with
                | String colon r1 =>
                    if Ascii.eqb colon ":" then
                      match scan_once fuel depth (skip_ws r1) with
                      | Raise e => Raise e
                      | Ok (v, r2) =>
                          let acc := dict_set key v acc in
                          match skip_ws r2 with
                          | String d r3 =>
                              if Ascii.eqb d "}" then Ok (VDict acc, r3)
                              else if Ascii.eqb d "," then
                                members fuel depth (skip_ws r3) acc
                              else Raise JSONDecodeError
                          | EmptyString => Raise JSONDecodeError
                          end
                      end
                    else Raise JSONDecodeError
                | EmptyString => Raise JSONDecodeError
                end
            end
          else Raise JSONDecodeError
      | EmptyString => Raise JSONDecodeError
      end
  end

with items (fuel : nat) (depth : nat) (s : string) (acc : list value)
  : result (value * string) :=
  match fuel with
  | O => Raise JSONDecodeError
  | S fuel =>
      match scan_once fuel depth s with
      | Raise e => Raise e
      | Ok (v, r) =>
          let acc := list_append acc v in
          match skip_ws r with
          | String d r1 =>
              if Ascii.eqb d "]" then Ok (VList acc, r1)
              else if Ascii.eqb d "," then items fuel depth (skip_ws r1) acc
              else Raise JSONDecodeError
          | EmptyString => Raise JSONDecodeError
          end
      end
  end.

(** [json.loads(s)]: one value between optional white space, nothing
    after it.  Each recursive call of the scanner follows at least one
    consumed character every second call, hence the fuel. *)
Definition loads (s : string) : result value :=
  match scan_once (2 * String.length s + 2) (json_depth py) (skip_ws s) with
  | Ok (v, r) =>
      match skip_ws r with
      | EmptyString => Ok v
      | String _ _ => Raise JSONDecodeError
      end
  | Raise e => Raise e
  end.

End Decoder.

End Json.


(** ** engine/analyzer.py: the response extractor *)

Module TyphoonSafetyAnalyzer.

Section ParseResponse.

(** [json.loads]: the decoded value, or the exception it raises. *)
Variable json_loads : string -> result value.

(** The handler catches [JSONDecodeError] only; any other exception of
    the decoder leaves the function. *)
Definition _parse_response (response_text : string) : result value :=
  let start_idx := py_find "{" response_text in
  let end_idx := py_rfind "}" response_text + 1 in
  if negb (start_idx =? -1) && negb (end_idx =? -1) then
    let json_str := py_slice response_text start_idx end_idx in
    match json_loads json_str with
    | Ok parsed => Ok parsed
    | Raise JSONDecodeError =>
        Ok (VDict [("overall_risk_level", VStr "unknown");
                   ("hazards_detected", VList []);
                   ("summary", VStr "Failed to parse response");
                   ("urgent_actions", VList []);
                   ("confidence_score", VFloat float_zero);
                   ("raw_response", VStr response_text)])
    | Raise e => Raise e
    end
  else
    Ok (VDict [("overall_risk_level", VStr "unknown");
               ("hazards_detected", VList []);
               ("summary", VStr response_text);
               ("urgent_actions", VList []);
               ("confidence_score", VFloat float_zero);
               ("raw_response", VStr response_text)]).

End ParseResponse.

(** Lines 92 and 93 of [analyze_image]: the reply is extracted, then
    validated; an exception of either step leaves both. *)
Definition parse_and_validate (py : interpreter)
  (json_loads : string -> result value) (content : string) : result value :=
  analysis_result <- _parse_response json_loads content ;;
  OutputValidator.validate py analysis_result.

End TyphoonSafetyAnalyzer.

(** ** The report schema

    The shapes of the specification's data model, as decidable checks. *)

Definition is_str (v : value) : bool :=
  match v with VStr _ => true | _ => false end.

(** The keys of [d] are pairwise distinct and are exactly [ks]. *)
Definition has_keys_exactly (ks : list string) (d : dict) : bool :=
  dict_wf d
  && forallb (fun k => existsb (String.eqb k) ks) (keys d)
  && forallb (fun k => dict_mem k d) ks.

(** Key [k] is present in [d] and its value satisfies [p]. *)
Definition field_is (p : value -> bool) (k : string) (d : dict) : bool :=
  match dict_get k d with Some v => p v | None => false end.

Definition RiskLevel : list value :=
  [VStr "low"; VStr "medium"; VStr "high"; VStr "critical"; VStr "unknown"].

Definition MovementRisk : list value :=
  [VStr "high"; VStr "medium"; VStr "low"; VStr "unknown"].

Inductive field_kind : Type :=
| Text
| Level
| Movement.

(** The fields of a hazard entry, per category. *)
Definition entry_shape (category : string) : list (string * field_kind) :=
  if String.eqb category "flying_objects" then
    [("item", Text); ("description", Text); ("movement_risk", Movement);
     ("impact_severity", Level); ("overall_risk", Level);
     ("location", Text); ("recommendation", Text)]
  else if String.eqb category "structural_damage" then
    [("item", Text); ("description", Text); ("risk_level", Level);
     ("location", Text); ("recommendation", Text)]
  else if String.eqb category "elevated_objects" then
    [("item", Text); ("description", Text); ("fall_risk", Movement);
     ("impact_severity", Level); ("overall_risk", Level);
     ("location", Text); ("recommendation", Text)]
  else if String.eqb category "tree_hazards" then
    [("description", Text); ("risk_level", Level);
     ("location", Text); ("recommendation", Text)]
  else [].

(** [text_ok] is the check applied to free-text fields. *)
Definition kind_ok (text_ok : value -> bool) (kind : field_kind) (v : value)
  : bool :=
  match kind with
  | Text => text_ok v
  | Level => py_in v RiskLevel
  | Movement => py_in v MovementRisk
  end.

Definition entry_ok (text_ok : value -> bool) (category : string) (e : value)
  : bool :=
  match e with
  | VDict d =>
      has_keys_exactly (map fst (entry_shape category)) d
      && forallb (fun kk => field_is (kind_ok text_ok (snd kk)) (fst kk) d)
           (entry_shape category)
  | _ => false
  end.

Definition entries_ok (text_ok : value -> bool) (category : string)
  (v : value) : bool :=
  match v with
  | VList es => forallb (entry_ok text_ok category) es
  | _ => false
  end.

Definition hazards_ok (text_ok : value -> bool) (v : value) : bool :=
  match v with
  | VDict h =>
      has_keys_exactly OutputValidator.hazard_categories h
      && forallb (fun c => field_is (entries_ok text_ok c) c h)
           OutputValidator.hazard_categories
  | _ => false
  end.

(** A non-negative integer, in Python's sense of [int]. *)
Definition is_count (v : value) : bool :=
  isinstance_int v && py_le (VInt 0) v.

Definition risk_summary_ok (v : value) : bool :=
  match v with
  | VDict s =>
      has_keys_exactly OutputValidator.count_keys s
      && forallb (fun k => field_is is_count k s) OutputValidator.count_keys
  | _ => false
  end.

(** A number in [[0.0, 1.0]]. *)
Definition confidence_ok (v : value) : bool :=
  isinstance_int_float v
  && py_le (VFloat float_zero) v && py_le v (VFloat float_one).

Definition sequence_ok (item_ok : value -> bool) (v : value) : bool :=
  match v with
  | VList l => forallb item_ok l
  | _ => false
  end.

(** [{errors, is_valid}] with [is_valid] true iff there is no error. *)
Definition validation_ok (v : value) : bool :=
  match v with
  | VDict m =>
      has_keys_exactly ["errors"; "is_valid"] m
      && match dict_get "errors" m, dict_get "is_valid" m with
         | Some (VList errs), Some (VBool b) =>
             forallb is_str errs
             && Bool.eqb b (Nat.eqb (List.length errs) 0)
         | _, _ => false
         end
  | _ => false
  end.

Definition report_fields : list string :=
  ["overall_risk_level"; "hazards_by_category"; "risk_summary";
   "urgent_actions"; "summary"; "confidence_score"; "validation"].

(** A fully conformant AnalysisReport: exactly the seven fields, each of
    its declared type. *)
Definition conformant (v : value) : bool :=
  match v with
  | VDict r =>
      has_keys_exactly report_fields r
      && field_is (fun l => py_in l RiskLevel) "overall_risk_level" r
      && field_is (hazards_ok is_str) "hazards_by_category" r
      && field_is risk_summary_ok "risk_summary" r
      && field_is (sequence_ok is_str) "urgent_actions" r
      && field_is is_str "summary" r
      && field_is confidence_ok "confidence_score" r
      && field_is validation_ok "validation" r
  | _ => false
  end.

(** A conformant report that carries no error. *)
Definition conformant_clean (v : value) : bool :=
  conformant v
  && match v with
     | VDict r =>
         field_is (fun m => match m with
                            | VDict m =>
                                field_is (py_eq (VList [])) "errors" m
                                && field_is (py_eq (VBool true)) "is_valid" m
                            | _ => false
                            end) "validation" r
     | _ => false
     end.

(** What [validate] establishes on every report it returns: the fields it
    checks are present and of their type; free text is not inspected. *)
Definition repaired (r : dict) : bool :=
  forallb (fun k => dict_mem k r) report_fields
  && field_is (fun l => py_in l RiskLevel) "overall_risk_level" r
  && field_is isinstance_dict "hazards_by_category" r
  && field_is risk_summary_ok "risk_summary" r
  && field_is isinstance_list "urgent_actions" r
  && field_is confidence_ok "confidence_score" r
  && field_is validation_ok "validation" r.

(** The entries the category loop visits: the list under the category's
    key, or none. *)
Definition category_items (category : string) (hazards : dict) : list value :=
  match dict_get_or category (VList []) hazards with
  | VList l => l
  | _ => []
  end.

(** The entries of every category that the loop visits are dictionaries. *)
Definition visited_are_dicts (h : dict) : bool :=
  forallb (fun c => forallb isinstance_dict (category_items c h))
    OutputValidator.hazard_categories.

(** The hazard entries of an input are dictionaries, wherever
    [hazards_by_category] is a dictionary and a category holds a list. *)
Definition entries_are_dicts (d : dict) : bool :=
  match dict_get "hazards_by_category" d with
  | Some (VDict h) => visited_are_dicts h
  | _ => true
  end.

(** [hazards_by_category] is absent or a dictionary. *)
Definition hazards_absent_or_dict (d : dict) : bool :=
  match dict_get "hazards_by_category" d with
  | Some v => isinstance_dict v
  | None => true
  end.

(** The error list as the check order prescribes it, read off the input:
    the missing required fields in their order, then the complaints about
    [overall_risk_level], [hazards_by_category], [risk_summary],
    [confidence_score] and [urgent_actions]. *)
Section ExpectedErrors.

Variable py : interpreter.

Definition missing_message (field : string) : string :=
  "Missing required field: " ++ field.

Definition missing_errors (d : dict) : list string :=
  map missing_message
    (filter (fun field => negb (dict_mem field d))
       OutputValidator.required_fields).

(** The complaint about [overall_risk_level]; formatting it can raise. *)
Definition level_errors (d : dict) : result (list string) :=
  match dict_get "overall_risk_level" d with
  | Some v =>
      if py_in v RiskLevel then Ok []
      else text <- py_str py v ;; Ok ["Invalid overall_risk_level: " ++ text]
  | None => Ok []
  end.

Definition hazards_errors (d : dict) : list string :=
  match dict_get "hazards_by_category" d with
  | Some (VDict _) | None => []
  | Some _ => ["hazards_by_category must be a dictionary"]
  end.

Definition summary_errors (d : dict) : list string :=
  match dict_get "risk_summary" d with
  | Some (VDict _) | None => []
  | Some _ => ["risk_summary must be a dictionary"]
  end.

(** The complaint about [confidence_score]; formatting it can raise. *)
Definition confidence_errors (d : dict) : result (list string) :=
  match dict_get "confidence_score" d with
  | Some v =>
      if confidence_ok v then Ok []
      else text <- py_str py v ;; Ok ["Invalid confidence_score: " ++ text]
  | None => Ok []
  end.

Definition actions_errors (d : dict) : list string :=
  match dict_get "urgent_actions" d with
  | Some (VList _) | None => []
  | Some _ => ["urgent_actions must be a list"]
  end.

Definition expected_errors (d : dict) : result (list string) :=
  level <- level_errors d ;;
  confidence <- confidence_errors d ;;
  Ok (missing_errors d ++ level ++ hazards_errors d
      ++ summary_errors d ++ confidence ++ actions_errors d)%list.

(** The exception [validate] raises on the dictionary [d], if any: from
    formatting the level, else from a hazard entry without [get], else
    from formatting the confidence. *)
Definition raised (d : dict) : option exn :=
  match level_errors d with
  | Raise e => Some e
  | Ok _ =>
      if entries_are_dicts d then
        match confidence_errors d with
        | Raise e => Some e
        | Ok _ => None
        end
      else Some AttributeError
  end.

(** The values [validate] formats into a message: an [overall_risk_level]
    outside its enumeration and a [confidence_score] that is not a number
    in [[0.0, 1.0]]. *)
Definition formatted_values (d : dict) : list value :=
  (match dict_get "overall_risk_level" d with
   | Some v => if py_in v RiskLevel then [] else [v]
   | None => []
   end
   ++ match dict_get "confidence_score" d with
      | Some v => if confidence_ok v then [] else [v]
      | None => []
      end)%list.

(** The input's level, when it is outside the enumeration. *)
Definition invalid_level (d : dict) : option value :=
  match dict_get "overall_risk_level" d with
  | Some v => if py_in v RiskLevel then None else Some v
  | None => None
  end.

(** The input's confidence, when it is not a number in [[0.0, 1.0]]. *)
Definition invalid_confidence (d : dict) : option value :=
  match dict_get "confidence_score" d with
  | Some v => if confidence_ok v then None else Some v
  | None => None
  end.

(** [str(v)] returns. *)
Definition formats (v : value) : bool :=
  match py_str py v with Ok _ => true | Raise _ => false end.

(** The nested [repr] calls that formatting [v] takes: one for a
    scalar, one more than its deepest element for a container. *)
Fixpoint repr_calls (v : value) : nat :=
  match v with
  | VList l =>
      S ((fix deepest (l : list value) : nat :=
            match l with
            | [] => O
            | x :: t => Nat.max (repr_calls x) (deepest t)
            end) l)
  | VDict d =>
      S ((fix deepest (d : dict) : nat :=
            match d with
            | [] => O
            | (_, x) :: t => Nat.max (repr_calls x) (deepest t)
            end) d)
  | _ => 1%nat
  end.

(** No integer in [v] has more digits than the interpreter prints. *)
Fixpoint ints_print (v : value) : bool :=
  match v with
  | VInt n =>
      negb (exceeds_digits (int_max_str_digits py)
              (String.length (NilZero.string_of_int (Z.to_int (Z.abs n)))))
  | VList l =>
      (fix every (l : list value) : bool :=
         match l with
         | [] => true
         | x :: t => ints_print x && every t
         end) l
  | VDict d =>
      (fix every (d : dict) : bool :=
         match d with
         | [] => true
         | (_, x) :: t => ints_print x && every t
         end) d
  | _ => true
  end.

(** [v] can be formatted: it is a string, or [repr] has the calls that
    [v] takes and prints every integer in it. *)
Definition printable (v : value) : bool :=
  match v with
  | VStr _ => true
  | _ => (repr_calls v <=? repr_depth py)%nat && ints_print v
  end.

(** Every value [validate] has to format into a message can be
    formatted. *)
Definition messages_format (d : dict) : bool :=
  forallb printable (formatted_values d).

End ExpectedErrors.

(** Whether an error message is about the required field [field]: it
    reports the field as missing, or as invalid, or as not being the
    container it must be. *)
Definition about (field message : string) : bool :=
  String.eqb message (missing_message field)
  || String.prefix ("Invalid " ++ field ++ ":") message
  || String.eqb message (field ++ " must be a dictionary")
  || String.eqb message (field ++ " must be a list").

(** The complaint of one check: nothing, or one message, and nothing
    when the field was missing. *)
Definition one_complaint (d : dict) (field : string) (errs : list string)
  (shape : string -> Prop) : Prop :=
  errs = [] \/ (dict_mem field d = true /\ exists m, errs = [m] /\ shape m).

(** The validation record that goes with an error list. *)
Definition validation_record (errors : list string) : value :=
  VDict [("errors", VList (map VStr errors));
         ("is_valid", VBool (Nat.eqb (List.length errors) 0))].

(** ** Extractor inputs, as the claims word them *)

Fixpoint contains (c : ascii) (s : string) : bool :=
  match s with
  | EmptyString => false
  | String a t => Ascii.eqb a c || contains c t
  end.

(** No first-[{] / last-[}] pair: no [{] at all, or the last [}] (if any)
    before the first [{]. *)
Definition no_valid_pair (text : string) : bool :=
  negb (contains "{" text) || (py_rfind "}" text <? py_find "{" text).

(** The substring from the first [{] to the last [}], both included. *)
Definition spanned (text : string) : string :=
  py_slice text (py_find "{" text) (py_rfind "}" text + 1).

Definition fallback (summary raw : string) : value :=
  VDict [("overall_risk_level", VStr "unknown");
         ("hazards_detected", VList []);
         ("summary", VStr summary);
         ("urgent_actions", VList []);
         ("confidence_score", VFloat float_zero);
         ("raw_response", VStr raw)].

(** ** Concrete inputs *)

(** Writes a double quote for every apostrophe. *)
Fixpoint dq (s : string) : string :=
  match s with
  | EmptyString => EmptyString
  | String c t => String (if Ascii.eqb c "'" then "034"%char else c) (dq t)
  end.

Definition scenario_d_text : string :=
  dq ("prefix {'overall_risk_level':'high','hazards_by_category':{},"
      ++ "'risk_summary':{'critical_count':2,'high_count':-1,"
      ++ "'total_hazards':2},'urgent_actions':['evacuate'],"
      ++ "'summary':'bad weather','confidence_score':0.9} suffix").

(** The binary64 number nearest to [0.9]. *)
Definition float_0_9 : spec_float :=
  S754_finite false 8106479329266893 (-53).

Definition scenario_d_parsed : value :=
  VDict [("overall_risk_level", VStr "high");
         ("hazards_by_category", VDict []);
         ("risk_summary",
          VDict [("critical_count", VInt 2); ("high_count", VInt (-1));
                 ("total_hazards", VInt 2)]);
         ("urgent_actions", VList [VStr "evacuate"]);
         ("summary", VStr "bad weather");
         ("confidence_score", VFloat float_0_9)].

Definition scenario_d_report : value :=
  VDict [("overall_risk_level", VStr "high");
         ("hazards_by_category",
          VDict [("flying_objects", VList []);
                 ("structural_damage", VList []);
                 ("elevated_objects", VList []);
                 ("tree_hazards", VList [])]);
         ("risk_summary",
          VDict [("critical_count", VInt 2); ("high_count", VInt 0);
                 ("medium_count", VInt 0); ("low_count", VInt 0);
                 ("total_hazards", VInt 2)]);
         ("urgent_actions", VList [VStr "evacuate"]);
         ("summary", VStr "bad weather");
         ("confidence_score", VFloat float_0_9);
         ("validation", VDict [("errors", VList []);
                               ("is_valid", VBool true)])].

Definition empty_report : value :=
  VDict [("overall_risk_level", VStr "unknown");
         ("hazards_by_category",
          VDict [("flying_objects", VList []);
                 ("structural_damage", VList []);
                 ("elevated_objects", VList []);
                 ("tree_hazards", VList [])]);
         ("risk_summary",
          VDict [("critical_count", VInt 0); ("high_count", VInt 0);
                 ("medium_count", VInt 0); ("low_count", VInt 0);
                 ("total_hazards", VInt 0)]);
         ("urgent_actions", VList []);
         ("summary", VStr "Analysis incomplete");
         ("confidence_score", VFloat float_zero);
         ("validation",
          VDict [("errors",
                  VList [VStr "Missing required field: overall_risk_level";
                         VStr "Missing required field: hazards_by_category";
                         VStr "Missing required field: risk_summary";
                         VStr "Missing required field: urgent_actions";
                         VStr "Missing required field: summary";
                         VStr "Missing required field: confidence_score"]);
                 ("is_valid", VBool false)])].

(** A formatter to instantiate the two [repr] parameters where a concrete
    one is needed; no statement depends on what it prints. *)
Definition any_repr {A : Type} (_ : A) : string := EmptyString.

(** An interpreter with the default digit limit and a thousand nested
    calls available. *)
Definition cpython : interpreter :=
  {| repr_float := any_repr;
     repr_str := any_repr;
     int_max_str_digits := 4300;
     repr_depth := 1000;
     json_depth := 1000 |}.

(** [v] inside [n] lists. *)
Fixpoint nested (n : nat) (v : value) : value :=
  match n with
  | O => v
  | S n => VList [nested n v]
  end.

(** An integer of 4301 digits. *)
Definition long_integer : Z := 10 ^ 4300.

(** [n] copies of a character. *)
Fixpoint copies (n : nat) (c : ascii) : string :=
  match n with
  | O => EmptyString
  | S n => String c (copies n c)
  end.

(** An object whose one member is [n] arrays, one in the other, in a
    sentence. *)
Definition nested_arrays_text (n : nat) : string :=
  "Result: " ++ dq "{'a':" ++ copies n "[" ++ copies n "]" ++ "} Done.".

(** An object whose one member is an integer of [n] digits. *)
Definition long_integer_text (n : nat) : string :=
  dq "{'a':" ++ copies n "7" ++ "}".

(** ** A functional reading of the validator

    What the validator computes on well-formed pieces, without the
    exception plumbing; the lemmas below relate it to the code. *)

(** [risk_field] on a dictionary. *)
Definition coerce_risk (allowed : list value) (k : string) (e : dict) : value :=
  if py_in (dict_get_or k VNone e) allowed
  then dict_get_or k (VStr "unknown") e
  else VStr "unknown".

(** The placeholder of a free-text field. *)
Definition placeholder (category k : string) : string :=
  if String.eqb k "item" then
    if String.eqb category "structural_damage" then "Unknown structure"
    else "Unknown object"
  else if String.eqb k "description" then "No description"
  else if String.eqb k "location" then "Location not specified"
  else "No recommendation".

(** A hazard entry rebuilt field by field along its category's shape. *)
Definition normal_entry (category : string) (e : dict) : dict :=
  map (fun kk =>
         (fst kk,
          match snd kk with
          | Text => dict_get_or (fst kk) (VStr (placeholder category (fst kk))) e
          | Level => coerce_risk OutputValidator.valid_risk_levels (fst kk) e
          | Movement => coerce_risk OutputValidator.movement_levels (fst kk) e
          end))
    (entry_shape category).

Definition normal_entry_value (category : string) (v : value) : value :=
  match v with
  | VDict e => VDict (normal_entry category e)
  | _ => v
  end.

Definition normal_hazards (hazards : dict) : dict :=
  map (fun c => (c, VList (map (normal_entry_value c) (category_items c hazards))))
    OutputValidator.hazard_categories.

Definition level_out (d : dict) : value :=
  match dict_get "overall_risk_level" d with
  | Some v => if py_in v RiskLevel then v else VStr "unknown"
  | None => VStr "unknown"
  end.

Definition hazards_out (d : dict) : value :=
  match dict_get "hazards_by_category" d with
  | Some (VDict h) => VDict (normal_hazards h)
  | Some _ => VDict []
  | None => VDict (normal_hazards [])
  end.

Definition summary_out (d : dict) : value :=
  match dict_get "risk_summary" d with
  | Some (VDict s) => VDict (OutputValidator._validate_risk_summary s)
  | _ => OutputValidator._get_default_risk_summary
  end.

Definition confidence_out (d : dict) : value :=
  match dict_get "confidence_score" d with
  | Some v => if confidence_ok v then v else VFloat float_zero
  | None => VFloat float_zero
  end.

Definition actions_out (d : dict) : value :=
  match dict_get "urgent_actions" d with
  | Some (VList l) => VList l
  | _ => VList []
  end.

Definition text_out (d : dict) : value :=
  dict_get_or "summary" (VStr "Analysis incomplete") d.

(** [d2] is [d1] with [k] bound to [v], as far as lookups can tell. *)
Definition updates (d1 : dict) (k : string) (v : value) (d2 : dict) : Prop :=
  forall k', dict_get k' d2 = if String.eqb k' k then Some v else dict_get k' d1.

(** The report [r] that belongs to the input [d], field by field: each
    checked field holds its repaired value, [validation] the record of the
    expected errors, every other key what the input had. *)
Record normalises (py : interpreter) (d r : dict) : Prop := {
  nf_level : dict_get "overall_risk_level" r = Some (level_out d);
  nf_hazards : dict_get "hazards_by_category" r = Some (hazards_out d);
  nf_summary : dict_get "risk_summary" r = Some (summary_out d);
  nf_actions : dict_get "urgent_actions" r = Some (actions_out d);
  nf_text : dict_get "summary" r = Some (text_out d);
  nf_confidence : dict_get "confidence_score" r = Some (confidence_out d);
  nf_validation :
    exists errors,
      expected_errors py d = Ok errors
      /\ dict_get "validation" r = Some (validation_record errors);
  nf_other :
    forall k, existsb (String.eqb k) report_fields = false ->
              dict_get k r = dict_get k d
}.

(** A report candidate with an unknown level, partial entries, a
    non-list category, doubtful counts, a boolean confidence and a stray
    key. *)
Definition sample_input : dict :=
  [("overall_risk_level", VStr "severe");
   ("hazards_by_category",
    VDict [("flying_objects",
            VList [VDict [("item", VStr "signboard");
                          ("movement_risk", VStr "critical");
                          ("impact_severity", VStr "high")]]);
           ("tree_hazards", VInt 3)]);
   ("risk_summary",
    VDict [("high_count", VInt 1); ("low_count", VBool true);
           ("total_hazards", VStr "one")]);
   ("confidence_score", VBool true);
   ("raw_response", VStr "model output")].

(** A level that is a list and a confidence that is a percentage: both
    are formatted into their messages. *)
Definition formatted_input : dict :=
  [("overall_risk_level", VList [VStr "high"; VInt 3]);
   ("confidence_score", VInt 85)].

(** A hazard entry that is a string. *)
Definition string_entry_input : dict :=
  [("hazards_by_category",
    VDict [("flying_objects", VList [VStr "signboard"])])].

(** [hazards_by_category] as a list. *)
Definition hazards_list_input : dict :=
  [("overall_risk_level", VStr "low");
   ("hazards_by_category", VList []);
   ("risk_summary", VDict []);
   ("urgent_actions", VList []);
   ("summary", VStr "ok");
   ("confidence_score", VInt 1)].

(** Unknown keys at every level. *)
Definition stray_input : dict :=
  [("overall_risk_level", VStr "low");
   ("hazards_by_category",
    VDict [("flood_risk", VList [VStr "river"]);
           ("tree_hazards",
            VList [VDict [("description", VStr "leaning tree");
                          ("height_m", VInt 12)]])]);
   ("risk_summary", VDict [("low_count", VInt 1); ("note", VStr "estimate")]);
   ("urgent_actions", VList []);
   ("summary", VStr "ok");
   ("confidence_score", VInt 1);
   ("model", VStr "v2")].

Definition stray_output : dict :=
  [("overall_risk_level", VStr "low");
   ("hazards_by_category",
    VDict [("flying_objects", VList []);
           ("structural_damage", VList []);
           ("elevated_objects", VList []);
           ("tree_hazards",
            VList [VDict [("description", VStr "leaning tree");
                          ("risk_level", VStr "unknown");
                          ("location", VStr "Location not specified");
                          ("recommendation", VStr "No recommendation")]])]);
   ("risk_summary",
    VDict [("critical_count", VInt 0); ("high_count", VInt 0);
           ("medium_count", VInt 0); ("low_count", VInt 1);
           ("total_hazards", VInt 0)]);
   ("urgent_actions", VList []);
   ("summary", VStr "ok");
   ("confidence_score", VInt 1);
   ("model", VStr "v2");
   ("validation", VDict [("errors", VList []); ("is_valid", VBool true)])].

(** After the loop over the required fields, a required key holds the
    input's value or the key's default. *)
Definition defaulted (d d1 : dict) (k : string) : Prop :=
  dict_get k d1 = match dict_get k d with
                  | Some v => Some v
                  | None => Some (OutputValidator._get_default_value k)
                  end.

(** The enumeration a risk field is held to. *)
Definition enumeration (kind : field_kind) : list value :=
  match kind with
  | Movement => MovementRisk
  | _ => RiskLevel
  end.

(** The entry fields the claims hold to [RiskLevel], and those they hold
    to [MovementRisk]. *)
Definition level_fields : list string :=
  ["impact_severity"; "overall_risk"; "risk_level"].

Definition movement_fields : list string := ["movement_risk"; "fall_risk"].

(** The report [validate] returns on [sample_input]. *)
Definition sample_output : dict :=
  Eval vm_compute in
    match OutputValidator.validate cpython (VDict sample_input) with
    | Ok (VDict r) => r
    | _ => []
    end.

(** A conformant report without errors, its keys in no particular
    order. *)
Definition conformant_sample : value :=
  VDict
    [("summary", VStr "two hazards near the entrance");
     ("overall_risk_level", VStr "high");
     ("confidence_score", VFloat float_0_9);
     ("hazards_by_category",
      VDict
        [("tree_hazards",
          VList [VDict [("risk_level", VStr "medium");
                        ("description", VStr "leaning tree");
                        ("location", VStr "car park");
                        ("recommendation", VStr "prune")]]);
         ("flying_objects",
          VList [VDict [("item", VStr "signboard");
                        ("description", VStr "loose signboard");
                        ("movement_risk", VStr "unknown");
                        ("impact_severity", VStr "critical");
                        ("overall_risk", VStr "high");
                        ("location", VStr "entrance");
                        ("recommendation", VStr "fasten")]]);
         ("structural_damage", VList []);
         ("elevated_objects", VList [])]);
     ("validation",
      VDict [("is_valid", VBool true); ("errors", VList [])]);
     ("risk_summary",
      VDict [("total_hazards", VInt 2); ("critical_count", VInt 0);
             ("high_count", VInt 1); ("medium_count", VInt 1);
             ("low_count", VInt 0)]);
     ("urgent_actions", VList [VStr "fasten the signboard"])].

(** ** What makes a report valid

    The conditions [validate] checks at the top level: the six required
    fields are present, the level is in its enumeration, the two containers
    are dictionaries, the confidence is a number in [[0.0, 1.0]], the
    actions are a list. *)
Definition top_level_ok (d : dict) : bool :=
  forallb (fun k => dict_mem k d) OutputValidator.required_fields
  && field_is (fun l => py_in l RiskLevel) "overall_risk_level" d
  && field_is isinstance_dict "hazards_by_category" d
  && field_is isinstance_dict "risk_summary" d
  && field_is confidence_ok "confidence_score" d
  && field_is isinstance_list "urgent_actions" d.

(** The report [validate] returns on [hazards_list_input]. *)
Definition hazards_list_output : dict :=
  Eval vm_compute in
    match OutputValidator.validate cpython
            (VDict hazards_list_input) with
    | Ok (VDict r) => r
    | _ => []
    end.

(** ** test_engine.py: the hazard total printed by the test script *)

(** Number of code points of a string held as UTF-8 bytes: the bytes that
    are not continuation bytes. *)
Fixpoint code_points (s : string) : Z :=
  match s with
  | EmptyString => 0
  | String c t =>
      (if (N_of_ascii c / 64 =? 2)%N then 0 else 1) + code_points t
  end.

(** [len(v)]: defined on strings, lists and dictionaries. *)
Definition py_len (v : value) : result Z :=
  match v with
  | VStr s => Ok (code_points s)
  | VList l => Ok (Z.of_nat (List.length l))
  | VDict d => Ok (Z.of_nat (List.length d))
  | _ => Raise TypeError
  end.

(** [sum(len(hazards) for hazards in
         result.get('hazards_by_category', {}).values())]. *)
Definition total_hazards (analysis : dict) : result Z :=
  match dict_get_or "hazards_by_category" (VDict []) analysis with
  | VDict hazards_by_category =>
      foldM (fun total kv => n <- py_len (snd kv) ;; Ok (total + n))
        hazards_by_category 0
  | _ => Raise AttributeError
  end.

(** * Properties *)

Local Open Scope list_scope.

(** ** Dictionaries *)

Lemma dict_get_set (k k' : string) (v : value) (d : dict) :
  dict_get k (dict_set k' v d)
  = if String.eqb k k' then Some v else dict_get k d.
Proof.
  induction d as [|[k0 v0] t IH]; simpl.
  - reflexivity.
  - destruct (String.eqb k' k0) eqn:E0; simpl.
    + apply String.eqb_eq in E0; subst k0.
      destruct (String.eqb k k'); reflexivity.
    + rewrite IH.
      destruct (String.eqb k k') eqn:E1, (String.eqb k k0) eqn:E2; try reflexivity.
      apply String.eqb_eq in E1, E2; subst.
      rewrite String.eqb_refl in E0; discriminate.
Qed.

Lemma updates_set (k : string) (v : value) (d : dict) :
  updates d k v (dict_set k v d).
Proof. intro k'; apply dict_get_set. Qed.

Lemma updates_same (k : string) (v : value) (d : dict) :
  dict_get k d = Some v -> updates d k v d.
Proof.
  intros H k'. destruct (String.eqb k' k) eqn:E; [|reflexivity].
  apply String.eqb_eq in E; subst; assumption.
Qed.

Lemma dict_set_length_present (k : string) (v : value) (d : dict) :
  dict_mem k d = true -> List.length (dict_set k v d) = List.length d.
Proof.
  unfold dict_mem. induction d as [|[k0 v0] t IH]; simpl; [discriminate|].
  destruct (String.eqb k k0); simpl; [reflexivity|].
  intro H; rewrite IH; auto.
Qed.

Lemma existsb_eqb_In (k : string) (l : list string) :
  existsb (String.eqb k) l = true <-> In k l.
Proof.
  rewrite existsb_exists; split.
  - intros [x [Hx E]]; apply String.eqb_eq in E; subst; assumption.
  - intro H; exists k; split; [assumption | apply String.eqb_refl].
Qed.

Lemma distinct_NoDup (l : list string) : distinct l = true <-> NoDup l.
Proof.
  induction l as [|x t IH]; simpl.
  - split; [constructor | reflexivity].
  - rewrite andb_true_iff, negb_true_iff, IH; split.
    + intros [Hx Ht]; constructor; [|assumption].
      intro Hin; apply existsb_eqb_In in Hin; congruence.
    + intro H; inversion H as [|? ? Hx Ht]; subst; split; [|assumption].
      destruct (existsb (String.eqb x) t) eqn:E; [|reflexivity].
      apply existsb_eqb_In in E; contradiction.
Qed.

Lemma dict_mem_In (k : string) (d : dict) :
  dict_mem k d = true <-> In k (keys d).
Proof.
  unfold dict_mem, keys. induction d as [|[k0 v0] t IH]; simpl.
  - split; [discriminate | contradiction].
  - destruct (String.eqb k k0) eqn:E.
    + apply String.eqb_eq in E; subst; split; auto.
    + rewrite IH; split; [auto|].
      intros [H|H]; [|assumption].
      subst; rewrite String.eqb_refl in E; discriminate.
Qed.

Lemma dict_get_In (k : string) (v : value) (d : dict) :
  dict_get k d = Some v -> In (k, v) d.
Proof.
  induction d as [|[k0 v0] t IH]; simpl; [discriminate|].
  destruct (String.eqb k k0) eqn:E.
  - apply String.eqb_eq in E; subst; intro H; injection H as ->; auto.
  - auto.
Qed.

Lemma In_dict_get (k : string) (v : value) (d : dict) :
  dict_wf d = true -> In (k, v) d -> dict_get k d = Some v.
Proof.
  unfold dict_wf, keys. induction d as [|[k0 v0] t IH]; simpl; [contradiction|].
  rewrite andb_true_iff, negb_true_iff; intros [Hk Ht] [H|H].
  - injection H as -> ->; rewrite String.eqb_refl; reflexivity.
  - destruct (String.eqb k k0) eqn:E; [|auto].
    apply String.eqb_eq in E; subst k0.
    assert (In k (map fst t)) as Hin by (apply (in_map fst _ _ H)).
    apply existsb_eqb_In in Hin; congruence.
Qed.

Lemma keys_dict_set_present (k : string) (v : value) (d : dict) :
  dict_mem k d = true -> keys (dict_set k v d) = keys d.
Proof.
  unfold dict_mem, keys. induction d as [|[k0 v0] t IH]; simpl; [discriminate|].
  destruct (String.eqb k k0) eqn:E; simpl.
  - apply String.eqb_eq in E; subst; reflexivity.
  - intro H; rewrite IH; auto.
Qed.

(** A dictionary with exactly the keys [ks] has as many entries as [ks]. *)
Lemma has_keys_exactly_length (ks : list string) (d : dict) :
  distinct ks = true -> has_keys_exactly ks d = true ->
  List.length d = List.length ks.
Proof.
  unfold has_keys_exactly, dict_wf.
  rewrite !andb_true_iff, !forallb_forall; intros Hks [[Hd Hsub] Hsup].
  apply distinct_NoDup in Hks, Hd.
  rewrite <- (length_map fst d); fold (keys d).
  apply Nat.le_antisymm; apply NoDup_incl_length; try assumption.
  - intros k Hk; apply existsb_eqb_In; auto.
  - intros k Hk; apply dict_mem_In; auto.
Qed.

(** ** Formatting *)

(** Induction on values, through the lists and dictionaries they hold. *)
Lemma value_induction (P : value -> Prop) :
  P VNone -> (forall b, P (VBool b)) -> (forall n, P (VInt n)) ->
  (forall f, P (VFloat f)) -> (forall s, P (VStr s)) ->
  (forall l, Forall P l -> P (VList l)) ->
  (forall d, Forall (fun kv => P (snd kv)) d -> P (VDict d)) ->
  forall v, P v.
Proof.
  intros HN HB HI HF HS HL HD. fix IH 1. intros [|b|n|f|s|l|d].
  - exact HN.
  - apply HB.
  - apply HI.
  - apply HF.
  - apply HS.
  - apply HL. induction l as [|x t IHl]; constructor; [apply IH | exact IHl].
  - apply HD. induction d as [|[k x] t IHd]; constructor;
      [apply IH | exact IHd].
Qed.

(** [repr] raises nothing but [ValueError] and [RecursionError]. *)
Lemma py_repr_raises (py : interpreter) (v : value) :
  forall depth x,
    py_repr py depth v = Raise x -> x = ValueError \/ x = RecursionError.
Proof.
  induction v as [|b|n|f|s|l IHl|d IHd] using value_induction;
    intros [|depth] x; cbn [py_repr];
    try (intro H; injection H as <-; right; reflexivity);
    try discriminate.
  - unfold repr_int. destruct (exceeds_digits _ _); [|discriminate].
    intro H; injection H as <-. left; reflexivity.
  - match goal with
    | |- bind ?m _ = _ -> _ => destruct m as [texts|y] eqn:E
    end; cbn [bind]; [discriminate|].
    intro H; injection H as ->.
    revert E. induction IHl as [|v t Hv _ IHt]; [discriminate|].
    destruct (py_repr py depth v) as [text|z] eqn:Ev; cbn [bind].
    + match goal with
      | |- bind ?m _ = _ -> _ => destruct m eqn:Et
      end; cbn [bind]; [discriminate|].
      intro H; injection H as ->. exact (IHt eq_refl).
    + intro H; injection H as ->. exact (Hv depth x Ev).
  - match goal with
    | |- bind ?m _ = _ -> _ => destruct m as [texts|y] eqn:E
    end; cbn [bind]; [discriminate|].
    intro H; injection H as ->.
    revert E. induction IHd as [|[k v] t Hv _ IHt]; [discriminate|].
    cbn [snd] in Hv.
    destruct (py_repr py depth v) as [text|z] eqn:Ev; cbn [bind].
    + match goal with
      | |- bind ?m _ = _ -> _ => destruct m eqn:Et
      end; cbn [bind]; [discriminate|].
      intro H; injection H as ->. exact (IHt eq_refl).
    + intro H; injection H as ->. exact (Hv depth x Ev).
Qed.

Lemma py_str_raises (py : interpreter) (v : value) (x : exn) :
  py_str py v = Raise x -> x = ValueError \/ x = RecursionError.
Proof.
  destruct v; cbn [py_str]; try apply py_repr_raises. discriminate.
Qed.

(** [repr] returns exactly when it has the calls the value takes and
    prints every integer in it. *)
Lemma py_repr_returns (py : interpreter) (v : value) :
  forall depth,
    (exists text, py_repr py depth v = Ok text)
    <-> (repr_calls v <= depth)%nat /\ ints_print py v = true.
Proof.
  induction v as [|b|n|f|s|l IHl|d IHd] using value_induction;
    intros [|depth]; cbn [py_repr repr_calls ints_print];
    try (split; [intros [text H]; discriminate | intros [H _]; lia]);
    try (split; [intros _; split; [lia | reflexivity]
                | intros _; eexists; reflexivity]).
  - unfold repr_int. destruct (exceeds_digits _ _); cbn [negb]; split.
    + intros [text H]; discriminate.
    + intros [_ H]; discriminate.
    + intros _. split; [lia | reflexivity].
    + intros _. eexists; reflexivity.
  - match goal with
    | |- (exists text, bind ?m _ = Ok text)
         <-> (S ?dp <= S depth)%nat /\ ?al = true =>
        assert ((exists texts, m = Ok texts)
                <-> (dp <= depth)%nat /\ al = true) as Haux
    end.
    { induction IHl as [|x t Hx _ IHt].
      - split; [intros _; split; [lia | reflexivity]
               | intros _; eexists; reflexivity].
      - rewrite andb_true_iff, Nat.max_lub_iff. specialize (Hx depth).
        destruct (py_repr py depth x) as [text|e]; cbn [bind].
        + match goal with
          | |- (exists texts, bind ?m _ = Ok texts) <-> _ =>
              destruct m as [texts|e]; cbn [bind]
          end.
          * split; [intros _ | intros _; eexists; reflexivity].
            destruct Hx as [Hx _]. destruct IHt as [IHt _].
            specialize (Hx (ex_intro _ text eq_refl)).
            specialize (IHt (ex_intro _ texts eq_refl)). tauto.
          * split; [intros [? H]; discriminate|].
            intros [[_ H1] [_ H2]]. destruct IHt as [_ IHt].
            destruct (IHt (conj H1 H2)) as [? H]; discriminate.
        + split; [intros [? H]; discriminate|].
          intros [[H1 _] [H2 _]]. destruct Hx as [_ Hx].
          destruct (Hx (conj H1 H2)) as [? H]; discriminate. }
    match goal with
    | |- (exists text, bind ?m _ = Ok text) <-> _ =>
        destruct m as [texts|e]; cbn [bind]
    end.
    + split; [intros _ | intros _; eexists; reflexivity].
      destruct Haux as [Haux _].
      destruct (Haux (ex_intro _ texts eq_refl)) as [H0 H1].
      split; [exact (proj1 (Nat.succ_le_mono _ _) H0) | exact H1].
    + split; [intros [? H]; discriminate|].
      intros [H1 H2]. destruct Haux as [_ Haux].
      pose proof (proj2 (Nat.succ_le_mono _ _) H1) as H0.
      destruct (Haux (conj H0 H2)) as [? H]; discriminate.
  - match goal with
    | |- (exists text, bind ?m _ = Ok text)
         <-> (S ?dp <= S depth)%nat /\ ?al = true =>
        assert ((exists texts, m = Ok texts)
                <-> (dp <= depth)%nat /\ al = true) as Haux
    end.
    { induction IHd as [|[k x] t Hx _ IHt].
      - split; [intros _; split; [lia | reflexivity]
               | intros _; eexists; reflexivity].
      - rewrite andb_true_iff, Nat.max_lub_iff. cbn [snd] in Hx.
        specialize (Hx depth).
        destruct (py_repr py depth x) as [text|e]; cbn [bind].
        + match goal with
          | |- (exists texts, bind ?m _ = Ok texts) <-> _ =>
              destruct m as [texts|e]; cbn [bind]
          end.
          * split; [intros _ | intros _; eexists; reflexivity].
            destruct Hx as [Hx _]. destruct IHt as [IHt _].
            specialize (Hx (ex_intro _ text eq_refl)).
            specialize (IHt (ex_intro _ texts eq_refl)). tauto.
          * split; [intros [? H]; discriminate|].
            intros [[_ H1] [_ H2]]. destruct IHt as [_ IHt].
            destruct (IHt (conj H1 H2)) as [? H]; discriminate.
        + split; [intros [? H]; discriminate|].
          intros [[H1 _] [H2 _]]. destruct Hx as [_ Hx].
          destruct (Hx (conj H1 H2)) as [? H]; discriminate. }
    match goal with
    | |- (exists text, bind ?m _ = Ok text) <-> _ =>
        destruct m as [texts|e]; cbn [bind]
    end.
    + split; [intros _ | intros _; eexists; reflexivity].
      destruct Haux as [Haux _].
      destruct (Haux (ex_intro _ texts eq_refl)) as [H0 H1].
      split; [exact (proj1 (Nat.succ_le_mono _ _) H0) | exact H1].
    + split; [intros [? H]; discriminate|].
      intros [H1 H2]. destruct Haux as [_ Haux].
      pose proof (proj2 (Nat.succ_le_mono _ _) H1) as H0.
      destruct (Haux (conj H0 H2)) as [? H]; discriminate.
Qed.

(** [str] returns exactly on the printable values. *)
Lemma formats_printable (py : interpreter) (v : value) :
  formats py v = printable py v.
Proof.
  unfold formats, printable.
  assert (match py_repr py (repr_depth py) v with
          | Ok _ => true
          | Raise _ => false
          end
          = (repr_calls v <=? repr_depth py)%nat && ints_print py v) as H.
  { pose proof (py_repr_returns py v (repr_depth py)) as [H1 H2].
    destruct (py_repr py (repr_depth py) v) as [text|e].
    - destruct (H1 (ex_intro _ text eq_refl)) as [Hc Hi].
      apply Nat.leb_le in Hc. rewrite Hc, Hi. reflexivity.
    - destruct ((repr_calls v <=? repr_depth py)%nat && ints_print py v)
        eqn:E; [|reflexivity].
      apply andb_true_iff in E as [Hc Hi]. apply Nat.leb_le in Hc.
      destruct (H2 (conj Hc Hi)) as [? H]; discriminate. }
  destruct v; try exact H. reflexivity.
Qed.

(** ** Hazard entries *)

Import OutputValidator.

Lemma risk_field_dict (e : dict) (k : string) (allowed : list value) :
  risk_field (VDict e) k allowed = Ok (coerce_risk allowed k e).
Proof.
  unfold risk_field, coerce_risk; simpl.
  destruct (py_in (dict_get_or k VNone e) allowed); reflexivity.
Qed.

(** On a dictionary each entry validator returns the rebuilt entry. *)
Lemma entry_validator_dict (c : string) (f : value -> result value) (e : dict) :
  entry_validator c = Some f -> f (VDict e) = Ok (VDict (normal_entry c e)).
Proof.
  unfold entry_validator.
  destruct (String.eqb c "flying_objects") eqn:E1;
    [|destruct (String.eqb c "structural_damage") eqn:E2;
      [|destruct (String.eqb c "elevated_objects") eqn:E3;
        [|destruct (String.eqb c "tree_hazards") eqn:E4; [|discriminate]]]];
    intro H; injection H as <-;
    match goal with E : String.eqb c _ = true |- _ =>
      apply String.eqb_eq in E; subst c end;
    [unfold _validate_flying_object | unfold _validate_structural_damage
    | unfold _validate_elevated_object | unfold _validate_tree_hazard];
    rewrite !risk_field_dict; reflexivity.
Qed.

(** On anything else the first [get] raises. *)
Lemma entry_validator_not_dict (c : string) (f : value -> result value)
  (v : value) :
  entry_validator c = Some f -> isinstance_dict v = false ->
  f v = Raise AttributeError.
Proof.
  unfold entry_validator.
  destruct (String.eqb c "flying_objects");
    [|destruct (String.eqb c "structural_damage");
      [|destruct (String.eqb c "elevated_objects");
        [|destruct (String.eqb c "tree_hazards"); [|discriminate]]]];
    intro H; injection H as <-; destruct v; try discriminate; reflexivity.
Qed.

Lemma mapM_entries (c : string) (f : value -> result value) (l : list value) :
  entry_validator c = Some f ->
  mapM f l = if forallb isinstance_dict l
             then Ok (map (normal_entry_value c) l)
             else Raise AttributeError.
Proof.
  intro Hf. induction l as [|x t IH]; simpl; [reflexivity|].
  destruct (isinstance_dict x) eqn:Hx; simpl.
  - destruct x; try discriminate.
    rewrite (entry_validator_dict c f d Hf); simpl. rewrite IH.
    destruct (forallb isinstance_dict t); reflexivity.
  - rewrite (entry_validator_not_dict c f x Hf Hx); reflexivity.
Qed.

Lemma _validate_hazard_categories_eq (h : dict) :
  _validate_hazard_categories h
  = if visited_are_dicts h then Ok (normal_hazards h)
    else Raise AttributeError.
Proof.
  unfold _validate_hazard_categories, visited_are_dicts, hazard_categories,
    validate_category.
  cbn [foldM forallb bind].
  fold (category_items "flying_objects" h).
  fold (category_items "structural_damage" h).
  fold (category_items "elevated_objects" h).
  fold (category_items "tree_hazards" h).
  change (entry_validator "flying_objects") with (Some _validate_flying_object).
  change (entry_validator "structural_damage")
    with (Some _validate_structural_damage).
  change (entry_validator "elevated_objects")
    with (Some _validate_elevated_object).
  change (entry_validator "tree_hazards") with (Some _validate_tree_hazard).
  cbv iota.
  rewrite (mapM_entries "flying_objects") by reflexivity.
  destruct (forallb isinstance_dict (category_items "flying_objects" h));
    [|reflexivity].
  cbn [bind andb].
  rewrite (mapM_entries "structural_damage") by reflexivity.
  destruct (forallb isinstance_dict (category_items "structural_damage" h));
    [|reflexivity].
  cbn [bind andb].
  rewrite (mapM_entries "elevated_objects") by reflexivity.
  destruct (forallb isinstance_dict (category_items "elevated_objects" h));
    [|reflexivity].
  cbn [bind andb].
  rewrite (mapM_entries "tree_hazards") by reflexivity.
  destruct (forallb isinstance_dict (category_items "tree_hazards" h));
    reflexivity.
Qed.

(** ** The steps of [validate] *)

Lemma check_required_field_eq (d : dict) (e : list string) (f : string) :
  check_required_field (d, e) f
  = if negb (dict_mem f d)
    then (dict_set f (_get_default_value f) d,
          list_append e (missing_message f))
    else (d, e).
Proof. reflexivity. Qed.

(** The loop over the required fields binds every missing one to its
    default and records it, in the order of the list. *)
Lemma check_required_fold (fs : list string) (d : dict) (e : list string) :
  distinct fs = true ->
  (forall k,
      dict_get k (fst (fold_left check_required_field fs (d, e)))
      = match dict_get k d with
        | Some v => Some v
        | None => if existsb (String.eqb k) fs
                  then Some (_get_default_value k) else None
        end)
  /\ snd (fold_left check_required_field fs (d, e))
     = e ++ map missing_message
              (filter (fun field => negb (dict_mem field d)) fs).
Proof.
  revert d e. induction fs as [|f t IH]; intros d e Hfs.
  - simpl; split.
    + intro k; destruct (dict_get k d); reflexivity.
    + rewrite app_nil_r; reflexivity.
  - simpl in Hfs. apply andb_true_iff in Hfs as [Hf Ht].
    apply negb_true_iff in Hf.
    cbn [fold_left filter]. rewrite check_required_field_eq.
    destruct (dict_mem f d) eqn:Hmem; cbn [negb].
    + destruct (IH d e Ht) as [Hget Herr]; split; [|exact Herr].
      intro k; rewrite Hget. cbn [existsb].
      destruct (dict_get k d) eqn:Hk; [reflexivity|].
      destruct (String.eqb k f) eqn:Ekf; [|reflexivity].
      apply String.eqb_eq in Ekf; subst k.
      unfold dict_mem in Hmem; rewrite Hk in Hmem; discriminate.
    + destruct (IH (dict_set f (_get_default_value f) d)
                  (list_append e (missing_message f)) Ht)
        as [Hget Herr]; split.
      * intro k; rewrite Hget, dict_get_set. cbn [existsb].
        destruct (String.eqb k f) eqn:Ekf.
        -- apply String.eqb_eq in Ekf; subst k.
           unfold dict_mem in Hmem.
           destruct (dict_get f d); [discriminate | reflexivity].
        -- reflexivity.
      * rewrite Herr. unfold list_append. rewrite <- app_assoc.
        cbn [app map]. do 3 f_equal.
        apply filter_ext_in; intros g Hg. f_equal.
        unfold dict_mem; rewrite dict_get_set.
        destruct (String.eqb g f) eqn:Egf; [|reflexivity].
        apply String.eqb_eq in Egf; subst g.
        apply existsb_eqb_In in Hg; congruence.
Qed.

Section Steps.

Variable py : interpreter.

Lemma check_overall_risk_level_spec (d : dict) (e : list string) (v : value) :
  dict_get "overall_risk_level" d = Some v ->
  match level_errors py d with
  | Ok errs =>
      exists d',
        check_overall_risk_level py (d, e) = Ok (d', e ++ errs)
        /\ updates d "overall_risk_level" (level_out d) d'
  | Raise x => check_overall_risk_level py (d, e) = Raise x
  end.
Proof.
  intro H. unfold check_overall_risk_level, level_errors, level_out, dict_get_or.
  rewrite H. change valid_risk_levels with RiskLevel.
  destruct (py_in v RiskLevel); cbn [negb].
  - exists d; split; [rewrite app_nil_r; reflexivity|].
    apply updates_same; assumption.
  - destruct (py_str py v) as [text|x]; cbn [bind]; [|reflexivity].
    eexists; split; [reflexivity | apply updates_set].
Qed.

Lemma check_hazards_by_category_spec (d : dict) (e : list string) (v : value) :
  dict_get "hazards_by_category" d = Some v ->
  if entries_are_dicts d then
    exists d',
      check_hazards_by_category (d, e) = Ok (d', e ++ hazards_errors d)
      /\ updates d "hazards_by_category" (hazards_out d) d'
  else check_hazards_by_category (d, e) = Raise AttributeError.
Proof.
  intro H.
  unfold check_hazards_by_category, entries_are_dicts, hazards_errors,
    hazards_out, dict_get_or.
  rewrite H.
  destruct v;
    try (eexists; split; [reflexivity | apply updates_set]).
  rewrite _validate_hazard_categories_eq.
  destruct (visited_are_dicts d0); cbn [bind]; [|reflexivity].
  eexists; split; [rewrite app_nil_r; reflexivity | apply updates_set].
Qed.

Lemma check_risk_summary_spec (d : dict) (e : list string) (v : value) :
  dict_get "risk_summary" d = Some v ->
  exists d',
    check_risk_summary (d, e) = (d', e ++ summary_errors d)
    /\ updates d "risk_summary" (summary_out d) d'.
Proof.
  intro H.
  unfold check_risk_summary, summary_errors, summary_out, dict_get_or.
  rewrite H.
  destruct v;
    try (eexists; split; [reflexivity | apply updates_set]).
  eexists; split; [rewrite app_nil_r; reflexivity | apply updates_set].
Qed.

Lemma check_confidence_score_spec (d : dict) (e : list string) (v : value) :
  dict_get "confidence_score" d = Some v ->
  match confidence_errors py d with
  | Ok errs =>
      exists d',
        check_confidence_score py (d, e) = Ok (d', e ++ errs)
        /\ updates d "confidence_score" (confidence_out d) d'
  | Raise x => check_confidence_score py (d, e) = Raise x
  end.
Proof.
  intro H.
  unfold check_confidence_score, confidence_errors, confidence_out,
    dict_get_or, confidence_ok.
  rewrite H.
  destruct (isinstance_int_float v); cbn [negb orb andb].
  - destruct (py_le (VFloat float_zero) v && py_le v (VFloat float_one));
      cbn [negb].
    + exists d; split; [rewrite app_nil_r; reflexivity|].
      apply updates_same; assumption.
    + destruct (py_str py v) as [text|x]; cbn [bind]; [|reflexivity].
      eexists; split; [reflexivity | apply updates_set].
  - destruct (py_str py v) as [text|x]; cbn [bind]; [|reflexivity].
    eexists; split; [reflexivity | apply updates_set].
Qed.

Lemma check_urgent_actions_spec (d : dict) (e : list string) (v : value) :
  dict_get "urgent_actions" d = Some v ->
  exists d',
    check_urgent_actions (d, e) = (d', e ++ actions_errors d)
    /\ updates d "urgent_actions" (actions_out d) d'.
Proof.
  intro H.
  unfold check_urgent_actions, actions_errors, actions_out, dict_get_or.
  rewrite H.
  destruct v; cbn [isinstance_list negb];
    try (eexists; split; [reflexivity | apply updates_set]).
  exists d; split; [rewrite app_nil_r; reflexivity|].
  apply updates_same; assumption.
Qed.

End Steps.

(** ** [validate] on a dictionary, in one equation *)

Ltac by_lookup H :=
  red in H; cbv beta delta [level_out level_errors hazards_out hazards_errors
    summary_out summary_errors confidence_out confidence_errors actions_out
    actions_errors entries_are_dicts text_out dict_get_or];
  rewrite H;
  match goal with
  | |- context [dict_get ?k ?d] => destruct (dict_get k d) as [[]|]; reflexivity
  end.

Section ValidateDict.

Variable py : interpreter.

Lemma attach_validation_eq (d : dict) (e : list string) :
  attach_validation (d, e) = dict_set "validation" (validation_record e) d.
Proof. reflexivity. Qed.

(** [validate] on a dictionary raises what [raised] tells, and otherwise
    returns the report that belongs to the input. *)
Lemma validate_dict_eq (d : dict) :
  match raised py d with
  | Some x => validate_dict py d = Raise x
  | None => exists r, validate_dict py d = Ok r /\ normalises py d r
  end.
Proof.
  unfold validate_dict, raised.
  destruct (check_required_fold required_fields d [] eq_refl) as [Hget Herr].
  destruct (fold_left check_required_field required_fields (d, []))
    as [d1 e1].
  cbn [fst snd app] in Hget, Herr. fold (missing_errors d) in Herr.
  assert (defaulted d d1 "overall_risk_level") as K1 by apply Hget.
  assert (defaulted d d1 "hazards_by_category") as K2 by apply Hget.
  assert (defaulted d d1 "risk_summary") as K3 by apply Hget.
  assert (defaulted d d1 "urgent_actions") as K4 by apply Hget.
  assert (defaulted d d1 "summary") as K5 by apply Hget.
  assert (defaulted d d1 "confidence_score") as K6 by apply Hget.
  (* overall_risk_level *)
  assert (exists v, dict_get "overall_risk_level" d1 = Some v) as [v1 P1]
    by (red in K1; rewrite K1; destruct (dict_get _ d); eauto).
  pose proof (check_overall_risk_level_spec py d1 e1 v1 P1) as S2.
  replace (level_errors py d1) with (level_errors py d) in S2
    by (symmetry; by_lookup K1).
  destruct (level_errors py d) as [le|x] eqn:Ele; [|rewrite S2; reflexivity].
  destruct S2 as [d2 [-> U2]]. cbn [bind].
  (* hazards_by_category *)
  assert (defaulted d d2 "hazards_by_category") as K2'
    by (red; rewrite U2; exact K2).
  assert (exists v, dict_get "hazards_by_category" d2 = Some v) as [v2 P2]
    by (red in K2'; rewrite K2'; destruct (dict_get _ d); eauto).
  pose proof (check_hazards_by_category_spec d2 (e1 ++ le) v2 P2) as S3.
  replace (entries_are_dicts d2) with (entries_are_dicts d) in S3
    by (symmetry; by_lookup K2').
  destruct (entries_are_dicts d); [|rewrite S3; reflexivity].
  destruct S3 as [d3 [-> U3]]. cbn [bind].
  (* risk_summary *)
  assert (defaulted d d3 "risk_summary") as K3'
    by (red; rewrite U3, U2; exact K3).
  assert (exists v, dict_get "risk_summary" d3 = Some v) as [v3 P3]
    by (red in K3'; rewrite K3'; destruct (dict_get _ d); eauto).
  destruct (check_risk_summary_spec d3 ((e1 ++ le) ++ hazards_errors d2) v3 P3)
    as [d4 [-> U4]].
  (* confidence_score *)
  assert (defaulted d d4 "confidence_score") as K6'
    by (red; rewrite U4, U3, U2; exact K6).
  assert (exists v, dict_get "confidence_score" d4 = Some v) as [v4 P4]
    by (red in K6'; rewrite K6'; destruct (dict_get _ d); eauto).
  pose proof (check_confidence_score_spec py d4
                (((e1 ++ le) ++ hazards_errors d2) ++ summary_errors d3)
                v4 P4) as S5.
  replace (confidence_errors py d4) with (confidence_errors py d) in S5
    by (symmetry; by_lookup K6').
  destruct (confidence_errors py d) as [ce|x] eqn:Ece;
    [|rewrite S5; reflexivity].
  destruct S5 as [d5 [-> U5]]. cbn [bind].
  (* urgent_actions *)
  assert (defaulted d d5 "urgent_actions") as K4'
    by (red; rewrite U5, U4, U3, U2; exact K4).
  assert (exists v, dict_get "urgent_actions" d5 = Some v) as [v5 P5]
    by (red in K4'; rewrite K4'; destruct (dict_get _ d); eauto).
  destruct (check_urgent_actions_spec d5
              ((((e1 ++ le) ++ hazards_errors d2) ++ summary_errors d3) ++ ce)
              v5 P5)
    as [d6 [-> U6]].
  rewrite attach_validation_eq.
  eexists; split; [reflexivity|].
  replace (hazards_errors d2) with (hazards_errors d)
    by (symmetry; by_lookup K2').
  replace (summary_errors d3) with (summary_errors d)
    by (symmetry; by_lookup K3').
  replace (actions_errors d5) with (actions_errors d)
    by (symmetry; by_lookup K4').
  rewrite Herr, <- !app_assoc.
  constructor.
  - rewrite dict_get_set, U6, U5, U4, U3, U2; cbn [String.eqb Ascii.eqb Bool.eqb].
    f_equal; by_lookup K1.
  - rewrite dict_get_set, U6, U5, U4, U3; cbn [String.eqb Ascii.eqb Bool.eqb].
    f_equal; by_lookup K2'.
  - rewrite dict_get_set, U6, U5, U4; cbn [String.eqb Ascii.eqb Bool.eqb].
    f_equal; by_lookup K3'.
  - rewrite dict_get_set, U6; cbn [String.eqb Ascii.eqb Bool.eqb].
    f_equal; by_lookup K4'.
  - rewrite dict_get_set, U6, U5, U4, U3, U2; cbn [String.eqb Ascii.eqb Bool.eqb].
    red in K5; rewrite K5. unfold text_out, dict_get_or.
    destruct (dict_get "summary" d); reflexivity.
  - rewrite dict_get_set, U6, U5; cbn [String.eqb Ascii.eqb Bool.eqb].
    f_equal; by_lookup K6'.
  - eexists. split; [unfold expected_errors; rewrite Ele, Ece; reflexivity|].
    rewrite dict_get_set; reflexivity.
  - intros k Hk. cbn [existsb report_fields] in Hk.
    repeat (apply orb_false_iff in Hk; destruct Hk as [? Hk]).
    rewrite dict_get_set, U6, U5, U4, U3, U2, Hget.
    cbn [existsb required_fields].
    repeat match goal with H : String.eqb k _ = false |- _ =>
             rewrite H; clear H end.
    destruct (dict_get k d); reflexivity.
Qed.

End ValidateDict.

(** ** Shapes of the repaired fields *)

Lemma level_out_in (d : dict) : py_in (level_out d) RiskLevel = true.
Proof.
  unfold level_out. destruct (dict_get "overall_risk_level" d) as [v|];
    [|reflexivity].
  destruct (py_in v RiskLevel) eqn:E; [exact E | reflexivity].
Qed.

Lemma coerce_level_in (k : string) (e : dict) :
  py_in (coerce_risk valid_risk_levels k e) RiskLevel = true.
Proof.
  unfold coerce_risk, dict_get_or. destruct (dict_get k e) as [v|];
    [|reflexivity].
  destruct (py_in v valid_risk_levels) eqn:E; [exact E | reflexivity].
Qed.

Lemma coerce_movement_in (k : string) (e : dict) :
  py_in (coerce_risk movement_levels k e) MovementRisk = true.
Proof.
  unfold coerce_risk, dict_get_or. destruct (dict_get k e) as [v|];
    [|reflexivity].
  destruct (py_in v movement_levels) eqn:E; [|reflexivity].
  unfold py_in, movement_levels, MovementRisk in *. cbn [existsb] in *.
  destruct (py_eq v (VStr "high")), (py_eq v (VStr "medium")),
    (py_eq v (VStr "low")); try reflexivity; discriminate.
Qed.

(** A rebuilt entry has exactly the fields of its category, the risk
    fields within their enumerations. *)
Lemma entry_ok_normal (c : string) (e : dict) :
  In c hazard_categories ->
  entry_ok (fun _ => true) c (VDict (normal_entry c e)) = true.
Proof.
  intro Hc. cbn [In hazard_categories] in Hc.
  destruct Hc as [<-|[<-|[<-|[<-|[]]]]];
    unfold entry_ok, normal_entry;
    cbn [entry_shape String.eqb Ascii.eqb Bool.eqb map fst snd forallb
         field_is kind_ok dict_get];
    rewrite ?coerce_level_in, ?coerce_movement_in; reflexivity.
Qed.

Lemma entries_ok_normal (c : string) (l : list value) :
  In c hazard_categories -> forallb isinstance_dict l = true ->
  entries_ok (fun _ => true) c (VList (map (normal_entry_value c) l)) = true.
Proof.
  intros Hc. cbn [entries_ok]. induction l as [|x t IH]; [reflexivity|].
  cbn [forallb map]. rewrite andb_true_iff; intros [Hx Ht].
  destruct x; try discriminate. cbn [normal_entry_value].
  rewrite entry_ok_normal, IH by assumption. reflexivity.
Qed.

Lemma hazards_ok_normal (h : dict) :
  visited_are_dicts h = true ->
  hazards_ok (fun _ => true) (VDict (normal_hazards h)) = true.
Proof.
  unfold visited_are_dicts, hazard_categories. cbn [forallb].
  rewrite !andb_true_iff; intros [H1 [H2 [H3 [H4 _]]]].
  unfold hazards_ok, normal_hazards, hazard_categories.
  cbn [map forallb field_is dict_get String.eqb Ascii.eqb Bool.eqb].
  rewrite !entries_ok_normal
    by (assumption || (cbn [In hazard_categories]; tauto)).
  reflexivity.
Qed.

Lemma is_count_clamp (v : value) : is_count (clamp_count v) = true.
Proof.
  unfold clamp_count. fold (is_count v).
  destruct (is_count v) eqn:E; [exact E | reflexivity].
Qed.

Lemma _validate_risk_summary_eq (s : dict) :
  _validate_risk_summary s
  = map (fun k => (k, clamp_count (dict_get_or k (VInt 0) s))) count_keys.
Proof. reflexivity. Qed.

Lemma risk_summary_ok_summary_out (d : dict) :
  risk_summary_ok (summary_out d) = true.
Proof.
  unfold summary_out.
  destruct (dict_get "risk_summary" d) as [[]|]; try reflexivity.
  rewrite _validate_risk_summary_eq. unfold risk_summary_ok, count_keys.
  cbn [map forallb field_is dict_get String.eqb Ascii.eqb Bool.eqb].
  rewrite !is_count_clamp. reflexivity.
Qed.

Lemma confidence_ok_confidence_out (d : dict) :
  confidence_ok (confidence_out d) = true.
Proof.
  unfold confidence_out.
  destruct (dict_get "confidence_score" d) as [v|]; [|reflexivity].
  destruct (confidence_ok v) eqn:E; [exact E | reflexivity].
Qed.

Lemma validation_ok_record (e : list string) :
  validation_ok (validation_record e) = true.
Proof.
  unfold validation_ok, validation_record.
  cbn [dict_get String.eqb Ascii.eqb Bool.eqb].
  rewrite length_map, eqb_reflx, andb_true_r.
  change (has_keys_exactly ["errors"; "is_valid"] _) with true.
  cbn [andb]. induction e as [|x t IH]; [reflexivity | exact IH].
Qed.

Section Totality.

Variable py : interpreter.

Lemma normalises_repaired (d r : dict) :
  normalises py d r -> repaired r = true.
Proof.
  intros [H1 H2 H3 H4 H5 H6 [errors [_ H7]] _].
  unfold repaired, report_fields, field_is, dict_mem. cbn [forallb].
  rewrite H1, H2, H3, H4, H5, H6, H7.
  rewrite level_out_in, risk_summary_ok_summary_out,
    confidence_ok_confidence_out, validation_ok_record.
  cbn [andb].
  replace (isinstance_dict (hazards_out d)) with true
    by (unfold hazards_out;
        destruct (dict_get "hazards_by_category" d) as [[]|]; reflexivity).
  replace (isinstance_list (actions_out d)) with true
    by (unfold actions_out;
        destruct (dict_get "urgent_actions" d) as [[]|]; reflexivity).
  reflexivity.
Qed.

Lemma hazards_out_ok (d : dict) :
  entries_are_dicts d = true -> hazards_absent_or_dict d = true ->
  hazards_ok (fun _ => true) (hazards_out d) = true.
Proof.
  unfold entries_are_dicts, hazards_absent_or_dict, hazards_out.
  destruct (dict_get "hazards_by_category" d) as [[]|];
    try discriminate; intros Hv _.
  - apply hazards_ok_normal; assumption.
  - reflexivity.
Qed.

End Totality.

Lemma dict_mem_keys (k : string) (d : dict) :
  dict_mem k d = existsb (String.eqb k) (keys d).
Proof.
  unfold dict_mem, keys. induction d as [|[k0 v0] t IH]; [reflexivity|].
  cbn [dict_get map fst existsb].
  destruct (String.eqb k k0); [reflexivity | exact IH].
Qed.

(** ** The report is a dictionary *)

Lemma keys_dict_set (k : string) (v : value) (d : dict) :
  keys (dict_set k v d) = if dict_mem k d then keys d else keys d ++ [k].
Proof.
  unfold dict_mem, keys. induction d as [|[k0 v0] t IH]; [reflexivity|].
  cbn [dict_set dict_get]. destruct (String.eqb k k0) eqn:E.
  - apply String.eqb_eq in E; subst; reflexivity.
  - cbn [map fst]. rewrite IH. destruct (dict_get k t); reflexivity.
Qed.

Lemma distinct_snoc (l : list string) (k : string) :
  distinct l = true -> existsb (String.eqb k) l = false ->
  distinct (l ++ [k]) = true.
Proof.
  induction l as [|x t IH]; [reflexivity|]. cbn [distinct existsb app].
  rewrite andb_true_iff, negb_true_iff, orb_false_iff.
  intros [Hx Ht] [Hk Hkt]. rewrite (IH Ht Hkt), andb_true_r.
  rewrite existsb_app, Hx. cbn [existsb orb].
  rewrite String.eqb_sym, Hk. reflexivity.
Qed.

Lemma dict_set_wf (k : string) (v : value) (d : dict) :
  dict_wf d = true -> dict_wf (dict_set k v d) = true.
Proof.
  unfold dict_wf. rewrite keys_dict_set. intro H.
  destruct (dict_mem k d) eqn:E; [exact H|].
  apply distinct_snoc; [exact H|]. rewrite <- dict_mem_keys. exact E.
Qed.

Lemma check_required_wf (fs : list string) (d : dict) (e : list string) :
  dict_wf d = true ->
  dict_wf (fst (fold_left check_required_field fs (d, e))) = true.
Proof.
  revert d e. induction fs as [|f t IH]; intros d e H; [exact H|].
  cbn [fold_left]. rewrite check_required_field_eq.
  destruct (negb (dict_mem f d)); apply IH; [apply dict_set_wf|]; exact H.
Qed.

Section WellFormed.

Variable py : interpreter.

(** Every step binds a key of the working copy, so distinct keys stay
    distinct. *)
Lemma validate_dict_wf (d r : dict) :
  dict_wf d = true -> validate_dict py d = Ok r ->
  dict_wf r = true.
Proof.
  intro Hd. unfold validate_dict.
  pose proof (check_required_wf required_fields d [] Hd) as W0.
  destruct (fold_left check_required_field required_fields (d, []))
    as [d0 e0]. cbn [fst] in W0.
  destruct (check_overall_risk_level py (d0, e0))
    as [[d1 e1]|x] eqn:E1; [|discriminate].
  assert (dict_wf d1 = true) as W1.
  { unfold check_overall_risk_level in E1.
    destruct (negb _) in E1;
      [destruct (py_str _ _) in E1; [|discriminate]; cbn [bind] in E1|];
      injection E1 as <- _; [apply dict_set_wf|]; exact W0. }
  cbn [bind].
  destruct (check_hazards_by_category (d1, e1)) as [[d2 e2]|x] eqn:E2;
    [|discriminate].
  assert (dict_wf d2 = true) as W2.
  { unfold check_hazards_by_category in E2.
    destruct (dict_get_or "hazards_by_category" VNone d1);
      try (injection E2 as <- _; apply dict_set_wf; exact W1).
    destruct (_validate_hazard_categories d3); [|discriminate].
    cbn [bind] in E2. injection E2 as <- _. apply dict_set_wf; exact W1. }
  cbn [bind].
  destruct (check_risk_summary (d2, e2)) as [d3 e3] eqn:E3.
  assert (dict_wf d3 = true) as W3.
  { unfold check_risk_summary in E3.
    destruct (dict_get_or "risk_summary" VNone d2);
      injection E3 as <- _; apply dict_set_wf; exact W2. }
  destruct (check_confidence_score py (d3, e3))
    as [[d4 e4]|x] eqn:E4; [|discriminate].
  assert (dict_wf d4 = true) as W4.
  { unfold check_confidence_score in E4.
    destruct (_ || _) in E4;
      [destruct (py_str _ _) in E4; [|discriminate]; cbn [bind] in E4|];
      injection E4 as <- _; [apply dict_set_wf|]; exact W3. }
  cbn [bind].
  destruct (check_urgent_actions (d4, e4)) as [d5 e5] eqn:E5.
  assert (dict_wf d5 = true) as W5.
  { unfold check_urgent_actions in E5.
    destruct (negb _) in E5; injection E5 as <- _;
      [apply dict_set_wf|]; exact W4. }
  intro H; injection H as <-. apply dict_set_wf; exact W5.
Qed.

End WellFormed.

(** ** Totality of [validate] *)

Section Claims.

Variable py : interpreter.

Local Abbreviation validate := (validate py).

Lemma validate_eq (d : dict) :
  match raised py d with
  | Some x => validate (VDict d) = Raise x
  | None => exists r, validate (VDict d) = Ok (VDict r) /\ normalises py d r
  end.
Proof.
  pose proof (validate_dict_eq py d) as H.
  cbn [OutputValidator.validate].
  destruct (raised py d).
  - rewrite H; reflexivity.
  - destruct H as [r [-> Hr]]. exists r; split; [reflexivity | exact Hr].
Qed.

Lemma validate_ok_raised (d r : dict) :
  validate (VDict d) = Ok (VDict r) -> raised py d = None.
Proof.
  intro H. pose proof (validate_eq d) as E.
  destruct (raised py d); [|reflexivity].
  rewrite E in H; discriminate.
Qed.

Lemma validate_ok_normalises (d r : dict) :
  validate (VDict d) = Ok (VDict r) -> normalises py d r.
Proof.
  intro H. pose proof (validate_eq d) as E.
  destruct (raised py d).
  - rewrite E in H; discriminate.
  - destruct E as [r' [E Hr]]. rewrite E in H. injection H as <-. exact Hr.
Qed.

(** Nothing is raised exactly when the visited hazard entries are
    mappings and the values to format are printable. *)
Lemma raised_none (d : dict) :
  raised py d = None
  <-> entries_are_dicts d = true /\ messages_format py d = true.
Proof.
  unfold raised, messages_format, formatted_values, level_errors,
    confidence_errors.
  destruct (dict_get "overall_risk_level" d) as [v|];
    [destruct (py_in v RiskLevel)|];
    (destruct (dict_get "confidence_score" d) as [w|];
     [destruct (confidence_ok w)|]);
    cbn [forallb app andb bind];
    rewrite <- ?formats_printable; unfold formats;
    repeat match goal with
           | |- context [py_str py ?x] => destruct (py_str py x)
           end;
    destruct (entries_are_dicts d); cbn; intuition congruence.
Qed.

(** C1 (amended).  For every input mapping whose hazard entries are
    mappings and whose invalid level and confidence, if any, are
    printable (a string, or a value nested no deeper than [repr] has
    calls left and holding no integer of more digits than the
    interpreter prints), [validate] returns without raising, and the
    report it returns has all seven fields, [overall_risk_level]
    within its enumeration, [hazards_by_category] a mapping,
    [risk_summary] exactly the five non-negative integer counts,
    [urgent_actions] a sequence, [confidence_score] a number in
    [0.0, 1.0] and a well-formed [validation] record; when the input's
    [hazards_by_category] is absent or a mapping, the output's has exactly
    the four categories, each a sequence of entries of the category's
    shape; distinct keys stay distinct.  Free-text values are not
    inspected. *)
Theorem validate_total_on_mappings (d : dict) :
  entries_are_dicts d = true ->
  messages_format py d = true ->
  exists r,
    validate (VDict d) = Ok (VDict r)
    /\ repaired r = true
    /\ (hazards_absent_or_dict d = true ->
        field_is (hazards_ok (fun _ => true)) "hazards_by_category" r = true)
    /\ (dict_wf d = true -> dict_wf r = true).
Proof.
  intros He Hm. pose proof (validate_eq d) as H.
  rewrite (proj2 (raised_none d) (conj He Hm)) in H.
  destruct H as [r [Hv Hr]]. exists r; split; [exact Hv|].
  split; [|split].
  - exact (normalises_repaired py d r Hr).
  - intro Ha. unfold field_is. rewrite (nf_hazards _ _ _ Hr).
    apply hazards_out_ok; assumption.
  - intro Hd. apply (validate_dict_wf py d r Hd).
    cbn [OutputValidator.validate] in Hv.
    destruct (validate_dict py d); [|discriminate].
    cbn [bind] in Hv. injection Hv as ->. reflexivity.
Qed.

(** Formatting aside, [validate] raises when a visited hazard entry is
    not a mapping. *)
Lemma validate_raises_on_entry (d : dict) :
  entries_are_dicts d = false ->
  exists x, validate (VDict d) = Raise x.
Proof.
  intro He. pose proof (validate_eq d) as H.
  destruct (raised py d) as [x|] eqn:E; [exists x; exact H|].
  apply raised_none in E as [E _]. congruence.
Qed.

(** ** Four categories *)

(** The four categories are present whenever the input's
    [hazards_by_category] is absent or a mapping. *)
Lemma four_categories_when_mapping (d r : dict) :
  validate (VDict d) = Ok (VDict r) -> hazards_absent_or_dict d = true ->
  exists h, dict_get "hazards_by_category" r = Some (VDict h)
            /\ has_keys_exactly hazard_categories h = true.
Proof.
  intros Hv Ha. pose proof (validate_ok_normalises d r Hv) as Hr.
  rewrite (nf_hazards _ _ _ Hr).
  unfold hazards_absent_or_dict in Ha. unfold hazards_out.
  destruct (dict_get "hazards_by_category" d) as [[]|]; try discriminate;
    eexists; split; reflexivity.
Qed.

(** ** Scenario A *)

(** C3.  On the empty mapping [validate] returns the report with level
    "unknown", four empty categories, five zero counts, no urgent action,
    summary "Analysis incomplete", confidence 0.0, and a validation record
    holding the six "Missing required field" messages in the order of the
    required fields, with [is_valid] false. *)
Theorem validate_empty_mapping : validate (VDict []) = Ok empty_report.
Proof. reflexivity. Qed.

(** ** Unknown keys *)

(** C6 (amended).  Every top-level key of the input other than the six
    required fields and [validation] is bound in the output to the value
    it had in the input. *)
Theorem validate_keeps_other_top_level_keys (d r : dict) (k : string) :
  validate (VDict d) = Ok (VDict r) -> ~ In k report_fields ->
  dict_get k r = dict_get k d.
Proof.
  intros Hv Hk. apply (nf_other _ _ _ (validate_ok_normalises d r Hv)).
  destruct (existsb (String.eqb k) report_fields) eqn:E; [|reflexivity].
  apply existsb_eqb_In in E; contradiction.
Qed.

(** ** Error order *)

(** C9.  [validate] is a function of its input, and the error sequence of
    a returned report is the concatenation, in this order, of the
    missing-field messages in required-field order and the complaints
    about [overall_risk_level], [hazards_by_category], [risk_summary],
    [confidence_score] and [urgent_actions]; [is_valid] tells whether it
    is empty. *)
Theorem validate_errors_in_check_order :
  (forall a b : value, a = b -> validate a = validate b)
  /\ (forall d r : dict,
         validate (VDict d) = Ok (VDict r) ->
         exists level confidence : list string,
           level_errors py d = Ok level
           /\ confidence_errors py d = Ok confidence
           /\ dict_get "validation" r
              = Some (VDict
                        [("errors",
                          VList (map VStr
                                   (missing_errors d
                                    ++ level
                                    ++ hazards_errors d
                                    ++ summary_errors d
                                    ++ confidence
                                    ++ actions_errors d)));
                         ("is_valid",
                          VBool (Nat.eqb
                                   (List.length
                                      (missing_errors d
                                       ++ level
                                       ++ hazards_errors d
                                       ++ summary_errors d
                                       ++ confidence
                                       ++ actions_errors d)) 0))])).
Proof.
  split.
  - intros a b ->; reflexivity.
  - intros d r Hv.
    destruct (nf_validation _ _ _ (validate_ok_normalises d r Hv))
      as [errors [He Hget]].
    unfold expected_errors in He.
    destruct (level_errors py d) as [level|]; [|discriminate].
    destruct (confidence_errors py d) as [confidence|]; [|discriminate].
    cbn [bind] in He. injection He as <-.
    exists level, confidence. split; [reflexivity|].
    split; [reflexivity | exact Hget].
Qed.

(** ** Enumerations *)

Lemma py_eq_str (v : value) (s : string) :
  py_eq v (VStr s) = true -> v = VStr s.
Proof.
  destruct v; try discriminate. cbn [py_eq]. intro H.
  apply String.eqb_eq in H; subst; reflexivity.
Qed.

(** A risk field of a rebuilt entry is the input's value if that lies in
    the field's enumeration, and "unknown" otherwise. *)
Lemma coerce_risk_enumeration (k : string) (e : dict) :
  coerce_risk valid_risk_levels k e
  = (if py_in (dict_get_or k VNone e) RiskLevel
     then dict_get_or k VNone e else VStr "unknown")
  /\ coerce_risk movement_levels k e
     = (if py_in (dict_get_or k VNone e) MovementRisk
        then dict_get_or k VNone e else VStr "unknown").
Proof.
  unfold coerce_risk, dict_get_or.
  destruct (dict_get k e) as [v|]; [|split; reflexivity].
  split; [reflexivity|].
  unfold py_in, movement_levels, MovementRisk. cbn [existsb].
  destruct (py_eq v (VStr "high")), (py_eq v (VStr "medium")),
    (py_eq v (VStr "low")); cbn [orb]; try reflexivity.
  destruct (py_eq v (VStr "unknown")) eqn:E; [|reflexivity].
  apply py_eq_str in E; subst; reflexivity.
Qed.

Lemma normal_entry_fields (c : string) (e : dict) (k : string) (v : value) :
  dict_get k (normal_entry c e) = Some v ->
  (In k level_fields -> py_in v RiskLevel = true)
  /\ (In k movement_fields -> py_in v MovementRisk = true).
Proof.
  unfold normal_entry, entry_shape, level_fields, movement_fields.
  intro H; split; intro Hk; cbn [In] in Hk;
    repeat (destruct Hk as [<-|Hk]); try contradiction;
    destruct (String.eqb c "flying_objects");
    [| destruct (String.eqb c "structural_damage");
       [| destruct (String.eqb c "elevated_objects");
          [| destruct (String.eqb c "tree_hazards")]]
    | | destruct (String.eqb c "structural_damage");
       [| destruct (String.eqb c "elevated_objects");
          [| destruct (String.eqb c "tree_hazards")]]
    | | destruct (String.eqb c "structural_damage");
       [| destruct (String.eqb c "elevated_objects");
          [| destruct (String.eqb c "tree_hazards")]]
    | | destruct (String.eqb c "structural_damage");
       [| destruct (String.eqb c "elevated_objects");
          [| destruct (String.eqb c "tree_hazards")]]
    | | destruct (String.eqb c "structural_damage");
       [| destruct (String.eqb c "elevated_objects");
          [| destruct (String.eqb c "tree_hazards")]]];
    cbn in H; try discriminate; injection H as <-;
    (apply coerce_level_in || apply coerce_movement_in).
Qed.

Lemma normal_hazards_entries (h : dict) (c : string) (es : list value)
  (e : dict) :
  dict_get c (normal_hazards h) = Some (VList es) -> In (VDict e) es ->
  exists e0, e = normal_entry c e0.
Proof.
  unfold normal_hazards, hazard_categories. cbn [map dict_get].
  intros H Hin.
  assert (es = map (normal_entry_value c) (category_items c h)) as ->.
  { destruct (String.eqb c "flying_objects") eqn:E1;
      [apply String.eqb_eq in E1; subst; injection H as <-; reflexivity|].
    destruct (String.eqb c "structural_damage") eqn:E2;
      [apply String.eqb_eq in E2; subst; injection H as <-; reflexivity|].
    destruct (String.eqb c "elevated_objects") eqn:E3;
      [apply String.eqb_eq in E3; subst; injection H as <-; reflexivity|].
    destruct (String.eqb c "tree_hazards") eqn:E4;
      [apply String.eqb_eq in E4; subst; injection H as <-; reflexivity|].
    discriminate. }
  apply in_map_iff in Hin as [x [Hx _]].
  destruct x; try discriminate. cbn [normal_entry_value] in Hx.
  injection Hx as <-. eexists; reflexivity.
Qed.

Lemma entry_validator_enumeration (c : string) (f : value -> result value)
  (e : dict) (k : string) (kind : field_kind) :
  entry_validator c = Some f -> In (k, kind) (entry_shape c) -> kind <> Text ->
  dict_get k (normal_entry c e)
  = Some (if py_in (dict_get_or k VNone e) (enumeration kind)
          then dict_get_or k VNone e else VStr "unknown").
Proof.
  unfold entry_validator, normal_entry, entry_shape.
  destruct (String.eqb c "flying_objects");
    [|destruct (String.eqb c "structural_damage");
      [|destruct (String.eqb c "elevated_objects");
        [|destruct (String.eqb c "tree_hazards"); [|discriminate]]]];
    intros _ Hin Hkind; cbn [In] in Hin;
    repeat (destruct Hin as [Hin|Hin];
            [injection Hin as <- <-; try congruence;
             cbn [map fst snd dict_get String.eqb Ascii.eqb Bool.eqb
                  enumeration];
             f_equal; apply coerce_risk_enumeration|]);
    contradiction.
Qed.

Lemma normal_hazards_lists (h : dict) (c : string) (v : value) :
  dict_get c (normal_hazards h) = Some v ->
  In c hazard_categories
  /\ v = VList (map (normal_entry_value c) (category_items c h)).
Proof.
  unfold normal_hazards, hazard_categories. cbn [map dict_get In].
  destruct (String.eqb c "flying_objects") eqn:E1;
    [apply String.eqb_eq in E1; subst; intro H; injection H as <-; tauto|].
  destruct (String.eqb c "structural_damage") eqn:E2;
    [apply String.eqb_eq in E2; subst; intro H; injection H as <-; tauto|].
  destruct (String.eqb c "elevated_objects") eqn:E3;
    [apply String.eqb_eq in E3; subst; intro H; injection H as <-; tauto|].
  destruct (String.eqb c "tree_hazards") eqn:E4;
    [apply String.eqb_eq in E4; subst; intro H; injection H as <-; tauto|].
  discriminate.
Qed.

Lemma normal_hazards_lookup (h : dict) (c : string) :
  In c hazard_categories ->
  dict_get c (normal_hazards h)
  = Some (VList (map (normal_entry_value c) (category_items c h))).
Proof.
  cbn [In hazard_categories]. intros [<-|[<-|[<-|[<-|[]]]]]; reflexivity.
Qed.

(** C8.  In every report that [validate] returns, [overall_risk_level]
    is within {low, medium, high, critical, unknown} and is the input's
    level when that lies in the enumeration and "unknown" otherwise; every
    element of every category list is a mapping in which
    [impact_severity], [overall_risk] and [risk_level] are within that
    enumeration and [movement_risk] and [fall_risk] within
    {high, medium, low, unknown}; and, when the input's
    [hazards_by_category] is a mapping, the list under each of the four
    categories answers the input's list entry by entry, every risk field
    of the category holding the input entry's value when that lies in the
    field's enumeration and "unknown" otherwise. *)
Theorem risk_fields_within_enumerations (d r : dict) :
  validate (VDict d) = Ok (VDict r) ->
  (exists l,
      dict_get "overall_risk_level" r = Some l
      /\ py_in l RiskLevel = true
      /\ l = match dict_get "overall_risk_level" d with
             | Some v => if py_in v RiskLevel then v else VStr "unknown"
             | None => VStr "unknown"
             end)
  /\ (forall h' c es x,
         dict_get "hazards_by_category" r = Some (VDict h') ->
         dict_get c h' = Some (VList es) -> In x es ->
         exists e,
           x = VDict e
           /\ forall k v,
               dict_get k e = Some v ->
               (In k level_fields -> py_in v RiskLevel = true)
               /\ (In k movement_fields -> py_in v MovementRisk = true))
  /\ (forall h c,
         dict_get "hazards_by_category" d = Some (VDict h) ->
         In c hazard_categories ->
         exists h' out,
           dict_get "hazards_by_category" r = Some (VDict h')
           /\ dict_get c h' = Some (VList out)
           /\ Forall2
                (fun x y =>
                   exists e e',
                     x = VDict e /\ y = VDict e'
                     /\ forall k kind,
                         In (k, kind) (entry_shape c) -> kind <> Text ->
                         dict_get k e'
                         = Some (if py_in (dict_get_or k VNone e)
                                      (enumeration kind)
                                 then dict_get_or k VNone e
                                 else VStr "unknown"))
                (category_items c h) out).
Proof.
  intro Hv. pose proof (validate_ok_normalises d r Hv) as Hr.
  pose proof (validate_ok_raised d r Hv) as Hn.
  apply raised_none in Hn as [He _].
  split; [|split].
  - exists (level_out d). split; [exact (nf_level _ _ _ Hr)|].
    split; [apply level_out_in | reflexivity].
  - intros h' c es x Hh Hc Hin.
    rewrite (nf_hazards _ _ _ Hr) in Hh. unfold hazards_out in Hh.
    unfold entries_are_dicts in He.
    destruct (dict_get "hazards_by_category" d) as [[| | | | | |h]|];
      injection Hh as <-; try discriminate.
    + destruct (normal_hazards_lists h c _ Hc) as [Hcat E].
      injection E as ->.
      apply in_map_iff in Hin as [x0 [<- Hx0]].
      unfold visited_are_dicts in He. rewrite forallb_forall in He.
      specialize (He c Hcat). rewrite forallb_forall in He.
      specialize (He x0 Hx0). destruct x0 as [| | | | | |e0]; try discriminate.
      exists (normal_entry c e0). split; [reflexivity|].
      intros k v Hk. exact (normal_entry_fields c e0 k v Hk).
    + destruct (normal_hazards_lists [] c _ Hc) as [Hcat E].
      injection E as ->.
      cbn [In hazard_categories] in Hcat.
      destruct Hcat as [<-|[<-|[<-|[<-|[]]]]]; contradiction.
  - intros h c Hh Hc.
    exists (normal_hazards h),
      (map (normal_entry_value c) (category_items c h)).
    split; [rewrite (nf_hazards _ _ _ Hr); unfold hazards_out; rewrite Hh;
            reflexivity|].
    split; [exact (normal_hazards_lookup h c Hc)|].
    unfold entries_are_dicts in He. rewrite Hh in He.
    unfold visited_are_dicts in He. rewrite forallb_forall in He.
    specialize (He c Hc).
    destruct (entry_validator c) as [f|] eqn:Hf;
      [|cbn [In hazard_categories] in Hc;
        destruct Hc as [<-|[<-|[<-|[<-|[]]]]]; discriminate].
    induction (category_items c h) as [|x t IH]; [constructor|].
    cbn [forallb] in He. apply andb_true_iff in He as [Hx Ht].
    cbn [map]. constructor; [|exact (IH Ht)].
    destruct x as [| | | | | |e]; try discriminate.
    exists e, (normal_entry c e). split; [reflexivity|].
    split; [reflexivity|].
    intros k kind Hin Hkind.
    exact (entry_validator_enumeration c f e k kind Hf Hin Hkind).
Qed.

(** ** Boolean confidence *)

Lemma no_confidence_complaint_elsewhere (d : dict) (level : list string)
  (m : string) :
  level_errors py d = Ok level ->
  In m (missing_errors d ++ level
        ++ hazards_errors d ++ summary_errors d ++ actions_errors d) ->
  String.prefix "Invalid confidence_score" m = false.
Proof.
  intros Hl H. repeat (apply in_app_or in H; destruct H as [H|H]).
  - unfold missing_errors in H. apply in_map_iff in H as [f [<- _]].
    reflexivity.
  - unfold level_errors in Hl.
    destruct (dict_get "overall_risk_level" d) as [v|];
      [|injection Hl as <-; contradiction].
    destruct (py_in v RiskLevel); [injection Hl as <-; contradiction|].
    destruct (py_str py v) as [text|]; [|discriminate].
    cbn [bind] in Hl. injection Hl as <-.
    destruct H as [<-|[]]. reflexivity.
  - unfold hazards_errors in H.
    destruct (dict_get "hazards_by_category" d) as [[]|];
      try contradiction; destruct H as [<-|[]]; reflexivity.
  - unfold summary_errors in H.
    destruct (dict_get "risk_summary" d) as [[]|];
      try contradiction; destruct H as [<-|[]]; reflexivity.
  - unfold actions_errors in H.
    destruct (dict_get "urgent_actions" d) as [[]|];
      try contradiction; destruct H as [<-|[]]; reflexivity.
Qed.

(** C10.  When the input's [confidence_score] is a boolean, the numeric
    check accepts it (a [bool] is an [int], and both [False] and [True]
    lie in [0.0, 1.0]): the report keeps the boolean, and no message of
    its error sequence starts with "Invalid confidence_score". *)
Theorem boolean_confidence_passes (d r : dict) (b : bool) :
  dict_get "confidence_score" d = Some (VBool b) ->
  validate (VDict d) = Ok (VDict r) ->
  isinstance_int_float (VBool b) = true
  /\ py_le (VFloat float_zero) (VBool b) && py_le (VBool b) (VFloat float_one)
     = true
  /\ dict_get "confidence_score" r = Some (VBool b)
  /\ exists errs,
      dict_get "validation" r
      = Some (VDict [("errors", VList (map VStr errs));
                     ("is_valid", VBool (Nat.eqb (List.length errs) 0))])
      /\ forall m, In m errs ->
                   String.prefix "Invalid confidence_score" m = false.
Proof.
  intros Hc Hv. pose proof (validate_ok_normalises d r Hv) as Hr.
  split; [reflexivity|]. split; [destruct b; reflexivity|]. split.
  - rewrite (nf_confidence _ _ _ Hr). unfold confidence_out. rewrite Hc.
    destruct b; reflexivity.
  - destruct (nf_validation _ _ _ Hr) as [errors [He Hget]].
    exists errors. split; [exact Hget|].
    unfold expected_errors in He.
    destruct (level_errors py d) as [level|] eqn:El; [|discriminate].
    assert (confidence_errors py d = Ok []) as E
      by (unfold confidence_errors; rewrite Hc; destruct b; reflexivity).
    rewrite E in He. cbn [bind app] in He. injection He as <-.
    intros m Hm. exact (no_confidence_complaint_elsewhere d level m El Hm).
Qed.

End Claims.

(** ** The extractor *)

Lemma find_from_range (c : ascii) (s : string) (i : Z) :
  0 <= i ->
  (contains c s = false /\ find_from c s i = -1)
  \/ (contains c s = true /\ i <= find_from c s i).
Proof.
  revert i. induction s as [|a t IH]; intros i Hi; cbn [contains find_from].
  - left; split; reflexivity.
  - destruct (Ascii.eqb a c); cbn [orb].
    + right; split; [reflexivity | lia].
    + destruct (IH (i + 1)%Z ltac:(lia)) as [[H1 H2]|[H1 H2]].
      * left; split; assumption.
      * right; split; [assumption | lia].
Qed.

Lemma rfind_from_lower (c : ascii) (s : string) (i last : Z) :
  0 <= i -> -1 <= last -> -1 <= rfind_from c s i last.
Proof.
  revert i last. induction s as [|a t IH]; intros i last Hi Hl;
    cbn [rfind_from]; [assumption|].
  apply IH; [lia|]. destruct (Ascii.eqb a c); lia.
Qed.

(** The test [end_idx != -1] of [_parse_response] never fails: [end_idx]
    is [rfind + 1], which is at least 0. *)
Lemma end_idx_test_always_passes (s : string) :
  (py_rfind "}" s + 1 =? -1) = false.
Proof.
  pose proof (rfind_from_lower "}" s 0 (-1) ltac:(lia) ltac:(lia)) as H.
  fold (py_rfind "}" s) in H. lia.
Qed.

Lemma py_slice_empty (s : string) (a b : Z) :
  0 <= a -> 0 <= b -> b <= a -> py_slice s a b = EmptyString.
Proof.
  intros Ha Hb Hab. unfold py_slice.
  destruct (a <? 0) eqn:Ea; [lia|]. destruct (b <? 0) eqn:Eb; [lia|].
  destruct (Z.min a (Z.of_nat (String.length s))
            <? Z.min b (Z.of_nat (String.length s))) eqn:E;
    [lia | reflexivity].
Qed.

Lemma no_valid_pair_spanned (text : string) :
  contains "{" text = true -> no_valid_pair text = true ->
  spanned text = EmptyString.
Proof.
  intros Hc H. unfold no_valid_pair in H. rewrite Hc in H.
  cbn [negb orb] in H.
  destruct (find_from_range "{" text 0 ltac:(lia)) as [[Hn _]|[_ Hf]];
    [congruence|]. fold (py_find "{" text) in Hf.
  pose proof (rfind_from_lower "}" text 0 (-1) ltac:(lia) ltac:(lia)) as Hr.
  fold (py_rfind "}" text) in Hr.
  unfold spanned. apply py_slice_empty; lia.
Qed.

Section Extractor.

Variable json_loads : string -> result value.

Local Abbreviation _parse_response :=
  (TyphoonSafetyAnalyzer._parse_response json_loads).

(** [_parse_response] by cases on the text: the decoder is called on
    every text that holds an opening brace. *)
Lemma _parse_response_eq (text : string) :
  _parse_response text
  = if contains "{" text then
      match json_loads (spanned text) with
      | Ok parsed => Ok parsed
      | Raise JSONDecodeError =>
          Ok (fallback "Failed to parse response" text)
      | Raise e => Raise e
      end
    else Ok (fallback text text).
Proof.
  unfold TyphoonSafetyAnalyzer._parse_response. fold (spanned text).
  rewrite end_idx_test_always_passes.
  destruct (find_from_range "{" text 0 ltac:(lia)) as [[Hc Hf]|[Hc Hf]];
    fold (py_find "{" text) in Hf; rewrite Hc.
  - rewrite Hf. reflexivity.
  - destruct (py_find "{" text =? -1) eqn:E; [lia|]. reflexivity.
Qed.

(** When the decoder rejects the empty string: a text without a brace
    pair in order, or with a spanned text the decoder rejects, gives the
    fallback. *)
Lemma parse_failure (text : string) :
  json_loads EmptyString = Raise JSONDecodeError ->
  no_valid_pair text = true
  \/ json_loads (spanned text) = Raise JSONDecodeError ->
  _parse_response text
  = Ok (fallback
          (if contains "{" text then "Failed to parse response" else text)
          text).
Proof.
  intros Hempty H. rewrite _parse_response_eq.
  destruct (contains "{" text) eqn:Hc; [|reflexivity].
  assert (json_loads (spanned text) = Raise JSONDecodeError) as ->;
    [|reflexivity].
  destruct H as [H|H]; [|exact H].
  rewrite (no_valid_pair_spanned text Hc H). exact Hempty.
Qed.

(** C4 (fails on the code).  The test [end_idx != -1] can never fail,
    since [end_idx] is [rfind + 1]; so a text that holds an opening brace
    but no first-[{] / last-[}] pair (an opening brace alone, or the last
    [}] before the first [{]) does not reach the "no JSON found" branch:
    the empty slice is handed to the decoder, and the summary of the
    fallback is "Failed to parse response", not the raw text.  Only a
    text without any opening brace gets the raw text as summary. *)
Theorem unpaired_brace_summary (text : string) :
  json_loads EmptyString = Raise JSONDecodeError ->
  no_valid_pair text = true ->
  (py_rfind "}" text + 1 =? -1) = false
  /\ (contains "{" text = true -> spanned text = EmptyString)
  /\ _parse_response text
     = Ok (fallback
             (if contains "{" text then "Failed to parse response" else text)
             text).
Proof.
  intros Hempty H. split; [apply end_idx_test_always_passes|].
  split; [intro Hc; exact (no_valid_pair_spanned text Hc H)|].
  rewrite _parse_response_eq.
  destruct (contains "{" text) eqn:Hc; [|reflexivity].
  rewrite (no_valid_pair_spanned text Hc H), Hempty. reflexivity.
Qed.

(** An exception of the decoder other than [JSONDecodeError] leaves
    [_parse_response]. *)
Lemma decoder_exception_escapes (text : string) (e : exn) :
  contains "{" text = true -> e <> JSONDecodeError ->
  json_loads (spanned text) = Raise e ->
  _parse_response text = Raise e.
Proof.
  intros Hc He H. rewrite _parse_response_eq, Hc, H.
  destruct e; try reflexivity. contradiction He; reflexivity.
Qed.

End Extractor.

(** The library decoder rejects the empty string. *)
Lemma loads_empty (py : interpreter) :
  Json.loads py EmptyString = Raise JSONDecodeError.
Proof. reflexivity. Qed.

(** ** Scenario D and the risk summary *)

(** C5.  The extractor, run with the library decoder on the text of
    scenario D, returns the embedded object; [validate] turns it into a
    report whose [risk_summary] has [high_count] reset to 0, the absent
    [medium_count] and [low_count] set to 0, [critical_count] 2 and
    [total_hazards] 2 kept, an empty error sequence and [is_valid] true.
    In general, when [risk_summary] is a mapping, each of the five counts
    of the report is the input's value if that is a non-negative integer
    (an [int] in Python's sense, which includes [bool]) and 0 otherwise,
    and the error sequence holds nothing about [risk_summary]. *)
Theorem scenario_d_and_counts (py : interpreter) :
  (2 <= json_depth py)%nat ->
  TyphoonSafetyAnalyzer._parse_response (Json.loads py) scenario_d_text
  = Ok scenario_d_parsed
  /\ validate py scenario_d_parsed = Ok scenario_d_report
  /\ forall d s r,
      dict_get "risk_summary" d = Some (VDict s) ->
      validate py (VDict d) = Ok (VDict r) ->
      exists out,
        dict_get "risk_summary" r = Some (VDict out)
        /\ keys out = count_keys
        /\ (forall k, In k count_keys ->
              dict_get k out
              = Some (let v := dict_get_or k (VInt 0) s in
                      if isinstance_int v && py_le (VInt 0) v
                      then v else VInt 0))
        /\ exists level confidence : list string,
            level_errors py d = Ok level
            /\ confidence_errors py d = Ok confidence
            /\ dict_get "validation" r
               = Some (validation_record
                         (missing_errors d ++ level
                          ++ hazards_errors d
                          ++ confidence
                          ++ actions_errors d)).
Proof.
  intro Hdepth. split.
  { destruct py as [rf rs limit rd jd]. cbn [json_depth] in Hdepth.
    destruct jd as [|[|jd]]; [lia | lia |].
    destruct limit; vm_compute; reflexivity. }
  split; [reflexivity|].
  intros d s r Hs Hv.
  pose proof (validate_ok_normalises py d r Hv) as Hr.
  exists (_validate_risk_summary s). split; [|split; [|split]].
  - rewrite (nf_summary _ _ _ Hr). unfold summary_out. rewrite Hs.
    reflexivity.
  - reflexivity.
  - intros k Hk. cbn [In count_keys] in Hk.
    destruct Hk as [<-|[<-|[<-|[<-|[<-|[]]]]]]; reflexivity.
  - destruct (nf_validation _ _ _ Hr) as [errors [He Hget]].
    unfold expected_errors in He.
    destruct (level_errors py d) as [level|]; [|discriminate].
    destruct (confidence_errors py d) as [confidence|]; [|discriminate].
    cbn [bind] in He. injection He as <-.
    exists level, confidence. split; [reflexivity|]. split; [reflexivity|].
    rewrite Hget.
    assert (summary_errors d = []) as ->
      by (unfold summary_errors; rewrite Hs; reflexivity).
    reflexivity.
Qed.

(** ** Equality of values *)

Lemma py_eq_dict (a b : dict) :
  py_eq (VDict a) (VDict b)
  = Nat.eqb (List.length a) (List.length b)
    && forallb (fun kv => match dict_get (fst kv) b with
                          | Some w => py_eq (snd kv) w
                          | None => false
                          end) a.
Proof.
  cbn [py_eq]. f_equal.
  induction a as [|[k v] t IH]; [reflexivity|].
  cbn [forallb fst snd]. rewrite <- IH. reflexivity.
Qed.

Lemma py_eq_list (la lb : list value) :
  Forall2 (fun x y => py_eq x y = true) la lb ->
  py_eq (VList la) (VList lb) = true.
Proof.
  cbn [py_eq]. induction 1 as [|x y ta tb Hxy _ IH]; [reflexivity|].
  rewrite Hxy. exact IH.
Qed.

Lemma py_eq_refl_str (v : value) : is_str v = true -> py_eq v v = true.
Proof.
  destruct v; try discriminate. intros _. apply String.eqb_refl.
Qed.

Lemma py_in_is_str (v : value) (l : list value) :
  forallb is_str l = true -> py_in v l = true -> is_str v = true.
Proof.
  unfold py_in. rewrite forallb_forall, existsb_exists.
  intros Hl [x [Hx E]]. specialize (Hl x Hx).
  destruct x; try discriminate. apply py_eq_str in E; subst; reflexivity.
Qed.

Lemma py_eq_refl_count (v : value) : is_count v = true -> py_eq v v = true.
Proof.
  destruct v; try discriminate; intros _; cbn [py_eq num_cmp];
    rewrite Z.compare_refl; reflexivity.
Qed.

Lemma SFcompare_refl (f : spec_float) :
  SFleb float_zero f = true -> SFcompare f f = Some Eq.
Proof.
  destruct f as [s|s| |s m e]; try discriminate; intros _; cbn [SFcompare].
  - reflexivity.
  - destruct s; reflexivity.
  - rewrite Z.compare_refl, Pos.compare_cont_refl. destruct s; reflexivity.
Qed.

Lemma py_eq_refl_confidence (v : value) :
  confidence_ok v = true -> py_eq v v = true.
Proof.
  unfold confidence_ok. rewrite !andb_true_iff. intros [[Hn H0] _].
  destruct v; try discriminate; cbn [py_eq num_cmp].
  - rewrite Z.compare_refl; reflexivity.
  - rewrite Z.compare_refl; reflexivity.
  - rewrite SFcompare_refl; [reflexivity | exact H0].
Qed.

Lemma py_eq_refl_strs (l : list value) :
  forallb is_str l = true -> py_eq (VList l) (VList l) = true.
Proof.
  intro H. apply py_eq_list. induction l as [|x t IH]; constructor.
  - cbn [forallb] in H. apply andb_true_iff in H as [Hx _].
    apply py_eq_refl_str; assumption.
  - cbn [forallb] in H. apply andb_true_iff in H as [_ Ht]. auto.
Qed.

(** ** A conformant report is a fixed point *)

(** Rebuilding a conformant entry gives an equal entry. *)
Lemma normal_entry_fixed (c : string) (e : dict) :
  In c hazard_categories -> entry_ok is_str c (VDict e) = true ->
  py_eq (VDict (normal_entry c e)) (VDict e) = true.
Proof.
  intros Hc. cbn [entry_ok]. rewrite andb_true_iff. intros [Hk Hf].
  rewrite py_eq_dict. apply andb_true_iff; split.
  - assert (distinct (map fst (entry_shape c)) = true) as Hd
      by (cbn [In hazard_categories] in Hc;
          destruct Hc as [<-|[<-|[<-|[<-|[]]]]]; reflexivity).
    unfold normal_entry. rewrite length_map.
    rewrite (has_keys_exactly_length _ _ Hd Hk), length_map.
    apply Nat.eqb_refl.
  - unfold normal_entry. clear Hk.
    induction (entry_shape c) as [|[k kind] t IH]; [reflexivity|].
    cbn [forallb map fst snd] in *.
    apply andb_true_iff in Hf as [Hk Ht].
    rewrite (IH Ht), andb_true_r.
    unfold field_is in Hk.
    destruct (dict_get k e) as [v|] eqn:Hv; [|discriminate].
    destruct kind; cbn [kind_ok] in Hk.
    + unfold dict_get_or; rewrite Hv. apply py_eq_refl_str; assumption.
    + destruct (coerce_risk_enumeration k e) as [-> _].
      unfold dict_get_or; rewrite Hv, Hk.
      apply py_eq_refl_str, (py_in_is_str v RiskLevel eq_refl Hk).
    + destruct (coerce_risk_enumeration k e) as [_ ->].
      unfold dict_get_or; rewrite Hv, Hk.
      apply py_eq_refl_str, (py_in_is_str v MovementRisk eq_refl Hk).
Qed.

Lemma normal_entries_fixed (c : string) (es : list value) :
  In c hazard_categories -> forallb (entry_ok is_str c) es = true ->
  py_eq (VList (map (normal_entry_value c) es)) (VList es) = true.
Proof.
  intros Hc H. apply py_eq_list. induction es as [|x t IH]; constructor.
  - cbn [forallb] in H. apply andb_true_iff in H as [Hx _].
    destruct x; try discriminate. apply normal_entry_fixed; assumption.
  - cbn [forallb] in H. apply andb_true_iff in H as [_ Ht]. auto.
Qed.

Lemma entry_ok_is_dict (t : value -> bool) (c : string) (es : list value) :
  forallb (entry_ok t c) es = true -> forallb isinstance_dict es = true.
Proof.
  induction es as [|x r IH]; [reflexivity|]. cbn [forallb].
  rewrite !andb_true_iff. intros [Hx Hr]. split; [|auto].
  destruct x; try discriminate; reflexivity.
Qed.

Lemma hazards_ok_items (t : value -> bool) (h : dict) (c : string) :
  field_is (entries_ok t c) c h = true ->
  dict_get c h = Some (VList (category_items c h))
  /\ forallb (entry_ok t c) (category_items c h) = true.
Proof.
  unfold field_is, category_items, dict_get_or.
  destruct (dict_get c h) as [[]|]; try discriminate.
  intro H; split; [reflexivity | exact H].
Qed.

Lemma hazards_ok_visited (t : value -> bool) (h : dict) :
  hazards_ok t (VDict h) = true -> visited_are_dicts h = true.
Proof.
  cbn [hazards_ok]. rewrite andb_true_iff. intros [_ H].
  unfold visited_are_dicts. rewrite forallb_forall in *.
  intros c Hc. specialize (H c Hc).
  apply hazards_ok_items in H as [_ H].
  exact (entry_ok_is_dict t c _ H).
Qed.

Lemma normal_hazards_fixed (h : dict) :
  hazards_ok is_str (VDict h) = true ->
  py_eq (VDict (normal_hazards h)) (VDict h) = true.
Proof.
  cbn [hazards_ok]. rewrite andb_true_iff. intros [Hk Hf].
  rewrite py_eq_dict. apply andb_true_iff; split.
  - unfold normal_hazards. rewrite length_map.
    rewrite (has_keys_exactly_length hazard_categories h eq_refl Hk).
    apply Nat.eqb_refl.
  - unfold normal_hazards. rewrite forallb_forall in *.
    intros [c v] Hin. apply in_map_iff in Hin as [c' [E Hc]].
    injection E as <- <-. cbn [fst snd].
    destruct (hazards_ok_items _ _ _ (Hf c' Hc)) as [-> Hes].
    apply normal_entries_fixed; assumption.
Qed.

Lemma risk_summary_fixed (s : dict) :
  risk_summary_ok (VDict s) = true ->
  py_eq (VDict (_validate_risk_summary s)) (VDict s) = true.
Proof.
  cbn [risk_summary_ok]. rewrite andb_true_iff. intros [Hk Hf].
  rewrite py_eq_dict, _validate_risk_summary_eq.
  apply andb_true_iff; split.
  - rewrite length_map, (has_keys_exactly_length count_keys s eq_refl Hk).
    apply Nat.eqb_refl.
  - rewrite forallb_forall in *.
    intros [k v] Hin. apply in_map_iff in Hin as [k' [E Hk']].
    injection E as <- <-. cbn [fst snd].
    specialize (Hf k' Hk'). unfold field_is in Hf. unfold dict_get_or.
    destruct (dict_get k' s) as [v|]; [|discriminate].
    unfold clamp_count. fold (is_count v). rewrite Hf.
    apply py_eq_refl_count; assumption.
Qed.

(** ** Keys of the report *)

Lemma field_is_elim (p : value -> bool) (k : string) (d : dict) :
  field_is p k d = true -> exists v, dict_get k d = Some v /\ p v = true.
Proof.
  unfold field_is. destruct (dict_get k d) as [v|]; [|discriminate].
  intro H; exists v; split; [reflexivity | exact H].
Qed.

Lemma check_required_present (fs : list string) (d : dict) (e : list string) :
  forallb (fun k => dict_mem k d) fs = true ->
  fold_left check_required_field fs (d, e) = (d, e).
Proof.
  induction fs as [|f t IH]; [reflexivity|]. cbn [forallb fold_left].
  rewrite andb_true_iff. intros [Hf Ht].
  rewrite check_required_field_eq, Hf. exact (IH Ht).
Qed.

Section Keys.

Variable py : interpreter.

(** When the input has all seven fields, the report has the keys of the
    input, in the input's order. *)
Lemma validate_dict_keys (d r : dict) :
  forallb (fun k => dict_mem k d) report_fields = true ->
  validate_dict py d = Ok r -> keys r = keys d.
Proof.
  unfold report_fields. cbn [forallb]. rewrite !andb_true_iff.
  intros [M1 [M2 [M3 [M4 [M5 [M6 [M7 _]]]]]]].
  unfold validate_dict.
  rewrite check_required_present
    by (unfold required_fields; cbn [forallb];
        rewrite M1, M2, M3, M4, M5, M6; reflexivity).
  assert (forall k v a, keys a = keys d -> dict_mem k d = true ->
                        keys (dict_set k v a) = keys d) as Hset.
  { intros k v a Ha Hk. rewrite keys_dict_set_present; [exact Ha|].
    rewrite dict_mem_keys, Ha, <- dict_mem_keys. exact Hk. }
  (* overall_risk_level *)
  destruct (check_overall_risk_level py (d, []))
    as [[d1 e1]|x] eqn:E1; [|discriminate].
  assert (keys d1 = keys d) as K1.
  { unfold check_overall_risk_level in E1.
    destruct (negb _) in E1;
      [destruct (py_str _ _) in E1; [|discriminate]; cbn [bind] in E1|];
      injection E1 as <- _; auto. }
  cbn [bind].
  (* hazards_by_category *)
  destruct (check_hazards_by_category (d1, e1)) as [[d2 e2]|x] eqn:E2;
    [|discriminate].
  assert (keys d2 = keys d) as K2.
  { unfold check_hazards_by_category in E2.
    destruct (dict_get_or "hazards_by_category" VNone d1);
      try (injection E2 as <- _; auto).
    destruct (_validate_hazard_categories d0); [|discriminate].
    cbn [bind] in E2. injection E2 as <- _; auto. }
  cbn [bind].
  (* risk_summary *)
  destruct (check_risk_summary (d2, e2)) as [d3 e3] eqn:E3.
  assert (keys d3 = keys d) as K3.
  { unfold check_risk_summary in E3.
    destruct (dict_get_or "risk_summary" VNone d2);
      injection E3 as <- _; auto. }
  (* confidence_score *)
  destruct (check_confidence_score py (d3, e3))
    as [[d4 e4]|x] eqn:E4; [|discriminate].
  assert (keys d4 = keys d) as K4.
  { unfold check_confidence_score in E4.
    destruct (_ || _) in E4;
      [destruct (py_str _ _) in E4; [|discriminate]; cbn [bind] in E4|];
      injection E4 as <- _; auto. }
  cbn [bind].
  (* urgent_actions *)
  destruct (check_urgent_actions (d4, e4)) as [d5 e5] eqn:E5.
  assert (keys d5 = keys d) as K5.
  { unfold check_urgent_actions in E5.
    destruct (negb _) in E5; injection E5 as <- _; auto. }
  intro H; injection H as <-. auto.
Qed.

(** C7.  For every fully conformant AnalysisReport [R] whose validation
    record holds no error and [is_valid] true, [validate R] returns a
    report equal to [R], again with an empty error sequence. *)
Theorem validate_conformant_fixed (R : value) :
  conformant_clean R = true ->
  exists r',
    validate py R = Ok (VDict r')
    /\ py_eq (VDict r') R = true
    /\ dict_get "validation" r'
       = Some (VDict [("errors", VList []); ("is_valid", VBool true)]).
Proof.
  unfold conformant_clean. destruct R as [| | | | | |d]; try discriminate.
  cbn [conformant]. rewrite !andb_true_iff.
  intros [[[[[[[[HK H1] H2] H3] H4] H5] H6] H7] H8].
  unfold has_keys_exactly in HK. rewrite !andb_true_iff in HK.
  destruct HK as [[Hwf Hsub] Hsup].
  apply field_is_elim in H1 as [v1 [L1 P1]].
  apply field_is_elim in H2 as [v2 [L2 P2]].
  apply field_is_elim in H3 as [v3 [L3 P3]].
  apply field_is_elim in H4 as [v4 [L4 P4]].
  apply field_is_elim in H5 as [v5 [L5 P5]].
  apply field_is_elim in H6 as [v6 [L6 P6]].
  apply field_is_elim in H8 as [v8 [L8 P8]].
  destruct v2 as [| | | | | |h]; try discriminate.
  destruct v3 as [| | | | | |s]; try discriminate.
  destruct v4 as [| | | | |acts|]; try discriminate.
  destruct v8 as [| | | | | |m]; try discriminate.
  assert (entries_are_dicts d = true) as He.
  { unfold entries_are_dicts. rewrite L2.
    exact (hazards_ok_visited is_str h P2). }
  assert (expected_errors py d = Ok []) as Herr.
  { unfold expected_errors, missing_errors, level_errors, hazards_errors,
      summary_errors, confidence_errors, actions_errors, required_fields,
      dict_mem.
    cbn [filter]. rewrite L1, L2, L3, L4, L5, L6, P1, P6. reflexivity. }
  assert (raised py d = None) as Hn.
  { unfold raised, level_errors, confidence_errors.
    rewrite L1, L6, P1, P6, He. reflexivity. }
  pose proof (validate_eq py d) as Hv. rewrite Hn in Hv.
  destruct Hv as [r' [Hv Hr]]. exists r'. split; [exact Hv|].
  destruct (nf_validation _ _ _ Hr) as [errors [Hexp Hval]].
  rewrite Herr in Hexp. injection Hexp as <-.
  assert (keys r' = keys d) as Hkeys.
  { apply validate_dict_keys; [exact Hsup|].
    cbn [OutputValidator.validate bind] in Hv.
    destruct (validate_dict py d); [|discriminate].
    cbn [bind] in Hv. injection Hv as ->. reflexivity. }
  split.
  - rewrite py_eq_dict. apply andb_true_iff; split.
    + rewrite <- (length_map fst r'), <- (length_map fst d).
      fold (keys r') (keys d). rewrite Hkeys. apply Nat.eqb_refl.
    + rewrite forallb_forall. intros [k v'] Hin. cbn [fst snd].
      assert (dict_get k r' = Some v') as Hget
        by (apply In_dict_get; [unfold dict_wf; rewrite Hkeys|]; assumption).
      assert (In k report_fields) as Hk.
      { apply existsb_eqb_In.
        rewrite forallb_forall in Hsub. apply Hsub.
        rewrite <- Hkeys. apply (in_map fst _ _ Hin). }
      cbn [In report_fields] in Hk.
      destruct Hk as [<-|[<-|[<-|[<-|[<-|[<-|[<-|[]]]]]]]].
      * rewrite (nf_level _ _ _ Hr) in Hget. injection Hget as <-.
        unfold level_out. rewrite L1, P1.
        apply py_eq_refl_str, (py_in_is_str v1 RiskLevel eq_refl P1).
      * rewrite (nf_hazards _ _ _ Hr) in Hget. injection Hget as <-.
        unfold hazards_out. rewrite L2.
        apply normal_hazards_fixed; assumption.
      * rewrite (nf_summary _ _ _ Hr) in Hget. injection Hget as <-.
        unfold summary_out. rewrite L3.
        apply risk_summary_fixed; assumption.
      * rewrite (nf_actions _ _ _ Hr) in Hget. injection Hget as <-.
        unfold actions_out. rewrite L4.
        apply py_eq_refl_strs; assumption.
      * rewrite (nf_text _ _ _ Hr) in Hget. injection Hget as <-.
        unfold text_out, dict_get_or. rewrite L5.
        apply py_eq_refl_str; assumption.
      * rewrite (nf_confidence _ _ _ Hr) in Hget. injection Hget as <-.
        unfold confidence_out. rewrite L6, P6.
        apply py_eq_refl_confidence; assumption.
      * rewrite Hval in Hget.
        injection Hget as <-. rewrite L8.
        unfold validation_record. rewrite py_eq_dict.
        cbn [map List.length forallb fst snd Nat.eqb].
        apply field_is_elim in H7 as [v7 [L7 P7]].
        rewrite L8 in L7. injection L7 as <-.
        cbn [validation_ok] in P7. apply andb_true_iff in P7 as [Hm _].
        rewrite (has_keys_exactly_length ["errors"; "is_valid"] m eq_refl Hm).
        unfold field_is in P8. rewrite andb_true_r. exact P8.
  - rewrite Hval. reflexivity.
Qed.

End Keys.

(** ** The claims on concrete inputs *)

Lemma validate_total_on_mappings_witness :
  (entries_are_dicts sample_input = true
   /\ messages_format cpython sample_input = true
   /\ exists r,
       validate cpython (VDict sample_input) = Ok (VDict r)
       /\ repaired r = true
       /\ (hazards_absent_or_dict sample_input = true ->
           field_is (hazards_ok (fun _ => true)) "hazards_by_category" r
           = true)
       /\ (dict_wf sample_input = true -> dict_wf r = true))
  /\ entries_are_dicts formatted_input = true
  /\ messages_format cpython formatted_input = true
  /\ formatted_values formatted_input
     = [VList [VStr "high"; VInt 3]; VInt 85]
  /\ exists r,
      validate cpython (VDict formatted_input) = Ok (VDict r)
      /\ repaired r = true
      /\ (hazards_absent_or_dict formatted_input = true ->
          field_is (hazards_ok (fun _ => true)) "hazards_by_category" r
          = true)
      /\ (dict_wf formatted_input = true -> dict_wf r = true).
Proof.
  split.
  { split; [reflexivity|]. split; [reflexivity|].
    apply (validate_total_on_mappings cpython sample_input); reflexivity. }
  split; [reflexivity|]. split; [reflexivity|]. split; [reflexivity|].
  apply (validate_total_on_mappings cpython formatted_input); reflexivity.
Defined.

(** C1 as stated fails: [validate] raises on [None], on a list, on a
    mapping with a hazard entry that is not a mapping, on a level that is
    an integer of more digits than the interpreter prints and on a
    confidence nested deeper than [repr] can follow; and a summary that is
    a number is returned as it came, in a report that is not
    conformant. *)
Lemma validate_not_total_nor_conformant :
  validate cpython VNone = Raise AttributeError
  /\ validate cpython (VList []) = Raise TypeError
  /\ validate cpython (VDict string_entry_input) = Raise AttributeError
  /\ validate cpython (VDict [("overall_risk_level", VInt long_integer)])
     = Raise ValueError
  /\ validate cpython (VDict [("confidence_score", nested 1000 (VList []))])
     = Raise RecursionError
  /\ exists r,
      validate cpython (VDict [("summary", VInt 5)]) = Ok (VDict r)
      /\ dict_get "summary" r = Some (VInt 5)
      /\ conformant (VDict r) = false.
Proof.
  split; [reflexivity|]. split; [reflexivity|]. split; [reflexivity|].
  split; [vm_compute; reflexivity|]. split; [vm_compute; reflexivity|].
  eexists. repeat split.
Qed.

(** C2 fails on the code: with [hazards_by_category] a list, the report's
    [hazards_by_category] is the empty mapping, which has none of the four
    category keys. *)
Theorem hazards_list_loses_categories :
  exists r,
    validate cpython (VDict hazards_list_input) = Ok (VDict r)
    /\ dict_get "hazards_by_category" r = Some (VDict [])
    /\ has_keys_exactly hazard_categories [] = false
    /\ dict_get "validation" r
       = Some (validation_record ["hazards_by_category must be a dictionary"]).
Proof. eexists. repeat split. Qed.

Lemma unpaired_brace_summary_witness :
  Json.loads cpython EmptyString = Raise JSONDecodeError
  /\ no_valid_pair "{abc" = true
  /\ TyphoonSafetyAnalyzer._parse_response (Json.loads cpython) "{abc"
     = Ok (fallback "Failed to parse response" "{abc")
  /\ no_valid_pair "} reversed {" = true
  /\ TyphoonSafetyAnalyzer._parse_response (Json.loads cpython) "} reversed {"
     = Ok (fallback "Failed to parse response" "} reversed {")
  /\ no_valid_pair "abc}" = true
  /\ TyphoonSafetyAnalyzer._parse_response (Json.loads cpython) "abc}"
     = Ok (fallback "abc}" "abc}").
Proof.
  split; [reflexivity|]. split; [reflexivity|].
  split;
    [exact (proj2 (proj2 (unpaired_brace_summary (Json.loads cpython) "{abc"
                            eq_refl eq_refl)))|].
  split; [reflexivity|].
  split;
    [exact (proj2 (proj2 (unpaired_brace_summary (Json.loads cpython)
                            "} reversed {" eq_refl eq_refl)))|].
  split; [reflexivity|].
  exact (proj2 (proj2 (unpaired_brace_summary (Json.loads cpython) "abc}"
                         eq_refl eq_refl))).
Defined.

(** The decoder's other exceptions leave [_parse_response]: arrays nested
    deeper than the scanner can enter, and an integer of more digits than
    the interpreter converts. *)
Example decoder_exceptions_escape :
  TyphoonSafetyAnalyzer._parse_response (Json.loads cpython)
    (nested_arrays_text 1000)
  = Raise RecursionError
  /\ TyphoonSafetyAnalyzer._parse_response (Json.loads cpython)
       (long_integer_text 4301)
     = Raise ValueError
  /\ TyphoonSafetyAnalyzer._parse_response (Json.loads cpython)
       (nested_arrays_text 2)
     = Ok (VDict [("a", VList [VList []])]).
Proof. split; [|split]; vm_compute; reflexivity. Qed.

Lemma scenario_d_and_counts_witness :
  (2 <= json_depth cpython)%nat
  /\ TyphoonSafetyAnalyzer._parse_response (Json.loads cpython)
       scenario_d_text
     = Ok scenario_d_parsed
  /\ dict_get "risk_summary" sample_input
     = Some (VDict [("high_count", VInt 1); ("low_count", VBool true);
                    ("total_hazards", VStr "one")])
  /\ validate cpython (VDict sample_input)
     = Ok (VDict sample_output)
  /\ exists out,
      dict_get "risk_summary" sample_output = Some (VDict out)
      /\ dict_get "high_count" out = Some (VInt 1)
      /\ dict_get "low_count" out = Some (VBool true)
      /\ dict_get "total_hazards" out = Some (VInt 0)
      /\ dict_get "critical_count" out = Some (VInt 0).
Proof.
  assert (2 <= json_depth cpython)%nat as Hdepth by (cbn; lia).
  split; [exact Hdepth|].
  split; [exact (proj1 (scenario_d_and_counts cpython Hdepth))|].
  split; [reflexivity|]. split; [reflexivity|].
  destruct (proj2 (proj2 (scenario_d_and_counts cpython Hdepth))
              sample_input _ sample_output eq_refl eq_refl)
    as [out [Ho [_ [Hk _]]]].
  exists out. split; [exact Ho|].
  split; [exact (Hk "high_count" ltac:(cbn; tauto))|].
  split; [exact (Hk "low_count" ltac:(cbn; tauto))|].
  split; [exact (Hk "total_hazards" ltac:(cbn; tauto))|].
  exact (Hk "critical_count" ltac:(cbn; tauto)).
Defined.

Lemma validate_keeps_other_top_level_keys_witness :
  validate cpython (VDict sample_input) = Ok (VDict sample_output)
  /\ ~ In "raw_response" report_fields
  /\ dict_get "raw_response" sample_output = Some (VStr "model output").
Proof.
  assert (~ In "raw_response" report_fields) as Hn
    by (cbn; intuition discriminate).
  split; [reflexivity|]. split; [exact Hn|].
  exact (validate_keeps_other_top_level_keys cpython sample_input
           sample_output "raw_response" eq_refl Hn).
Defined.

(** C6 as stated fails: the unknown keys inside [risk_summary],
    [hazards_by_category] and a hazard entry are gone from the report, and
    an input's own [validation] would be overwritten. *)
Lemma nested_unknown_keys_dropped :
  validate cpython (VDict stray_input) = Ok (VDict stray_output)
  /\ (exists s s',
         dict_get "risk_summary" stray_input = Some (VDict s)
         /\ dict_get "note" s = Some (VStr "estimate")
         /\ dict_get "risk_summary" stray_output = Some (VDict s')
         /\ dict_get "note" s' = None)
  /\ (exists h h',
         dict_get "hazards_by_category" stray_input = Some (VDict h)
         /\ dict_get "flood_risk" h = Some (VList [VStr "river"])
         /\ dict_get "hazards_by_category" stray_output = Some (VDict h')
         /\ dict_get "flood_risk" h' = None).
Proof.
  split; [reflexivity|]. split; do 2 eexists; repeat split.
Qed.

Lemma validate_conformant_fixed_witness :
  conformant_clean conformant_sample = true
  /\ exists r',
      validate cpython conformant_sample = Ok (VDict r')
      /\ py_eq (VDict r') conformant_sample = true
      /\ dict_get "validation" r'
         = Some (VDict [("errors", VList []); ("is_valid", VBool true)]).
Proof.
  split; [reflexivity|].
  exact (validate_conformant_fixed cpython conformant_sample
           eq_refl).
Defined.

(** On the sample the level "severe" becomes "unknown"; in the one
    flying object the movement risk "critical", which is no movement risk,
    becomes "unknown", the impact severity "high" is kept and the absent
    overall risk is "unknown". *)
Lemma risk_fields_within_enumerations_witness :
  validate cpython (VDict sample_input) = Ok (VDict sample_output)
  /\ dict_get "overall_risk_level" sample_input = Some (VStr "severe")
  /\ dict_get "overall_risk_level" sample_output = Some (VStr "unknown")
  /\ dict_get "hazards_by_category" sample_output
     = Some (VDict
               [("flying_objects",
                 VList [VDict [("item", VStr "signboard");
                               ("description", VStr "No description");
                               ("movement_risk", VStr "unknown");
                               ("impact_severity", VStr "high");
                               ("overall_risk", VStr "unknown");
                               ("location", VStr "Location not specified");
                               ("recommendation", VStr "No recommendation")]]);
                ("structural_damage", VList []);
                ("elevated_objects", VList []);
                ("tree_hazards", VList [])])
  /\ (exists l,
         dict_get "overall_risk_level" sample_output = Some l
         /\ py_in l RiskLevel = true
         /\ l = match dict_get "overall_risk_level" sample_input with
                | Some v => if py_in v RiskLevel then v else VStr "unknown"
                | None => VStr "unknown"
                end)
  /\ (forall h' c es x,
         dict_get "hazards_by_category" sample_output = Some (VDict h') ->
         dict_get c h' = Some (VList es) -> In x es ->
         exists e,
           x = VDict e
           /\ forall k v,
               dict_get k e = Some v ->
               (In k level_fields -> py_in v RiskLevel = true)
               /\ (In k movement_fields -> py_in v MovementRisk = true))
  /\ (forall h c,
         dict_get "hazards_by_category" sample_input = Some (VDict h) ->
         In c hazard_categories ->
         exists h' out,
           dict_get "hazards_by_category" sample_output = Some (VDict h')
           /\ dict_get c h' = Some (VList out)
           /\ Forall2
                (fun x y =>
                   exists e e',
                     x = VDict e /\ y = VDict e'
                     /\ forall k kind,
                         In (k, kind) (entry_shape c) -> kind <> Text ->
                         dict_get k e'
                         = Some (if py_in (dict_get_or k VNone e)
                                      (enumeration kind)
                                 then dict_get_or k VNone e
                                 else VStr "unknown"))
                (category_items c h) out).
Proof.
  split; [reflexivity|]. split; [reflexivity|]. split; [reflexivity|].
  split; [reflexivity|].
  exact (risk_fields_within_enumerations cpython sample_input sample_output
           eq_refl).
Defined.

Lemma validate_errors_in_check_order_witness :
  validate cpython (VDict sample_input) = Ok (VDict sample_output)
  /\ level_errors cpython sample_input
     = Ok ["Invalid overall_risk_level: severe"]
  /\ confidence_errors cpython sample_input = Ok []
  /\ dict_get "validation" sample_output
     = Some (VDict
               [("errors",
                 VList [VStr "Missing required field: urgent_actions";
                        VStr "Missing required field: summary";
                        VStr "Invalid overall_risk_level: severe"]);
                ("is_valid", VBool false)]).
Proof.
  split; [reflexivity|]. split; [reflexivity|]. split; [reflexivity|].
  destruct (proj2 (validate_errors_in_check_order cpython)
              sample_input sample_output eq_refl)
    as [level [confidence [Hl [Hc Hget]]]].
  injection Hl as <-. injection Hc as <-. exact Hget.
Defined.

Lemma boolean_confidence_passes_witness :
  dict_get "confidence_score" sample_input = Some (VBool true)
  /\ validate cpython (VDict sample_input)
     = Ok (VDict sample_output)
  /\ dict_get "confidence_score" sample_output = Some (VBool true).
Proof.
  split; [reflexivity|]. split; [reflexivity|].
  exact (proj1 (proj2 (proj2 (boolean_confidence_passes cpython
                                sample_input sample_output true
                                eq_refl eq_refl)))).
Defined.

(** ** Further scenarios of the specification *)

(** Scenario B: an unknown level is replaced and recorded, an empty
    [risk_summary] is filled with zeros without a record. *)
Example scenario_b (py : interpreter) :
  exists r,
    validate py
      (VDict [("overall_risk_level", VStr "extreme");
              ("hazards_by_category", VDict []);
              ("risk_summary", VDict []);
              ("urgent_actions", VList []);
              ("summary", VStr "ok");
              ("confidence_score",
               VFloat (S754_finite false 4503599627370496 (-53)))])
    = Ok (VDict r)
    /\ dict_get "overall_risk_level" r = Some (VStr "unknown")
    /\ dict_get "risk_summary" r = Some _get_default_risk_summary
    /\ dict_get "validation" r
       = Some (validation_record ["Invalid overall_risk_level: extreme"]).
Proof. eexists. repeat split. Qed.

(** Scenario C: a text without braces becomes the fallback structure, and
    the report made of it keeps the text as summary and records the two
    fields the fallback lacks. *)
Example scenario_c (py : interpreter) :
  TyphoonSafetyAnalyzer._parse_response (Json.loads py) "no braces here"
  = Ok (fallback "no braces here" "no braces here")
  /\ exists r,
      validate py (fallback "no braces here" "no braces here")
      = Ok (VDict r)
      /\ dict_get "summary" r = Some (VStr "no braces here")
      /\ dict_get "validation" r
         = Some (validation_record
                   ["Missing required field: hazards_by_category";
                    "Missing required field: risk_summary"]).
Proof. split; [reflexivity|]. eexists. repeat split. Qed.

(** Scenario E: a confidence of 1.5 is reset to 0.0 and recorded with
    its [repr], when there is a call left for it. *)
Example scenario_e (py : interpreter) :
  (0 < repr_depth py)%nat ->
  exists r,
    validate py
      (VDict [("confidence_score",
               VFloat (S754_finite false 6755399441055744 (-52)))])
    = Ok (VDict r)
    /\ dict_get "confidence_score" r = Some (VFloat float_zero)
    /\ exists errors,
        dict_get "validation" r = Some (validation_record errors)
        /\ In ("Invalid confidence_score: "
               ++ repr_float py (S754_finite false 6755399441055744 (-52)))%string
             errors.
Proof.
  destruct py as [rf rs limit rd jd]. cbn [repr_depth repr_float].
  intro Hd. destruct rd as [|rd]; [lia|].
  eexists. split; [reflexivity|]. split; [reflexivity|].
  eexists. split; [reflexivity|]. cbn. tauto.
Qed.

(** * Further properties of the code *)

(** ** When [validate] raises *)

Lemma forallb_false_exists {A : Type} (p : A -> bool) (l : list A) :
  forallb p l = false -> exists x, In x l /\ p x = false.
Proof.
  induction l as [|a t IH]; [discriminate|]. cbn [forallb].
  destruct (p a) eqn:E; cbn [andb].
  - intro H. destruct (IH H) as [x [Hx Hp]]. exists x; split; [right|]; auto.
  - intros _. exists a; split; [left; reflexivity | exact E].
Qed.

Lemma category_items_list (c : string) (h : dict) (x : value) :
  In x (category_items c h) -> dict_get c h = Some (VList (category_items c h)).
Proof.
  unfold category_items, dict_get_or.
  destruct (dict_get c h) as [[]|]; try contradiction. reflexivity.
Qed.

Lemma entries_are_dicts_false (d : dict) :
  entries_are_dicts d = false
  <-> exists h c l x,
      dict_get "hazards_by_category" d = Some (VDict h)
      /\ In c hazard_categories
      /\ dict_get c h = Some (VList l)
      /\ In x l /\ isinstance_dict x = false.
Proof.
  unfold entries_are_dicts. split.
  - destruct (dict_get "hazards_by_category" d) as [[| | | | | |h]|];
      try discriminate.
    intro H. apply forallb_false_exists in H as [c [Hc H]].
    apply forallb_false_exists in H as [x [Hx Hd]].
    exists h, c, (category_items c h), x.
    split; [reflexivity|]. split; [exact Hc|].
    split; [exact (category_items_list c h x Hx)|]. split; assumption.
  - intros [h [c [l [x [-> [Hc [Hl [Hx Hd]]]]]]]].
    destruct (visited_are_dicts h) eqn:E; [|reflexivity].
    unfold visited_are_dicts in E. rewrite forallb_forall in E.
    specialize (E c Hc). unfold category_items, dict_get_or in E.
    rewrite Hl in E. rewrite forallb_forall in E.
    rewrite (E x Hx) in Hd. discriminate.
Qed.

Section Raising.

Variable py : interpreter.

Local Abbreviation validate := (validate py).

Lemma level_errors_eq (d : dict) :
  level_errors py d
  = match invalid_level d with
    | Some v =>
        text <- py_str py v ;; Ok ["Invalid overall_risk_level: " ++ text]%string
    | None => Ok []
    end.
Proof.
  unfold level_errors, invalid_level.
  destruct (dict_get "overall_risk_level" d) as [v|]; [|reflexivity].
  destruct (py_in v RiskLevel); reflexivity.
Qed.

Lemma confidence_errors_eq (d : dict) :
  confidence_errors py d
  = match invalid_confidence d with
    | Some v =>
        text <- py_str py v ;; Ok ["Invalid confidence_score: " ++ text]%string
    | None => Ok []
    end.
Proof.
  unfold confidence_errors, invalid_confidence.
  destruct (dict_get "confidence_score" d) as [v|]; [|reflexivity].
  destruct (confidence_ok v); reflexivity.
Qed.

(** What [raised] tells, in terms of the input. *)
Lemma raised_cases (d : dict) (x : exn) :
  raised py d = Some x
  <-> (exists v, invalid_level d = Some v /\ py_str py v = Raise x)
      \/ ((forall v, invalid_level d = Some v -> formats py v = true)
          /\ entries_are_dicts d = false /\ x = AttributeError)
      \/ ((forall v, invalid_level d = Some v -> formats py v = true)
          /\ entries_are_dicts d = true
          /\ exists v, invalid_confidence d = Some v /\ py_str py v = Raise x).
Proof.
  unfold raised, formats. rewrite level_errors_eq, confidence_errors_eq.
  destruct (invalid_level d) as [v|].
  - destruct (py_str py v) as [text|y] eqn:Ev; cbn [bind].
    + destruct (entries_are_dicts d).
      * destruct (invalid_confidence d) as [w|].
        -- destruct (py_str py w) as [text'|z] eqn:Ew; cbn [bind]; split.
           ++ discriminate.
           ++ intros [[v0 [H0 H1]]|[[_ [H0 _]]|[_ [_ [w0 [H0 H1]]]]]];
                try discriminate.
              ** injection H0 as <-. congruence.
              ** injection H0 as <-. congruence.
           ++ intro H; injection H as <-. right; right.
              split; [intros v0 H0; injection H0 as <-; rewrite Ev;
                      reflexivity|].
              split; [reflexivity|]. exists w; split; [reflexivity|exact Ew].
           ++ intros [[v0 [H0 H1]]|[[_ [H0 _]]|[_ [_ [w0 [H0 H1]]]]]];
                try discriminate.
              ** injection H0 as <-. congruence.
              ** injection H0 as <-. congruence.
        -- split; [discriminate|].
           intros [[v0 [H0 H1]]|[[_ [H0 _]]|[_ [_ [w0 [H0 H1]]]]]];
             try discriminate.
           injection H0 as <-. congruence.
      * split.
        -- intro H; injection H as <-. right; left.
           split; [intros v0 H0; injection H0 as <-; rewrite Ev;
                   reflexivity|].
           split; reflexivity.
        -- intros [[v0 [H0 H1]]|[[_ [_ ->]]|[_ [H0 _]]]];
             try discriminate; try reflexivity.
           injection H0 as <-. congruence.
    + split.
      * intro H; injection H as <-. left. exists v; split; [reflexivity|exact Ev].
      * intros [[v0 [H0 H1]]|[[H0 _]|[H0 _]]].
        -- injection H0 as <-. congruence.
        -- specialize (H0 v eq_refl). rewrite Ev in H0. discriminate.
        -- specialize (H0 v eq_refl). rewrite Ev in H0. discriminate.
  - destruct (entries_are_dicts d).
    + destruct (invalid_confidence d) as [w|].
      * destruct (py_str py w) as [text'|z] eqn:Ew; cbn [bind]; split.
        -- discriminate.
        -- intros [[v0 [H0 H1]]|[[_ [H0 _]]|[_ [_ [w0 [H0 H1]]]]]];
             try discriminate.
           injection H0 as <-. congruence.
        -- intro H; injection H as <-. right; right.
           split; [discriminate|]. split; [reflexivity|].
           exists w; split; [reflexivity|exact Ew].
        -- intros [[v0 [H0 H1]]|[[_ [H0 _]]|[_ [_ [w0 [H0 H1]]]]]];
             try discriminate.
           injection H0 as <-. congruence.
      * split; [discriminate|].
        intros [[v0 [H0 H1]]|[[_ [H0 _]]|[_ [_ [w0 [H0 H1]]]]]];
          discriminate.
    + split.
      * intro H; injection H as <-. right; left.
        split; [discriminate|]. split; reflexivity.
      * intros [[v0 [H0 H1]]|[[_ [_ ->]]|[_ [H0 _]]]];
          try discriminate; reflexivity.
Qed.

(** X1.  On a mapping, [validate] raises in three cases, met in this
    order: the [overall_risk_level] is outside its enumeration and its
    [str] raises; a category of a mapping-valued [hazards_by_category]
    holds a list with an element that is not a mapping, where the
    exception is [AttributeError]; the [confidence_score] is not a number
    in [0.0, 1.0] and its [str] raises.  It raises in no other case, and
    what it raises is [AttributeError], [ValueError] or [RecursionError].
    Entries under other keys, and categories that do not hold a list, are
    not inspected. *)
Theorem validate_raises_iff (d : dict) (x : exn) :
  (validate (VDict d) = Raise x
   <-> (exists v, invalid_level d = Some v /\ py_str py v = Raise x)
       \/ ((forall v, invalid_level d = Some v ->
                      exists text, py_str py v = Ok text)
           /\ x = AttributeError
           /\ exists h c l e,
               dict_get "hazards_by_category" d = Some (VDict h)
               /\ In c hazard_categories
               /\ dict_get c h = Some (VList l)
               /\ In e l /\ isinstance_dict e = false)
       \/ ((forall v, invalid_level d = Some v ->
                      exists text, py_str py v = Ok text)
           /\ (forall h c l e,
                  dict_get "hazards_by_category" d = Some (VDict h) ->
                  In c hazard_categories -> dict_get c h = Some (VList l) ->
                  In e l -> isinstance_dict e = true)
           /\ exists v, invalid_confidence d = Some v
                        /\ py_str py v = Raise x))
  /\ (validate (VDict d) = Raise x ->
      x = AttributeError \/ x = ValueError \/ x = RecursionError).
Proof.
  assert (forall v, formats py v = true <-> exists text, py_str py v = Ok text)
    as Hfmt.
  { intro v. unfold formats. destruct (py_str py v) as [text|y]; split;
      try discriminate; try reflexivity.
    - intros _. exists text; reflexivity.
    - intros [text H]; discriminate. }
  assert (entries_are_dicts d = true
          <-> forall h c l e,
              dict_get "hazards_by_category" d = Some (VDict h) ->
              In c hazard_categories -> dict_get c h = Some (VList l) ->
              In e l -> isinstance_dict e = true) as Hent.
  { split.
    - intros He h c l e H1 H2 H3 H4.
      destruct (isinstance_dict e) eqn:E; [reflexivity|].
      assert (entries_are_dicts d = false) as F
        by (apply entries_are_dicts_false; exists h, c, l, e; auto).
      congruence.
    - intro H. destruct (entries_are_dicts d) eqn:E; [reflexivity|].
      apply entries_are_dicts_false in E
        as [h [c [l [e [H1 [H2 [H3 [H4 H5]]]]]]]].
      rewrite (H h c l e H1 H2 H3 H4) in H5. discriminate. }
  assert (validate (VDict d) = Raise x <-> raised py d = Some x) as Hr.
  { pose proof (validate_eq py d) as H.
    destruct (raised py d) as [y|].
    - rewrite H. split; intro E; injection E as <-; reflexivity.
    - destruct H as [r [-> _]]. split; discriminate. }
  split.
  - rewrite Hr, raised_cases, <- entries_are_dicts_false, <- Hent.
    split.
    + intros [H|[[H1 [H2 H3]]|[H1 [H2 H3]]]].
      * left; exact H.
      * right; left. split; [intros v Hv; apply Hfmt; auto|]. tauto.
      * right; right. split; [intros v Hv; apply Hfmt; auto|]. tauto.
    + intros [H|[[H1 [H2 H3]]|[H1 [H2 H3]]]].
      * left; exact H.
      * right; left. split; [intros v Hv; apply Hfmt; auto|]. tauto.
      * right; right. split; [intros v Hv; apply Hfmt; auto|]. tauto.
  - rewrite Hr, raised_cases.
    intros [[v [_ H]]|[[_ [_ ->]]|[_ [_ [v [_ H]]]]]].
    + right. exact (py_str_raises py v x H).
    + left; reflexivity.
    + right. exact (py_str_raises py v x H).
Qed.

End Raising.

Lemma validate_raises_iff_witness :
  (validate cpython (VDict string_entry_input) = Raise AttributeError
   /\ exists h c l e,
       dict_get "hazards_by_category" string_entry_input = Some (VDict h)
       /\ In c hazard_categories
       /\ dict_get c h = Some (VList l)
       /\ In e l /\ isinstance_dict e = false)
  /\ validate cpython (VDict [("overall_risk_level", VInt long_integer)])
     = Raise ValueError
  /\ invalid_level [("overall_risk_level", VInt long_integer)]
     = Some (VInt long_integer)
  /\ py_str cpython (VInt long_integer) = Raise ValueError.
Proof.
  assert (py_str cpython (VInt long_integer) = Raise ValueError) as Hs
    by (vm_compute; reflexivity).
  assert (exists h c l e,
             dict_get "hazards_by_category" string_entry_input = Some (VDict h)
             /\ In c hazard_categories
             /\ dict_get c h = Some (VList l)
             /\ In e l /\ isinstance_dict e = false) as He.
  { exists [("flying_objects", VList [VStr "signboard"])], "flying_objects",
      [VStr "signboard"], (VStr "signboard").
    cbn. tauto. }
  split; [split; [|exact He]|split; [|split; [reflexivity | exact Hs]]].
  - apply (proj1 (validate_raises_iff cpython string_entry_input
                    AttributeError)).
    right; left. split; [discriminate|]. split; [reflexivity | exact He].
  - apply (proj1 (validate_raises_iff cpython
                    [("overall_risk_level", VInt long_integer)] ValueError)).
    left. exists (VInt long_integer). split; [reflexivity | exact Hs].
Defined.

(** ** Hazard lists and entries *)

Lemma normal_hazards_get (h : dict) (c : string) :
  In c hazard_categories ->
  dict_get c (normal_hazards h)
  = Some (VList (map (normal_entry_value c) (category_items c h))).
Proof.
  cbn [In hazard_categories]. intros [<-|[<-|[<-|[<-|[]]]]]; reflexivity.
Qed.

Lemma entry_validator_defined (c : string) :
  In c hazard_categories -> exists f, entry_validator c = Some f.
Proof.
  cbn [In hazard_categories].
  intros [<-|[<-|[<-|[<-|[]]]]]; eexists; reflexivity.
Qed.

Lemma entries_rebuilt_pointwise (c : string) (f : value -> result value)
  (l : list value) :
  entry_validator c = Some f -> forallb isinstance_dict l = true ->
  Forall2 (fun x y => f x = Ok y) l (map (normal_entry_value c) l).
Proof.
  intros Hf. induction l as [|x t IH]; cbn [forallb map]; [constructor|].
  rewrite andb_true_iff. intros [Hx Ht]. constructor; [|auto].
  destruct x; try discriminate. exact (entry_validator_dict c f d Hf).
Qed.

Lemma validate_ok_entries_are_dicts (py : interpreter) (d r : dict) :
  validate py (VDict d) = Ok (VDict r) ->
  entries_are_dicts d = true.
Proof.
  intro H.
  exact (proj1 (proj1 (raised_none py d) (validate_ok_raised py d r H))).
Qed.

(** X2.  When [hazards_by_category] is a mapping and [validate] returns,
    the report lists the four categories in their fixed order, and the
    list under each category is the input's list under that key (no entry
    when the key is absent or does not hold a list) with the category's
    entry validator applied element by element: as many entries, in the
    same order. *)
Theorem hazard_lists_rebuilt_in_place (py : interpreter) (d h r : dict) (c : string) :
  dict_get "hazards_by_category" d = Some (VDict h) ->
  validate py (VDict d) = Ok (VDict r) ->
  In c hazard_categories ->
  exists h' out f,
    dict_get "hazards_by_category" r = Some (VDict h')
    /\ keys h' = hazard_categories
    /\ dict_get c h' = Some (VList out)
    /\ entry_validator c = Some f
    /\ Forall2 (fun x y => f x = Ok y)
         (match dict_get c h with Some (VList l) => l | _ => [] end) out.
Proof.
  intros Hh Hv Hc.
  pose proof (validate_ok_normalises py d r Hv) as Hr.
  pose proof (validate_ok_entries_are_dicts py d r Hv) as He.
  unfold entries_are_dicts in He. rewrite Hh in He.
  destruct (entry_validator_defined c Hc) as [f Hf].
  exists (normal_hazards h), (map (normal_entry_value c) (category_items c h)), f.
  split; [rewrite (nf_hazards _ _ _ Hr); unfold hazards_out; rewrite Hh;
          reflexivity|].
  split; [reflexivity|].
  split; [exact (normal_hazards_get h c Hc)|].
  split; [exact Hf|].
  unfold visited_are_dicts in He. rewrite forallb_forall in He.
  specialize (He c Hc).
  replace (match dict_get c h with Some (VList l) => l | _ => [] end)
    with (category_items c h)
    by (unfold category_items, dict_get_or;
        destruct (dict_get c h) as [[]|]; reflexivity).
  exact (entries_rebuilt_pointwise c f _ Hf He).
Qed.

(** On the sample, the one entry under [flying_objects] is rebuilt by
    [_validate_flying_object], and [tree_hazards], which holds a number,
    gets the empty list. *)
Lemma hazard_lists_rebuilt_in_place_witness :
  dict_get "hazards_by_category" sample_input
  = Some (VDict [("flying_objects",
                  VList [VDict [("item", VStr "signboard");
                                ("movement_risk", VStr "critical");
                                ("impact_severity", VStr "high")]]);
                 ("tree_hazards", VInt 3)])
  /\ validate cpython (VDict sample_input)
     = Ok (VDict sample_output)
  /\ In "flying_objects" hazard_categories
  /\ (exists h' out f,
         dict_get "hazards_by_category" sample_output = Some (VDict h')
         /\ keys h' = hazard_categories
         /\ dict_get "flying_objects" h' = Some (VList out)
         /\ entry_validator "flying_objects" = Some f
         /\ Forall2 (fun x y => f x = Ok y)
              [VDict [("item", VStr "signboard");
                      ("movement_risk", VStr "critical");
                      ("impact_severity", VStr "high")]]
              out)
  /\ _validate_flying_object
       (VDict [("item", VStr "signboard");
               ("movement_risk", VStr "critical");
               ("impact_severity", VStr "high")])
     = Ok (VDict [("item", VStr "signboard");
                  ("description", VStr "No description");
                  ("movement_risk", VStr "unknown");
                  ("impact_severity", VStr "high");
                  ("overall_risk", VStr "unknown");
                  ("location", VStr "Location not specified");
                  ("recommendation", VStr "No recommendation")])
  /\ In "tree_hazards" hazard_categories
  /\ exists h' out f,
      dict_get "hazards_by_category" sample_output = Some (VDict h')
      /\ keys h' = hazard_categories
      /\ dict_get "tree_hazards" h' = Some (VList out)
      /\ entry_validator "tree_hazards" = Some f
      /\ Forall2 (fun x y => f x = Ok y) [] out.
Proof.
  assert (In "flying_objects" hazard_categories) as Hf by (cbn; tauto).
  assert (In "tree_hazards" hazard_categories) as Ht by (cbn; tauto).
  split; [reflexivity|]. split; [reflexivity|]. split; [exact Hf|].
  split;
    [exact (hazard_lists_rebuilt_in_place cpython sample_input _
              sample_output "flying_objects" eq_refl eq_refl Hf)|].
  split; [reflexivity|]. split; [exact Ht|].
  exact (hazard_lists_rebuilt_in_place cpython sample_input _
           sample_output "tree_hazards" eq_refl eq_refl Ht).
Defined.

(** X3.  Each entry validator, given a mapping, returns a mapping with
    exactly the fields of its category, in their fixed order; a text field
    ([item], [description], [location], [recommendation]) holds the
    input's value whenever the key is present, whatever that value is
    (a number or [None] included), and the category's placeholder only
    when the key is absent. *)
Theorem entry_text_fields_kept (c : string) (f : value -> result value)
  (e : dict) (k : string) :
  entry_validator c = Some f -> In (k, Text) (entry_shape c) ->
  exists out,
    f (VDict e) = Ok (VDict out)
    /\ keys out = map fst (entry_shape c)
    /\ dict_get k out
       = Some (match dict_get k e with
               | Some v => v
               | None => VStr (placeholder c k)
               end).
Proof.
  intros Hf Hk. exists (normal_entry c e).
  split; [exact (entry_validator_dict c f e Hf)|].
  split; [unfold normal_entry, keys; rewrite map_map; reflexivity|].
  revert Hf Hk. unfold entry_validator, normal_entry, entry_shape.
  destruct (String.eqb c "flying_objects") eqn:E1;
    [|destruct (String.eqb c "structural_damage") eqn:E2;
      [|destruct (String.eqb c "elevated_objects") eqn:E3;
        [|destruct (String.eqb c "tree_hazards") eqn:E4; [|discriminate]]]];
    intros _ Hin;
    match goal with E : String.eqb c _ = true |- _ =>
      apply String.eqb_eq in E; subst c end;
    cbn [In] in Hin;
    repeat (destruct Hin as [Hin|Hin];
            [first [discriminate Hin | injection Hin as <-; reflexivity]|]);
    contradiction.
Qed.

Lemma entry_text_fields_kept_witness :
  entry_validator "tree_hazards" = Some _validate_tree_hazard
  /\ In ("location", Text) (entry_shape "tree_hazards")
  /\ exists out,
      _validate_tree_hazard (VDict [("location", VNone); ("height", VInt 9)])
      = Ok (VDict out)
      /\ keys out = ["description"; "risk_level"; "location"; "recommendation"]
      /\ dict_get "location" out = Some VNone.
Proof.
  assert (In ("location", Text) (entry_shape "tree_hazards")) as Hk
    by (cbn; tauto).
  split; [reflexivity|]. split; [exact Hk|].
  exact (entry_text_fields_kept "tree_hazards" _validate_tree_hazard
           [("location", VNone); ("height", VInt 9)] "location" eq_refl Hk).
Defined.

(** ** The validation record *)

Lemma is_valid_top_level (py : interpreter) (d : dict)
  (errors : list string) :
  expected_errors py d = Ok errors ->
  Nat.eqb (List.length errors) 0 = top_level_ok d.
Proof.
  unfold expected_errors.
  destruct (level_errors py d) as [le|] eqn:El; [|discriminate].
  destruct (confidence_errors py d) as [ce|] eqn:Ec; [|discriminate].
  cbn [bind]. intro H; injection H as <-. revert El Ec.
  unfold missing_errors, level_errors, hazards_errors,
    summary_errors, confidence_errors, actions_errors, top_level_ok,
    required_fields, field_is, dict_mem.
  cbn [forallb filter].
  destruct (dict_get "overall_risk_level" d) as [v1|]; [|reflexivity].
  destruct (dict_get "hazards_by_category" d) as [v2|]; [|reflexivity].
  destruct (dict_get "risk_summary" d) as [v3|]; [|reflexivity].
  destruct (dict_get "urgent_actions" d) as [v4|]; [|reflexivity].
  destruct (dict_get "summary" d) as [v5|]; [|reflexivity].
  destruct (dict_get "confidence_score" d) as [v6|]; [|reflexivity].
  cbn [negb map app andb].
  destruct (py_in v1 RiskLevel);
    [|destruct (py_str py v1); [|discriminate]; cbn [bind];
      intros E _; injection E as <-; reflexivity].
  intros E; injection E as <-. cbn [app andb].
  destruct v2; try reflexivity. cbn [app andb isinstance_dict].
  destruct v3; try reflexivity. cbn [app andb isinstance_dict].
  destruct (confidence_ok v6);
    [|destruct (py_str py v6); [|discriminate]; cbn [bind];
      intros E; injection E as <-; reflexivity].
  intros E; injection E as <-. cbn [app andb].
  destruct v4; reflexivity.
Qed.

(** X4.  [is_valid] is true exactly when the input has the six required
    fields, its [overall_risk_level] is one of the five levels, its
    [hazards_by_category] and [risk_summary] are mappings, its
    [confidence_score] is a number in [0.0, 1.0] and its [urgent_actions]
    is a list.  Nothing inside the hazard entries or the counts, and
    nothing about [summary] beyond its presence, bears on it. *)
Theorem is_valid_iff_top_level_ok (py : interpreter) (d r : dict) :
  validate py (VDict d) = Ok (VDict r) ->
  exists errors,
    dict_get "validation" r
    = Some (VDict [("errors", VList (map VStr errors));
                   ("is_valid", VBool (top_level_ok d))])
    /\ (errors = [] <-> top_level_ok d = true).
Proof.
  intro Hv.
  pose proof (validate_ok_normalises py d r Hv) as Hr.
  destruct (nf_validation _ _ _ Hr) as [errors [He Hget]].
  exists errors. split.
  - rewrite Hget. unfold validation_record.
    rewrite (is_valid_top_level py d errors He). reflexivity.
  - rewrite <- (is_valid_top_level py d errors He).
    destruct errors; split; try reflexivity; discriminate.
Qed.

Lemma is_valid_iff_top_level_ok_witness :
  validate cpython (VDict stray_input) = Ok (VDict stray_output)
  /\ top_level_ok stray_input = true
  /\ dict_get "validation" stray_output
     = Some (VDict [("errors", VList []); ("is_valid", VBool true)]).
Proof.
  split; [reflexivity|]. split; [reflexivity|].
  destruct (is_valid_iff_top_level_ok cpython stray_input
              stray_output eq_refl) as [errors [Hget Hiff]].
  rewrite Hget. rewrite (proj2 Hiff eq_refl). reflexivity.
Defined.

Lemma missing_errors_eq (d : dict) :
  missing_errors d
  = flat_map (fun f => if dict_mem f d then [] else [missing_message f])
      required_fields.
Proof.
  unfold missing_errors.
  induction required_fields as [|f t IH]; [reflexivity|].
  cbn [filter flat_map]. destruct (dict_mem f d); cbn [negb map app];
    rewrite IH; reflexivity.
Qed.

Lemma filter_about_missing (d : dict) (f : string) :
  In f required_fields ->
  filter (about f) (missing_errors d)
  = if dict_mem f d then [] else [missing_message f].
Proof.
  rewrite missing_errors_eq. unfold required_fields. cbn [In flat_map].
  intros [<-|[<-|[<-|[<-|[<-|[<-|[]]]]]]];
    destruct (dict_mem "overall_risk_level" d),
      (dict_mem "hazards_by_category" d), (dict_mem "risk_summary" d),
      (dict_mem "urgent_actions" d), (dict_mem "summary" d),
      (dict_mem "confidence_score" d); reflexivity.
Qed.

Lemma about_missing (f : string) : about f (missing_message f) = true.
Proof. unfold about. rewrite String.eqb_refl. reflexivity. Qed.

Lemma about_invalid_level (f text : string) :
  In f required_fields ->
  about f ("Invalid overall_risk_level: " ++ text)%string
  = String.eqb f "overall_risk_level".
Proof.
  unfold required_fields. cbn [In].
  intros [<-|[<-|[<-|[<-|[<-|[<-|[]]]]]]]; reflexivity.
Qed.

Lemma about_invalid_confidence (f text : string) :
  In f required_fields ->
  about f ("Invalid confidence_score: " ++ text)%string
  = String.eqb f "confidence_score".
Proof.
  unfold required_fields. cbn [In].
  intros [<-|[<-|[<-|[<-|[<-|[<-|[]]]]]]]; reflexivity.
Qed.

Lemma level_errors_shape (py : interpreter) (d : dict) (le : list string) :
  level_errors py d = Ok le ->
  one_complaint d "overall_risk_level" le
    (fun m => exists text,
                m = ("Invalid overall_risk_level: " ++ text)%string).
Proof.
  unfold level_errors, one_complaint, dict_mem.
  destruct (dict_get "overall_risk_level" d) as [v|];
    [|intro H; injection H as <-; left; reflexivity].
  destruct (py_in v RiskLevel);
    [intro H; injection H as <-; left; reflexivity|].
  destruct (py_str py v) as [text|]; [|discriminate]. cbn [bind].
  intro H; injection H as <-. right. split; [reflexivity|].
  eexists; split; [reflexivity|]. exists text; reflexivity.
Qed.

Lemma confidence_errors_shape (py : interpreter) (d : dict)
  (ce : list string) :
  confidence_errors py d = Ok ce ->
  one_complaint d "confidence_score" ce
    (fun m => exists text,
                m = ("Invalid confidence_score: " ++ text)%string).
Proof.
  unfold confidence_errors, one_complaint, dict_mem.
  destruct (dict_get "confidence_score" d) as [v|];
    [|intro H; injection H as <-; left; reflexivity].
  destruct (confidence_ok v);
    [intro H; injection H as <-; left; reflexivity|].
  destruct (py_str py v) as [text|]; [|discriminate]. cbn [bind].
  intro H; injection H as <-. right. split; [reflexivity|].
  eexists; split; [reflexivity|]. exists text; reflexivity.
Qed.

Lemma hazards_errors_shape (d : dict) :
  one_complaint d "hazards_by_category" (hazards_errors d)
    (fun m => m = "hazards_by_category must be a dictionary").
Proof.
  unfold hazards_errors, one_complaint, dict_mem.
  destruct (dict_get "hazards_by_category" d) as [[]|];
    try (left; reflexivity);
    right; (split; [reflexivity|]); eexists; split; reflexivity.
Qed.

Lemma summary_errors_shape (d : dict) :
  one_complaint d "risk_summary" (summary_errors d)
    (fun m => m = "risk_summary must be a dictionary").
Proof.
  unfold summary_errors, one_complaint, dict_mem.
  destruct (dict_get "risk_summary" d) as [[]|];
    try (left; reflexivity);
    right; (split; [reflexivity|]); eexists; split; reflexivity.
Qed.

Lemma actions_errors_shape (d : dict) :
  one_complaint d "urgent_actions" (actions_errors d)
    (fun m => m = "urgent_actions must be a list").
Proof.
  unfold actions_errors, one_complaint, dict_mem.
  destruct (dict_get "urgent_actions" d) as [[]|];
    try (left; reflexivity);
    right; (split; [reflexivity|]); eexists; split; reflexivity.
Qed.

(** The messages about one field, in an error list made of the missing
    fields and of the five complaints. *)
Lemma filter_about_errors (d : dict) (f : string)
  (le he se ce ae : list string) :
  In f required_fields ->
  one_complaint d "overall_risk_level" le
    (fun m => exists text,
                m = ("Invalid overall_risk_level: " ++ text)%string) ->
  one_complaint d "hazards_by_category" he
    (fun m => m = "hazards_by_category must be a dictionary") ->
  one_complaint d "risk_summary" se
    (fun m => m = "risk_summary must be a dictionary") ->
  one_complaint d "confidence_score" ce
    (fun m => exists text,
                m = ("Invalid confidence_score: " ++ text)%string) ->
  one_complaint d "urgent_actions" ae
    (fun m => m = "urgent_actions must be a list") ->
  exists complaint,
    filter (about f) (missing_errors d ++ le ++ he ++ se ++ ce ++ ae)
    = (if dict_mem f d then [] else [missing_message f]) ++ complaint
    /\ (complaint = []
        \/ dict_mem f d = true
           /\ exists m, complaint = [m] /\ m <> missing_message f).
Proof.
  intros Hf HL HH HS HC HA.
  rewrite !filter_app, (filter_about_missing d f Hf).
  assert (forall (g : string) (errs : list string) (shape : string -> Prop),
             one_complaint d g errs shape ->
             (forall m, shape m -> about f m = String.eqb f g) ->
             (forall m, shape m -> m <> missing_message g) ->
             filter (about f) errs = (if String.eqb f g then errs else [])
             /\ (errs = []
                 \/ dict_mem g d = true
                    /\ exists m, errs = [m] /\ m <> missing_message g))
    as Hone.
  { intros g errs shape [->|[Hm [m [-> Hs]]]] Ha Hn.
    - split; [destruct (String.eqb f g); reflexivity | left; reflexivity].
    - split.
      + cbn [filter]. rewrite (Ha m Hs). destruct (String.eqb f g);
          reflexivity.
      + right. split; [exact Hm|]. exists m; split; [reflexivity|auto]. }
  destruct (Hone _ _ _ HL) as [-> FL].
  { intros m [text ->]. apply about_invalid_level; exact Hf. }
  { intros m [text ->]. discriminate. }
  destruct (Hone _ _ _ HH) as [-> FH].
  { intros m ->. unfold required_fields in Hf. cbn [In] in Hf.
    destruct Hf as [<-|[<-|[<-|[<-|[<-|[<-|[]]]]]]]; reflexivity. }
  { intros m ->. discriminate. }
  destruct (Hone _ _ _ HS) as [-> FS].
  { intros m ->. unfold required_fields in Hf. cbn [In] in Hf.
    destruct Hf as [<-|[<-|[<-|[<-|[<-|[<-|[]]]]]]]; reflexivity. }
  { intros m ->. discriminate. }
  destruct (Hone _ _ _ HC) as [-> FC].
  { intros m [text ->]. apply about_invalid_confidence; exact Hf. }
  { intros m [text ->]. discriminate. }
  destruct (Hone _ _ _ HA) as [-> FA].
  { intros m ->. unfold required_fields in Hf. cbn [In] in Hf.
    destruct Hf as [<-|[<-|[<-|[<-|[<-|[<-|[]]]]]]]; reflexivity. }
  { intros m ->. discriminate. }
  clear Hone HL HH HS HC HA.
  unfold required_fields in Hf. cbn [In] in Hf.
  destruct Hf as [<-|[<-|[<-|[<-|[<-|[<-|[]]]]]]];
    cbn [String.eqb Ascii.eqb Bool.eqb app];
    [exists le | exists he | exists se | exists ae | exists []
     | exists ce];
    (split; [rewrite ?app_nil_r; reflexivity|]);
    solve [ left; reflexivity | assumption ].
Qed.

(** X5.  [validate] records at most one error per required field, hence
    at most six; every error is about a required field; and a field that
    is missing is reported as missing and nothing else, its default never
    being reported as invalid, while a field that is present is never
    reported as missing. *)
Theorem at_most_six_errors (py : interpreter) (d r : dict) :
  validate py (VDict d) = Ok (VDict r) ->
  exists errors,
    dict_get "validation" r
    = Some (VDict [("errors", VList (map VStr errors));
                   ("is_valid", VBool (Nat.eqb (List.length errors) 0))])
    /\ (List.length errors <= 6)%nat
    /\ (forall m, In m errors ->
                  exists field,
                    In field required_fields /\ about field m = true)
    /\ (forall field,
           In field required_fields ->
           (List.length (filter (about field) errors) <= 1)%nat
           /\ (dict_mem field d = false ->
               filter (about field) errors = [missing_message field])
           /\ (dict_mem field d = true ->
               ~ In (missing_message field) errors)).
Proof.
  intro Hv.
  pose proof (validate_ok_normalises py d r Hv) as Hr.
  destruct (nf_validation _ _ _ Hr) as [errors [He Hget]].
  exists errors. split; [exact Hget|].
  unfold expected_errors in He.
  destruct (level_errors py d) as [le|] eqn:El; [|discriminate].
  destruct (confidence_errors py d) as [ce|] eqn:Ec; [|discriminate].
  cbn [bind] in He. injection He as <-.
  pose proof (level_errors_shape py d le El) as HL.
  pose proof (confidence_errors_shape py d ce Ec) as HC.
  pose proof (hazards_errors_shape d) as HH.
  pose proof (summary_errors_shape d) as HS.
  pose proof (actions_errors_shape d) as HA.
  assert (forall field,
             In field required_fields ->
             (List.length
                (filter (about field)
                   (missing_errors d ++ le ++ hazards_errors d
                    ++ summary_errors d ++ ce ++ actions_errors d)) <= 1)%nat
             /\ (dict_mem field d = false ->
                 filter (about field)
                   (missing_errors d ++ le ++ hazards_errors d
                    ++ summary_errors d ++ ce ++ actions_errors d)
                 = [missing_message field])
             /\ (dict_mem field d = true ->
                 ~ In (missing_message field)
                     (missing_errors d ++ le ++ hazards_errors d
                      ++ summary_errors d ++ ce ++ actions_errors d)))
    as Hfield.
  { intros f Hf.
    destruct (filter_about_errors d f le (hazards_errors d)
                (summary_errors d) ce (actions_errors d) Hf HL HH HS HC HA)
      as [complaint [Hfil Hcomp]].
    split; [|split].
    - rewrite Hfil.
      destruct Hcomp as [->|[Hm [m [-> _]]]];
        [destruct (dict_mem f d) | rewrite Hm]; cbn; lia.
    - intro Hm. rewrite Hfil, Hm.
      destruct Hcomp as [->|[Hm' _]]; [reflexivity | congruence].
    - intros Hm Hin.
      assert (In (missing_message f)
                (filter (about f)
                   (missing_errors d ++ le ++ hazards_errors d
                    ++ summary_errors d ++ ce ++ actions_errors d)))
        as Hin' by (apply filter_In; split; [exact Hin | apply about_missing]).
      rewrite Hfil, Hm in Hin'. cbn [app] in Hin'.
      destruct Hcomp as [->|[_ [m [-> Hne]]]]; [contradiction|].
      destruct Hin' as [E|[]]. congruence. }
  split; [|split; [|exact Hfield]].
  - rewrite missing_errors_eq. unfold required_fields. cbn [flat_map].
    rewrite !length_app.
    assert (forall g errs shape,
               one_complaint d g errs shape ->
               (List.length (if dict_mem g d then [] else [missing_message g])
                + List.length errs <= 1)%nat) as Hone.
    { intros g errs shape [->|[Hm [m [-> _]]]];
        [destruct (dict_mem g d) | rewrite Hm]; cbn; lia. }
    pose proof (Hone _ _ _ HL). pose proof (Hone _ _ _ HH).
    pose proof (Hone _ _ _ HS). pose proof (Hone _ _ _ HC).
    pose proof (Hone _ _ _ HA).
    assert (List.length (if dict_mem "summary" d then []
                         else [missing_message "summary"]) <= 1)%nat
      by (destruct (dict_mem "summary" d); cbn; lia).
    cbn [List.length]. lia.
  - intros m Hm.
    repeat (apply in_app_or in Hm; destruct Hm as [Hm|Hm]).
    + unfold missing_errors in Hm. apply in_map_iff in Hm as [f [<- Hf]].
      apply filter_In in Hf as [Hf _].
      exists f. split; [exact Hf | apply about_missing].
    + destruct HL as [->|[_ [m0 [-> [text ->]]]]]; [contradiction|].
      destruct Hm as [<-|[]]. exists "overall_risk_level".
      split; [cbn; tauto | reflexivity].
    + destruct HH as [E|[_ [m0 [E ->]]]]; rewrite E in Hm; [contradiction|].
      destruct Hm as [<-|[]]. exists "hazards_by_category".
      split; [cbn; tauto | reflexivity].
    + destruct HS as [E|[_ [m0 [E ->]]]]; rewrite E in Hm; [contradiction|].
      destruct Hm as [<-|[]]. exists "risk_summary".
      split; [cbn; tauto | reflexivity].
    + destruct HC as [->|[_ [m0 [-> [text ->]]]]]; [contradiction|].
      destruct Hm as [<-|[]]. exists "confidence_score".
      split; [cbn; tauto | reflexivity].
    + destruct HA as [E|[_ [m0 [E ->]]]]; rewrite E in Hm; [contradiction|].
      destruct Hm as [<-|[]]. exists "urgent_actions".
      split; [cbn; tauto | reflexivity].
Qed.

(** On the sample: [urgent_actions] and [summary] are missing and
    reported as such, the level is present and reported as invalid, and
    nothing else is reported. *)
Lemma at_most_six_errors_witness :
  validate cpython (VDict sample_input) = Ok (VDict sample_output)
  /\ dict_get "validation" sample_output
     = Some (validation_record
               ["Missing required field: urgent_actions";
                "Missing required field: summary";
                "Invalid overall_risk_level: severe"])
  /\ exists errors,
      dict_get "validation" sample_output
      = Some (VDict [("errors", VList (map VStr errors));
                     ("is_valid", VBool (Nat.eqb (List.length errors) 0))])
      /\ (List.length errors <= 6)%nat
      /\ (forall m, In m errors ->
                    exists field,
                      In field required_fields /\ about field m = true)
      /\ (forall field,
             In field required_fields ->
             (List.length (filter (about field) errors) <= 1)%nat
             /\ (dict_mem field sample_input = false ->
                 filter (about field) errors = [missing_message field])
             /\ (dict_mem field sample_input = true ->
                 ~ In (missing_message field) errors)).
Proof.
  split; [reflexivity|]. split; [reflexivity|].
  exact (at_most_six_errors cpython sample_input sample_output
           eq_refl).
Defined.

(** ** Fields are validated one by one *)

(** X7.  Every field of the report other than [validation] depends only
    on the input's field of the same name: two inputs that agree on a key
    give reports that agree on it.  In particular [risk_summary] is never
    recomputed from the hazard lists. *)
Theorem fields_validated_independently (py : interpreter) (d d' r r' : dict) (k : string) :
  validate py (VDict d) = Ok (VDict r) ->
  validate py (VDict d') = Ok (VDict r') ->
  k <> "validation" -> dict_get k d = dict_get k d' ->
  dict_get k r = dict_get k r'.
Proof.
  intros Hv Hv' Hk E.
  pose proof (validate_ok_normalises py d r Hv) as Hr.
  pose proof (validate_ok_normalises py d' r' Hv') as Hr'.
  destruct (existsb (String.eqb k) report_fields) eqn:Hin.
  - apply existsb_eqb_In in Hin. cbn [In report_fields] in Hin.
    destruct Hin as [<-|[<-|[<-|[<-|[<-|[<-|[<-|[]]]]]]]].
    + rewrite (nf_level _ _ _ Hr), (nf_level _ _ _ Hr').
      unfold level_out. rewrite E. reflexivity.
    + rewrite (nf_hazards _ _ _ Hr), (nf_hazards _ _ _ Hr').
      unfold hazards_out. rewrite E. reflexivity.
    + rewrite (nf_summary _ _ _ Hr), (nf_summary _ _ _ Hr').
      unfold summary_out. rewrite E. reflexivity.
    + rewrite (nf_actions _ _ _ Hr), (nf_actions _ _ _ Hr').
      unfold actions_out. rewrite E. reflexivity.
    + rewrite (nf_text _ _ _ Hr), (nf_text _ _ _ Hr').
      unfold text_out, dict_get_or. rewrite E. reflexivity.
    + rewrite (nf_confidence _ _ _ Hr), (nf_confidence _ _ _ Hr').
      unfold confidence_out. rewrite E. reflexivity.
    + contradiction Hk; reflexivity.
  - rewrite (nf_other _ _ _ Hr k Hin), (nf_other _ _ _ Hr' k Hin).
    exact E.
Qed.

Lemma fields_validated_independently_witness :
  validate cpython (VDict stray_input) = Ok (VDict stray_output)
  /\ validate cpython (VDict hazards_list_input)
     = Ok (VDict hazards_list_output)
  /\ "confidence_score" <> "validation"
  /\ dict_get "confidence_score" stray_input
     = dict_get "confidence_score" hazards_list_input
  /\ dict_get "confidence_score" stray_output
     = dict_get "confidence_score" hazards_list_output.
Proof.
  assert ("confidence_score" <> "validation") as Hk by discriminate.
  split; [reflexivity|]. split; [reflexivity|]. split; [exact Hk|].
  split; [reflexivity|].
  exact (fields_validated_independently cpython stray_input
           hazards_list_input stray_output hazards_list_output
           "confidence_score" eq_refl eq_refl Hk eq_refl).
Defined.

(** ** Which confidence scores pass *)

Lemma confidence_ok_int (n : Z) :
  confidence_ok (VInt n) = (0 <=? n) && (n <=? 1).
Proof.
  assert (num_cmp (VFloat float_zero) (VInt n) = Some (0 ?= n)) as E0
    by reflexivity.
  assert (num_cmp (VInt n) (VFloat float_one)
          = Some (CompOpp (4503599627370496 ?= n * 4503599627370496))) as E1
    by reflexivity.
  unfold confidence_ok, py_le. rewrite E0, E1. cbn [isinstance_int_float andb].
  destruct (Z.compare_spec 0 n) as [H0|H0|H0];
    destruct (Z.compare_spec 4503599627370496 (n * 4503599627370496))
      as [H1|H1|H1];
    cbn [CompOpp andb];
    destruct (Z.leb_spec 0 n); destruct (Z.leb_spec n 1);
    cbn [andb]; try reflexivity; exfalso; lia.
Qed.

Lemma confidence_ok_non_finite (f : spec_float) :
  match f with S754_nan | S754_infinity _ => true | _ => false end = true ->
  confidence_ok (VFloat f) = false.
Proof.
  destruct f as [s|s| |s m e]; try discriminate; intros _;
    [destruct s|]; reflexivity.
Qed.

Section Confidence.

Variable py : interpreter.

Lemma py_str_int (n : Z) (text : string) :
  py_str py (VInt n) = Ok text -> text = NilZero.string_of_int (Z.to_int n).
Proof.
  cbn [py_str]. destruct (repr_depth py); cbn [py_repr]; [discriminate|].
  unfold repr_int. destruct (exceeds_digits _ _); [discriminate|].
  intro H; injection H as <-. reflexivity.
Qed.

Lemma py_str_float (f : spec_float) (text : string) :
  py_str py (VFloat f) = Ok text -> text = repr_float py f.
Proof.
  cbn [py_str]. destruct (repr_depth py); cbn [py_repr]; [discriminate|].
  intro H; injection H as <-. reflexivity.
Qed.

(** An invalid confidence is recorded, with its [str]. *)
Lemma confidence_complaint_recorded (d : dict) (v : value)
  (errors : list string) :
  expected_errors py d = Ok errors ->
  dict_get "confidence_score" d = Some v -> confidence_ok v = false ->
  exists text,
    py_str py v = Ok text
    /\ In ("Invalid confidence_score: " ++ text)%string errors.
Proof.
  unfold expected_errors. intros He Hc Hok.
  destruct (level_errors py d) as [le|]; [|discriminate].
  unfold confidence_errors in He. rewrite Hc, Hok in He.
  destruct (py_str py v) as [text|]; [|discriminate].
  cbn [bind] in He. injection He as <-.
  exists text. split; [reflexivity|].
  rewrite !in_app_iff. do 4 right. left; reflexivity.
Qed.

(** A message that starts with "Invalid confidence_score" comes from an
    invalid confidence. *)
Lemma confidence_complaint_origin (d : dict) (v : value)
  (errors : list string) (m : string) :
  expected_errors py d = Ok errors ->
  dict_get "confidence_score" d = Some v ->
  String.prefix "Invalid confidence_score" m = true -> In m errors ->
  confidence_ok v = false
  /\ exists text,
      py_str py v = Ok text
      /\ m = ("Invalid confidence_score: " ++ text)%string.
Proof.
  unfold expected_errors. intros He Hc Hm Hin.
  destruct (level_errors py d) as [le|] eqn:El; [|discriminate].
  destruct (confidence_errors py d) as [ce|] eqn:Ec; [|discriminate].
  cbn [bind] in He. injection He as <-.
  assert (In m ce) as Hce.
  { destruct (in_dec string_dec m ce) as [Hy|Hn]; [exact Hy|]. exfalso.
    rewrite (no_confidence_complaint_elsewhere py d le m El) in Hm;
      [discriminate|].
    rewrite !in_app_iff in *. tauto. }
  unfold confidence_errors in Ec. rewrite Hc in Ec.
  destruct (confidence_ok v); [injection Ec as <-; contradiction|].
  destruct (py_str py v) as [text|]; [|discriminate].
  cbn [bind] in Ec. injection Ec as <-.
  destruct Hce as [<-|[]]. split; [reflexivity|].
  exists text; split; reflexivity.
Qed.

(** X8.  An integer [confidence_score] is kept only when it is 0 or 1:
    any other integer (a percentage such as 85 included) is reset to 0.0
    and recorded as "Invalid confidence_score: <n>".  A float that is NaN
    or infinite is reset and recorded in the same way. *)
Theorem confidence_integers_and_non_finite (d r : dict) :
  validate py (VDict d) = Ok (VDict r) ->
  exists errors,
    dict_get "validation" r
    = Some (VDict [("errors", VList (map VStr errors));
                   ("is_valid", VBool (Nat.eqb (List.length errors) 0))])
    /\ (forall n,
           dict_get "confidence_score" d = Some (VInt n) ->
           dict_get "confidence_score" r
           = Some (if (n =? 0) || (n =? 1) then VInt n else VFloat float_zero)
           /\ (In ("Invalid confidence_score: "
                   ++ NilZero.string_of_int (Z.to_int n))%string errors
               <-> n <> 0 /\ n <> 1))
    /\ (forall f,
           dict_get "confidence_score" d = Some (VFloat f) ->
           match f with S754_nan | S754_infinity _ => true | _ => false end
           = true ->
           dict_get "confidence_score" r = Some (VFloat float_zero)
           /\ In ("Invalid confidence_score: " ++ repr_float py f)%string errors).
Proof.
  intro Hv.
  pose proof (validate_ok_normalises py d r Hv) as Hr.
  destruct (nf_validation _ _ _ Hr) as [errors [He Hget]].
  exists errors.
  split; [exact Hget|]. split.
  - intros n Hc. split.
    + rewrite (nf_confidence _ _ _ Hr). unfold confidence_out.
      rewrite Hc, confidence_ok_int.
      destruct (Z.leb_spec 0 n), (Z.leb_spec n 1), (Z.eqb_spec n 0),
        (Z.eqb_spec n 1); cbn [andb orb]; try reflexivity; exfalso; lia.
    + split.
      * intro Hin.
        destruct (confidence_complaint_origin d (VInt n) errors
                    ("Invalid confidence_score: "
                     ++ NilZero.string_of_int (Z.to_int n))%string
                    He Hc eq_refl Hin) as [H _].
        rewrite confidence_ok_int in H.
        destruct (Z.leb_spec 0 n), (Z.leb_spec n 1); try discriminate; lia.
      * intros [H0 H1].
        assert (confidence_ok (VInt n) = false) as Hok.
        { rewrite confidence_ok_int.
          destruct (Z.leb_spec 0 n), (Z.leb_spec n 1); cbn [andb];
            try reflexivity; exfalso; lia. }
        destruct (confidence_complaint_recorded d (VInt n) errors He Hc Hok)
          as [text [Ht Hin]].
        rewrite (py_str_int n text Ht) in Hin. exact Hin.
  - intros f Hc Hf.
    pose proof (confidence_ok_non_finite f Hf) as Hok. split.
    + rewrite (nf_confidence _ _ _ Hr). unfold confidence_out.
      rewrite Hc, Hok. reflexivity.
    + destruct (confidence_complaint_recorded d (VFloat f) errors He Hc Hok)
        as [text [Ht Hin]].
      rewrite (py_str_float f text Ht) in Hin. exact Hin.
Qed.

End Confidence.

Lemma confidence_integers_and_non_finite_witness :
  exists r,
    validate cpython (VDict [("confidence_score", VInt 85)])
    = Ok (VDict r)
    /\ dict_get "confidence_score" [("confidence_score", VInt 85)]
       = Some (VInt 85)
    /\ dict_get "confidence_score" r = Some (VFloat float_zero).
Proof.
  eexists. split; [reflexivity|]. split; [reflexivity|].
  destruct (confidence_integers_and_non_finite cpython
              [("confidence_score", VInt 85)] _ eq_refl)
    as [errors [_ [Hint _]]].
  exact (proj1 (Hint 85 eq_refl)).
Defined.

(** ** Key order of the report *)

Lemma existsb_filter_false {A : Type} (p q : A -> bool) (l : list A) :
  existsb p l = false -> existsb p (filter q l) = false.
Proof.
  induction l as [|x t IH]; [reflexivity|]. cbn [existsb filter].
  rewrite orb_false_iff. intros [Hx Ht].
  destruct (q x); cbn [existsb]; [rewrite Hx|]; auto.
Qed.

Lemma check_required_keys (fs : list string) (d : dict) (e : list string) :
  distinct fs = true ->
  keys (fst (fold_left check_required_field fs (d, e)))
  = keys d ++ filter (fun f => negb (dict_mem f d)) fs.
Proof.
  revert d e. induction fs as [|f t IH]; intros d e Hfs.
  - cbn. rewrite app_nil_r. reflexivity.
  - cbn [distinct] in Hfs. apply andb_true_iff in Hfs as [Hf Ht].
    apply negb_true_iff in Hf.
    cbn [fold_left filter]. rewrite check_required_field_eq.
    destruct (dict_mem f d) eqn:Hmem; cbn [negb]; [exact (IH d e Ht)|].
    rewrite (IH _ _ Ht), keys_dict_set, Hmem, <- app_assoc. cbn [app].
    do 2 f_equal. apply filter_ext_in. intros g Hg. f_equal.
    unfold dict_mem. rewrite dict_get_set.
    destruct (String.eqb g f) eqn:E; [|reflexivity].
    apply String.eqb_eq in E; subst g.
    apply existsb_eqb_In in Hg. congruence.
Qed.

Section KeyOrder.

Variable py : interpreter.

(** X9.  The keys of the report are the keys of the input in the input's
    order, then the required fields the input lacks in the order of
    [required_fields], then [validation] unless the input already had
    that key (which then keeps its place). *)
Theorem report_key_order (d r : dict) :
  validate py (VDict d) = Ok (VDict r) ->
  keys r
  = keys d
    ++ filter (fun field => negb (dict_mem field d)) required_fields
    ++ (if dict_mem "validation" d then [] else ["validation"]).
Proof.
  intro Hv. cbn [OutputValidator.validate] in Hv.
  destruct (validate_dict py d) as [r0|] eqn:Hd;
    [|discriminate].
  cbn [bind] in Hv. injection Hv as <-.
  unfold validate_dict in Hd.
  pose proof (check_required_keys required_fields d [] eq_refl) as K0.
  destruct (check_required_fold required_fields d [] eq_refl) as [Hget _].
  destruct (fold_left check_required_field required_fields (d, []))
    as [d0 e0].
  cbn [fst] in K0, Hget.
  set (K := keys d ++ filter (fun f => negb (dict_mem f d)) required_fields)
    in *.
  assert (forall k, In k required_fields -> existsb (String.eqb k) K = true)
    as Hreq.
  { intros k Hk. rewrite <- K0, <- dict_mem_keys. unfold dict_mem.
    rewrite Hget. apply existsb_eqb_In in Hk. rewrite Hk.
    destruct (dict_get k d); reflexivity. }
  assert (forall k v a, keys a = K -> In k required_fields ->
                        keys (dict_set k v a) = K) as Hset.
  { intros k v a Ha Hk. rewrite keys_dict_set_present; [exact Ha|].
    rewrite dict_mem_keys, Ha. exact (Hreq k Hk). }
  destruct (check_overall_risk_level py (d0, e0))
    as [[d1 e1]|x] eqn:E1; [|discriminate].
  assert (keys d1 = K) as K1.
  { unfold check_overall_risk_level in E1.
    destruct (negb _) in E1;
      [destruct (py_str _ _) in E1; [|discriminate]; cbn [bind] in E1|];
      injection E1 as <- _;
      [apply Hset; [exact K0 | cbn; tauto] | exact K0]. }
  cbn [bind] in Hd.
  destruct (check_hazards_by_category (d1, e1)) as [[d2 e2]|x] eqn:E2;
    [|discriminate].
  assert (keys d2 = K) as K2.
  { unfold check_hazards_by_category in E2.
    destruct (dict_get_or "hazards_by_category" VNone d1);
      try (injection E2 as <- _; apply Hset; [exact K1 | cbn; tauto]).
    destruct (_validate_hazard_categories d3); [|discriminate].
    cbn [bind] in E2. injection E2 as <- _.
    apply Hset; [exact K1 | cbn; tauto]. }
  cbn [bind] in Hd.
  destruct (check_risk_summary (d2, e2)) as [d3 e3] eqn:E3.
  assert (keys d3 = K) as K3.
  { unfold check_risk_summary in E3.
    destruct (dict_get_or "risk_summary" VNone d2);
      injection E3 as <- _; (apply Hset; [exact K2 | cbn; tauto]). }
  destruct (check_confidence_score py (d3, e3))
    as [[d4 e4]|x] eqn:E4; [|discriminate].
  assert (keys d4 = K) as K4.
  { unfold check_confidence_score in E4.
    destruct (_ || _) in E4;
      [destruct (py_str _ _) in E4; [|discriminate]; cbn [bind] in E4|];
      injection E4 as <- _;
      [apply Hset; [exact K3 | cbn; tauto] | exact K3]. }
  cbn [bind] in Hd.
  destruct (check_urgent_actions (d4, e4)) as [d5 e5] eqn:E5.
  assert (keys d5 = K) as K5.
  { unfold check_urgent_actions in E5.
    destruct (negb _) in E5; injection E5 as <- _;
      [apply Hset; [exact K4 | cbn; tauto] | exact K4]. }
  injection Hd as <-. rewrite keys_dict_set, dict_mem_keys, K5. subst K.
  rewrite existsb_app, <- dict_mem_keys.
  rewrite (existsb_filter_false (String.eqb "validation")
             (fun f => negb (dict_mem f d)) required_fields eq_refl),
    orb_false_r.
  destruct (dict_mem "validation" d);
    [rewrite app_nil_r | rewrite <- app_assoc]; reflexivity.
Qed.

End KeyOrder.

Lemma report_key_order_witness :
  validate cpython (VDict sample_input) = Ok (VDict sample_output)
  /\ keys sample_output
     = ["overall_risk_level"; "hazards_by_category"; "risk_summary";
        "confidence_score"; "raw_response"; "urgent_actions"; "summary";
        "validation"].
Proof.
  split; [reflexivity|].
  exact (report_key_order cpython sample_input sample_output
           eq_refl).
Defined.

(** ** Validating a report again *)

Lemma coerce_risk_stable (allowed : list value) (k : string) (e : dict) :
  (if py_in (coerce_risk allowed k e) allowed
   then coerce_risk allowed k e else VStr "unknown")
  = coerce_risk allowed k e.
Proof.
  unfold coerce_risk, dict_get_or. destruct (dict_get k e) as [v|].
  - destruct (py_in v allowed) eqn:E; [rewrite E; reflexivity|].
    destruct (py_in (VStr "unknown") allowed); reflexivity.
  - destruct (py_in VNone allowed);
      destruct (py_in (VStr "unknown") allowed); reflexivity.
Qed.

Lemma coerce_risk_get (allowed : list value) (k : string) (e : dict)
  (x : value) :
  dict_get k e = Some x ->
  coerce_risk allowed k e = if py_in x allowed then x else VStr "unknown".
Proof. unfold coerce_risk, dict_get_or. intros ->. reflexivity. Qed.

Lemma dict_get_map_shape {A : Type} (F : string * A -> value)
  (l : list (string * A)) (k : string) (a : A) :
  distinct (map fst l) = true -> In (k, a) l ->
  dict_get k (map (fun kk => (fst kk, F kk)) l) = Some (F (k, a)).
Proof.
  induction l as [|[k0 a0] t IH]; [contradiction|].
  cbn [map fst distinct dict_get In].
  rewrite andb_true_iff, negb_true_iff. intros [Hk Ht] [H|H].
  - injection H as -> ->. rewrite String.eqb_refl. reflexivity.
  - destruct (String.eqb k k0) eqn:E; [|auto].
    apply String.eqb_eq in E; subst k0.
    assert (In k (map fst t)) as Hin by (apply (in_map fst _ _ H)).
    apply existsb_eqb_In in Hin. congruence.
Qed.

Lemma entry_shape_distinct (c : string) :
  distinct (map fst (entry_shape c)) = true.
Proof.
  unfold entry_shape.
  destruct (String.eqb c "flying_objects"); [reflexivity|].
  destruct (String.eqb c "structural_damage"); [reflexivity|].
  destruct (String.eqb c "elevated_objects"); [reflexivity|].
  destruct (String.eqb c "tree_hazards"); reflexivity.
Qed.

(** Rebuilding a rebuilt entry changes nothing. *)
Lemma normal_entry_idempotent (c : string) (e : dict) :
  normal_entry c (normal_entry c e) = normal_entry c e.
Proof.
  unfold normal_entry. apply map_ext_in. intros [k kind] Hin.
  cbn [fst snd]. f_equal.
  pose proof (dict_get_map_shape
                (fun kk =>
                   match snd kk with
                   | Text =>
                       dict_get_or (fst kk)
                         (VStr (placeholder c (fst kk))) e
                   | Level => coerce_risk valid_risk_levels (fst kk) e
                   | Movement => coerce_risk movement_levels (fst kk) e
                   end)
                (entry_shape c) k kind (entry_shape_distinct c) Hin) as G.
  cbn [fst snd] in G.
  destruct kind.
  - unfold dict_get_or at 1. rewrite G. reflexivity.
  - rewrite (coerce_risk_get _ _ _ _ G). apply coerce_risk_stable.
  - rewrite (coerce_risk_get _ _ _ _ G). apply coerce_risk_stable.
Qed.

Lemma normal_hazards_idempotent (h : dict) :
  normal_hazards (normal_hazards h) = normal_hazards h.
Proof.
  unfold normal_hazards at 1 3. apply map_ext_in. intros c Hc. do 2 f_equal.
  unfold category_items at 1. unfold dict_get_or.
  rewrite (normal_hazards_get h c Hc), map_map.
  apply map_ext. intros [| | | | | |e]; try reflexivity.
  cbn [normal_entry_value]. rewrite normal_entry_idempotent. reflexivity.
Qed.

Lemma clamp_count_idempotent (v : value) :
  clamp_count (clamp_count v) = clamp_count v.
Proof.
  unfold clamp_count.
  destruct (isinstance_int v && py_le (VInt 0) v) eqn:E;
    [rewrite E|]; reflexivity.
Qed.

Lemma _validate_risk_summary_idempotent (s : dict) :
  _validate_risk_summary (_validate_risk_summary s) = _validate_risk_summary s.
Proof.
  rewrite !_validate_risk_summary_eq. unfold count_keys.
  cbn [map dict_get_or dict_get String.eqb Ascii.eqb Bool.eqb].
  rewrite !clamp_count_idempotent. reflexivity.
Qed.

Section SecondPass.

Variable py : interpreter.

Local Abbreviation validate := (validate py).

(** X6.  Validating a report that [validate] returned never raises and
    always declares it valid: the second validation record has no error
    and [is_valid] true, whatever the first pass had recorded.  The keys
    keep their order and every field other than [validation] is returned
    as it was, except that a [hazards_by_category] which the first pass
    had replaced by the empty mapping (because the input's was not a
    mapping) is now expanded to the four empty categories. *)
Theorem validate_again (d r : dict) :
  validate (VDict d) = Ok (VDict r) ->
  exists r2,
    validate (VDict r) = Ok (VDict r2)
    /\ dict_get "validation" r2
       = Some (VDict [("errors", VList []); ("is_valid", VBool true)])
    /\ keys r2 = keys r
    /\ (forall k, k <> "validation" -> k <> "hazards_by_category" ->
                  dict_get k r2 = dict_get k r)
    /\ (hazards_absent_or_dict d = true ->
        dict_get "hazards_by_category" r2 = dict_get "hazards_by_category" r)
    /\ (hazards_absent_or_dict d = false ->
        dict_get "hazards_by_category" r = Some (VDict [])
        /\ dict_get "hazards_by_category" r2
           = Some (VDict [("flying_objects", VList []);
                          ("structural_damage", VList []);
                          ("elevated_objects", VList []);
                          ("tree_hazards", VList [])])).
Proof.
  intro Hv.
  pose proof (validate_ok_normalises py d r Hv) as Hr.
  pose proof (validate_ok_entries_are_dicts py d r Hv) as He.
  destruct Hr as [L1 L2 L3 L4 L5 L6 [errors [_ L7]] Lo].
  assert (entries_are_dicts r = true) as He2.
  { unfold entries_are_dicts. rewrite L2. unfold hazards_out.
    unfold entries_are_dicts in He.
    destruct (dict_get "hazards_by_category" d) as [[| | | | | |h]|];
      try reflexivity.
    pose proof (hazards_ok_normal h He) as Hn.
    exact (hazards_ok_visited _ _ Hn). }
  assert (raised py r = None) as Hn2.
  { apply raised_none. split; [exact He2|].
    unfold messages_format, formatted_values.
    rewrite L1, L6, level_out_in, confidence_ok_confidence_out.
    reflexivity. }
  pose proof (validate_eq py r) as H2. rewrite Hn2 in H2.
  destruct H2 as [r2 [Hv2 [M1 M2 M3 M4 M5 M6 [errors2 [Me M7]] Mo]]].
  exists r2. split; [exact Hv2|].
  assert (level_out r = level_out d) as E1.
  { unfold level_out at 1. rewrite L1, level_out_in. reflexivity. }
  assert (summary_out r = summary_out d) as E3.
  { unfold summary_out at 1. rewrite L3. unfold summary_out.
    destruct (dict_get "risk_summary" d) as [[]|]; try reflexivity.
    rewrite _validate_risk_summary_idempotent. reflexivity. }
  assert (actions_out r = actions_out d) as E4.
  { unfold actions_out at 1. rewrite L4. unfold actions_out.
    destruct (dict_get "urgent_actions" d) as [[]|]; reflexivity. }
  assert (text_out r = text_out d) as E5.
  { unfold text_out at 1. unfold dict_get_or. rewrite L5. reflexivity. }
  assert (confidence_out r = confidence_out d) as E6.
  { unfold confidence_out at 1.
    rewrite L6, confidence_ok_confidence_out. reflexivity. }
  assert (expected_errors py r = Ok []) as Eerr.
  { unfold expected_errors, missing_errors, level_errors, hazards_errors,
      summary_errors, confidence_errors, actions_errors, required_fields,
      dict_mem.
    cbn [filter].
    rewrite L1, L2, L3, L4, L5, L6, level_out_in,
      confidence_ok_confidence_out.
    cbn [negb map app bind].
    unfold hazards_out, summary_out, actions_out.
    destruct (dict_get "hazards_by_category" d) as [[]|];
      destruct (dict_get "risk_summary" d) as [[]|];
      destruct (dict_get "urgent_actions" d) as [[]|]; reflexivity. }
  rewrite Eerr in Me. injection Me as <-.
  split.
  - rewrite M7. reflexivity.
  - split.
    { apply (validate_dict_keys py).
      - unfold report_fields, dict_mem. cbn [forallb].
        rewrite L1, L2, L3, L4, L5, L6, L7. reflexivity.
      - cbn [OutputValidator.validate] in Hv2.
        destruct (validate_dict py r); [|discriminate].
        cbn [bind] in Hv2. injection Hv2 as ->. reflexivity. }
    split.
    { intros k Hk Hh.
      destruct (existsb (String.eqb k) report_fields) eqn:Hin.
      - apply existsb_eqb_In in Hin. cbn [In report_fields] in Hin.
        destruct Hin as [<-|[<-|[<-|[<-|[<-|[<-|[<-|[]]]]]]]];
          try (contradiction Hk; reflexivity);
          try (contradiction Hh; reflexivity).
        + rewrite M1, L1, E1. reflexivity.
        + rewrite M3, L3, E3. reflexivity.
        + rewrite M4, L4, E4. reflexivity.
        + rewrite M5, L5, E5. reflexivity.
        + rewrite M6, L6, E6. reflexivity.
      - exact (Mo k Hin). }
    split.
    { intro Ha. rewrite M2, L2. unfold hazards_out at 1. rewrite L2.
      unfold hazards_absent_or_dict in Ha. unfold hazards_out.
      destruct (dict_get "hazards_by_category" d) as [[]|];
        try discriminate; rewrite normal_hazards_idempotent; reflexivity. }
    { intro Ha. rewrite M2. unfold hazards_out at 1. rewrite L2.
      unfold hazards_absent_or_dict in Ha. unfold hazards_out.
      destruct (dict_get "hazards_by_category" d) as [[]|];
        try discriminate; split; reflexivity. }
Qed.

End SecondPass.

Lemma validate_again_witness :
  validate cpython (VDict hazards_list_input)
  = Ok (VDict hazards_list_output)
  /\ hazards_absent_or_dict hazards_list_input = false
  /\ exists r2,
      validate cpython (VDict hazards_list_output) = Ok (VDict r2)
      /\ dict_get "validation" r2
         = Some (VDict [("errors", VList []); ("is_valid", VBool true)])
      /\ keys r2 = keys hazards_list_output
      /\ dict_get "hazards_by_category" r2
         = Some (VDict [("flying_objects", VList []);
                        ("structural_damage", VList []);
                        ("elevated_objects", VList []);
                        ("tree_hazards", VList [])]).
Proof.
  split; [reflexivity|]. split; [reflexivity|].
  destruct (validate_again cpython hazards_list_input
              hazards_list_output eq_refl)
    as [r2 [Hv [Hval [Hk [_ [_ Hh]]]]]].
  exists r2. split; [exact Hv|]. split; [exact Hval|]. split; [exact Hk|].
  exact (proj2 (Hh eq_refl)).
Defined.

(** ** The extractor on text around an object *)

Lemma string_length_app (a b : string) :
  String.length (a ++ b) = (String.length a + String.length b)%nat.
Proof. induction a as [|c t IH]; cbn; [reflexivity | rewrite IH; reflexivity]. Qed.

Lemma contains_app (c : ascii) (a b : string) :
  contains c (a ++ b) = contains c a || contains c b.
Proof.
  induction a as [|x t IH]; [reflexivity|]. cbn [append contains].
  rewrite IH, orb_assoc. reflexivity.
Qed.

Lemma find_from_app (c : ascii) (pre s : string) (i : Z) :
  contains c pre = false ->
  find_from c (pre ++ s) i = find_from c s (i + Z.of_nat (String.length pre)).
Proof.
  revert i. induction pre as [|a t IH]; intros i H.
  - cbn. rewrite Z.add_0_r. reflexivity.
  - cbn [contains] in H. apply orb_false_iff in H as [Ha Ht].
    cbn [append find_from String.length]. rewrite Ha, (IH _ Ht).
    f_equal. lia.
Qed.

Lemma rfind_from_app (c : ascii) (s1 s2 : string) (i last : Z) :
  rfind_from c (s1 ++ s2) i last
  = rfind_from c s2 (i + Z.of_nat (String.length s1)) (rfind_from c s1 i last).
Proof.
  revert i last. induction s1 as [|a t IH]; intros i last.
  - cbn. rewrite Z.add_0_r. reflexivity.
  - cbn [append rfind_from String.length]. rewrite IH. f_equal. lia.
Qed.

Lemma rfind_from_absent (c : ascii) (s : string) (i last : Z) :
  contains c s = false -> rfind_from c s i last = last.
Proof.
  revert i last. induction s as [|a t IH]; intros i last H; [reflexivity|].
  cbn [contains] in H. apply orb_false_iff in H as [Ha Ht].
  cbn [rfind_from]. rewrite Ha. exact (IH _ _ Ht).
Qed.

Lemma substring_skip (pre s : string) (n : nat) :
  substring (String.length pre) n (pre ++ s) = substring 0 n s.
Proof. induction pre as [|a t IH]; [reflexivity | exact IH]. Qed.

Lemma substring_prefix (b suf : string) :
  substring 0 (String.length b) (b ++ suf) = b.
Proof.
  induction b as [|a t IH]; cbn [String.length append substring].
  - destruct suf; reflexivity.
  - rewrite IH. reflexivity.
Qed.

Lemma py_slice_middle (pre body suf : string) :
  py_slice (pre ++ body ++ suf) (Z.of_nat (String.length pre))
    (Z.of_nat (String.length pre) + Z.of_nat (String.length body))
  = body.
Proof.
  unfold py_slice. rewrite !string_length_app.
  pose proof (Nat2Z.is_nonneg (String.length pre)) as Hp.
  pose proof (Nat2Z.is_nonneg (String.length body)) as Hb.
  pose proof (Nat2Z.is_nonneg (String.length suf)) as Hs.
  rewrite !Nat2Z.inj_add.
  destruct (Z.of_nat (String.length pre) <? 0) eqn:E1; [lia|].
  destruct (Z.of_nat (String.length pre) + Z.of_nat (String.length body) <? 0)
    eqn:E2; [lia|].
  rewrite !Z.min_l by lia.
  destruct (Z.of_nat (String.length pre)
            <? Z.of_nat (String.length pre) + Z.of_nat (String.length body))
    eqn:E3.
  - rewrite Nat2Z.id.
    replace (Z.to_nat (Z.of_nat (String.length pre)
                       + Z.of_nat (String.length body)
                       - Z.of_nat (String.length pre)))
      with (String.length body) by lia.
    rewrite substring_skip. apply substring_prefix.
  - destruct body; [reflexivity|]. cbn [String.length] in E3.
    rewrite Nat2Z.inj_succ in E3. exfalso.
    pose proof (Nat2Z.is_nonneg (String.length body)).
    apply Z.ltb_ge in E3. clear - E3 H. lia.
Qed.

(** The substring from the first [{] to the last [}] of a text made of
    brace-free prose, an object, and more prose is the object. *)
Lemma spanned_surrounded (pre m suf : string) :
  contains "{" pre = false -> contains "}" suf = false ->
  spanned (pre ++ String "{" (m ++ "}") ++ suf) = String "{" (m ++ "}").
Proof.
  intros Hpre Hsuf. unfold spanned, py_find, py_rfind.
  rewrite (find_from_app _ _ _ _ Hpre), rfind_from_app.
  rewrite (rfind_from_app _ (String "{" (m ++ "}")) suf).
  rewrite (rfind_from_absent _ suf _ _ Hsuf).
  change (String "{" (m ++ "}"))%string with ((String "{" m) ++ "}")%string
    at 3.
  rewrite rfind_from_app.
  cbn [append find_from rfind_from Ascii.eqb Bool.eqb].
  assert (String.length (String "{" (m ++ "}")) = S (S (String.length m)))
    as Hb by (cbn [String.length]; rewrite string_length_app; cbn; lia).
  change (String "{" ((m ++ "}") ++ suf))%string
    with ((String "{" (m ++ "}")) ++ suf)%string.
  etransitivity; [|apply (py_slice_middle pre (String "{" (m ++ "}")) suf)].
  f_equal; rewrite ?Hb; cbn [String.length]; lia.
Qed.

Section Pipeline.

Variable json_loads : string -> result value.

Local Abbreviation _parse_response :=
  (TyphoonSafetyAnalyzer._parse_response json_loads).

(** X10.  Prose before the first opening brace and after the last closing
    brace plays no part: on a text made of prose without [{], an object
    text from [{] to [}], and prose without [}], [_parse_response] hands
    exactly the object text to the decoder.  It returns what the decoder
    returns, the "Failed to parse response" fallback when the decoder
    raises [JSONDecodeError], and raises what the decoder raises
    otherwise. *)
Theorem prose_around_object_ignored (pre m suf : string) :
  contains "{" pre = false -> contains "}" suf = false ->
  _parse_response (pre ++ String "{" (m ++ "}") ++ suf)
  = match json_loads (String "{" (m ++ "}")) with
    | Ok parsed => Ok parsed
    | Raise JSONDecodeError =>
        Ok (fallback "Failed to parse response"
              (pre ++ String "{" (m ++ "}") ++ suf))
    | Raise e => Raise e
    end.
Proof.
  intros Hpre Hsuf.
  rewrite _parse_response_eq, (spanned_surrounded pre m suf Hpre Hsuf).
  assert (contains "{" (pre ++ String "{" (m ++ "}") ++ suf) = true) as ->;
    [|reflexivity].
  rewrite contains_app. cbn [append contains Ascii.eqb Bool.eqb].
  apply orb_true_r.
Qed.

End Pipeline.

(** An empty object in a sentence is decoded; an object of arrays nested
    deeper than the scanner enters makes [_parse_response] raise; a braced
    text that is not JSON gives the fallback. *)
Lemma prose_around_object_ignored_witness :
  contains "{" "Here is the result: " = false
  /\ contains "}" " Stay safe." = false
  /\ TyphoonSafetyAnalyzer._parse_response (Json.loads cpython)
       ("Here is the result: " ++ String "{" (" " ++ "}") ++ " Stay safe.")
     = Ok (VDict [])
  /\ TyphoonSafetyAnalyzer._parse_response (Json.loads cpython)
       ("Result: "
        ++ String "{"
             ((dq "'a':" ++ copies 1000 "[" ++ copies 1000 "]") ++ "}")
        ++ " Done.")
     = Raise RecursionError
  /\ TyphoonSafetyAnalyzer._parse_response (Json.loads cpython)
       ("See " ++ String "{" ("oops" ++ "}") ++ ".")
     = Ok (fallback "Failed to parse response" "See {oops}.").
Proof.
  split; [reflexivity|]. split; [reflexivity|].
  split;
    [exact (prose_around_object_ignored (Json.loads cpython)
              "Here is the result: " " " " Stay safe." eq_refl eq_refl)|].
  split.
  - rewrite (prose_around_object_ignored (Json.loads cpython) "Result: "
               (dq "'a':" ++ copies 1000 "[" ++ copies 1000 "]") " Done."
               eq_refl eq_refl).
    vm_compute. reflexivity.
  - exact (prose_around_object_ignored (Json.loads cpython)
             "See " "oops" "." eq_refl eq_refl).
Defined.

(** ** Extraction followed by validation *)

Lemma substring_at_find (c : ascii) (s : string) (i : Z) (n : nat) :
  contains c s = true -> 0 <= i ->
  exists t, substring (Z.to_nat (find_from c s i - i)) (S n) s = String c t.
Proof.
  revert i. induction s as [|x t0 IH]; intros i Hc Hi; [discriminate|].
  cbn [contains] in Hc. cbn [find_from].
  destruct (Ascii.eqb x c) eqn:E.
  - apply Ascii.eqb_eq in E; subst x. rewrite Z.sub_diag.
    cbn [Z.to_nat substring]. eexists; reflexivity.
  - cbn [orb] in Hc.
    destruct (find_from_range c t0 (i + 1) ltac:(lia)) as [[Hn _]|[_ Hj]];
      [congruence|].
    replace (Z.to_nat (find_from c t0 (i + 1) - i))
      with (S (Z.to_nat (find_from c t0 (i + 1) - (i + 1)))) by lia.
    cbn [substring]. exact (IH (i + 1) Hc ltac:(lia)).
Qed.

(** The spanned substring is empty or starts at the first [{]. *)
Lemma spanned_shape (text : string) :
  contains "{" text = true ->
  spanned text = EmptyString \/ exists t, spanned text = String "{" t.
Proof.
  intro Hc. unfold spanned, py_slice.
  destruct (find_from_range "{" text 0 ltac:(lia)) as [[Hn _]|[_ Hf]];
    [congruence|]. fold (py_find "{" text) in Hf.
  pose proof (rfind_from_lower "}" text 0 (-1) ltac:(lia) ltac:(lia)) as Hr.
  fold (py_rfind "}" text) in Hr.
  destruct (py_find "{" text <? 0) eqn:E1; [lia|].
  destruct (py_rfind "}" text + 1 <? 0) eqn:E2; [lia|].
  destruct (Z.min (py_find "{" text) (Z.of_nat (String.length text))
            <? Z.min (py_rfind "}" text + 1) (Z.of_nat (String.length text)))
    eqn:E3; [|left; reflexivity].
  right. apply Z.ltb_lt in E3.
  rewrite (Z.min_l (py_find "{" text)) in * by lia.
  destruct (Z.to_nat (Z.min (py_rfind "}" text + 1)
                        (Z.of_nat (String.length text))
                      - py_find "{" text)) as [|n] eqn:En; [lia|].
  replace (py_find "{" text) with (find_from "{" text 0 - 0)
    by (unfold py_find; lia).
  exact (substring_at_find "{" text 0 n Hc ltac:(lia)).
Qed.

Section ParseThenValidate.

Variable py : interpreter.
Variable json_loads : string -> result value.

Local Abbreviation validate := (validate py).
Local Abbreviation _parse_response :=
  (TyphoonSafetyAnalyzer._parse_response json_loads).
Local Abbreviation parse_and_validate :=
  (TyphoonSafetyAnalyzer.parse_and_validate py json_loads).

(** X11.  Whenever extraction falls back (no opening brace, no brace pair
    in order, or a spanned text the decoder rejects), validating the
    fallback gives a report, never an exception: level "unknown",
    confidence 0.0, the fallback's summary, the raw text kept under
    [raw_response], the unused [hazards_detected] carried along, the four
    categories empty, all counts zero, and exactly two recorded errors,
    for the missing [hazards_by_category] and [risk_summary]. *)
Theorem extraction_failure_report (text : string) :
  json_loads EmptyString = Raise JSONDecodeError ->
  no_valid_pair text = true
  \/ json_loads (spanned text) = Raise JSONDecodeError ->
  parse_and_validate text
  = Ok (VDict
          [("overall_risk_level", VStr "unknown");
           ("hazards_detected", VList []);
           ("summary",
            VStr (if contains "{" text then "Failed to parse response"
                  else text));
           ("urgent_actions", VList []);
           ("confidence_score", VFloat float_zero);
           ("raw_response", VStr text);
           ("hazards_by_category",
            VDict [("flying_objects", VList []);
                   ("structural_damage", VList []);
                   ("elevated_objects", VList []);
                   ("tree_hazards", VList [])]);
           ("risk_summary",
            VDict [("critical_count", VInt 0); ("high_count", VInt 0);
                   ("medium_count", VInt 0); ("low_count", VInt 0);
                   ("total_hazards", VInt 0)]);
           ("validation",
            VDict [("errors",
                    VList [VStr "Missing required field: hazards_by_category";
                           VStr "Missing required field: risk_summary"]);
                   ("is_valid", VBool false)])]).
Proof.
  intros Hempty H. unfold TyphoonSafetyAnalyzer.parse_and_validate.
  rewrite (parse_failure json_loads text Hempty H). reflexivity.
Qed.

(** X12.  Let the decoder reject the empty string and decode a text that
    starts with [{] to a mapping only, as a JSON decoder does.  Then for
    every reply text, either the decoder raises on the spanned text an
    exception other than [JSONDecodeError], which leaves both steps; or
    the extractor returns a mapping, and validating it returns a report
    with all its checked fields repaired, or raises [AttributeError],
    [ValueError] or [RecursionError], as [raised] tells of the mapping.
    [validate] is never given anything but a mapping. *)
Theorem parse_then_validate (text : string) :
  json_loads EmptyString = Raise JSONDecodeError ->
  (forall t v, json_loads (String "{" t) = Ok v ->
               isinstance_dict v = true) ->
  (exists x,
      x <> JSONDecodeError
      /\ contains "{" text = true
      /\ json_loads (spanned text) = Raise x
      /\ _parse_response text = Raise x
      /\ parse_and_validate text = Raise x)
  \/ (exists d,
         _parse_response text = Ok (VDict d)
         /\ parse_and_validate text = validate (VDict d)
         /\ match raised py d with
            | None =>
                exists r,
                  validate (VDict d) = Ok (VDict r) /\ repaired r = true
            | Some x =>
                validate (VDict d) = Raise x
                /\ (x = AttributeError \/ x = ValueError
                    \/ x = RecursionError)
            end).
Proof.
  intros Hempty Hdict.
  assert ((exists x,
              x <> JSONDecodeError /\ contains "{" text = true
              /\ json_loads (spanned text) = Raise x
              /\ _parse_response text = Raise x)
          \/ exists d, _parse_response text = Ok (VDict d)) as [Hx|[d Hd]].
  { rewrite _parse_response_eq.
    destruct (contains "{" text) eqn:Hc; [|right; eexists; reflexivity].
    destruct (json_loads (spanned text)) as [v|x] eqn:Hv.
    - right. destruct (spanned_shape text Hc) as [E|[t E]]; rewrite E in Hv.
      + congruence.
      + specialize (Hdict t v Hv). destruct v; try discriminate.
        eexists; reflexivity.
    - assert (x = JSONDecodeError \/ x <> JSONDecodeError) as [->|Hx]
        by (destruct x; (left; reflexivity) || (right; discriminate)).
      + right; eexists; reflexivity.
      + left. exists x. split; [exact Hx|]. split; [reflexivity|].
        split; [reflexivity|].
        destruct x; try reflexivity. contradiction Hx; reflexivity. }
  - left. destruct Hx as [x [H1 [H2 [H3 H4]]]]. exists x.
    repeat (split; [assumption|]).
    unfold TyphoonSafetyAnalyzer.parse_and_validate. rewrite H4. reflexivity.
  - right. exists d. split; [exact Hd|].
    split; [unfold TyphoonSafetyAnalyzer.parse_and_validate; rewrite Hd;
            reflexivity|].
    pose proof (validate_eq py d) as H.
    destruct (raised py d) as [x|] eqn:Er.
    + split; [exact H|].
      apply raised_cases in Er.
      destruct Er as [[v [_ Hs]]|[[_ [_ ->]]|[_ [_ [v [_ Hs]]]]]].
      * right. exact (py_str_raises py v x Hs).
      * left; reflexivity.
      * right. exact (py_str_raises py v x Hs).
    + destruct H as [r [Hv Hr]]. exists r. split; [exact Hv|].
      exact (normalises_repaired py d r Hr).
Qed.

End ParseThenValidate.

Lemma extraction_failure_report_witness :
  Json.loads cpython EmptyString = Raise JSONDecodeError
  /\ (no_valid_pair "I cannot see the image." = true
      \/ Json.loads cpython (spanned "I cannot see the image.")
         = Raise JSONDecodeError)
  /\ exists r,
      TyphoonSafetyAnalyzer.parse_and_validate cpython (Json.loads cpython)
        "I cannot see the image."
      = Ok (VDict r)
      /\ dict_get "summary" r = Some (VStr "I cannot see the image.").
Proof.
  split; [reflexivity|]. split; [left; reflexivity|].
  eexists. split.
  - exact (extraction_failure_report cpython (Json.loads cpython)
             "I cannot see the image." eq_refl (or_introl eq_refl)).
  - reflexivity.
Defined.

(** ** The library decoder returns a mapping for an object text *)

Lemma members_returns_dict (py : interpreter) (fuel : nat) :
  forall depth s acc v r,
    Json.members py fuel depth s acc = Ok (v, r) -> isinstance_dict v = true.
Proof.
  induction fuel as [|fuel IH]; intros depth s acc v r; [discriminate|].
  cbn [Json.members].
  destruct s as [|q t]; [discriminate|].
  destruct (Ascii.eqb q "034"); [|discriminate].
  destruct (Json.scanstring _ t _) as [[key r0]|]; [|discriminate].
  destruct (Json.skip_ws r0) as [|colon r1]; [discriminate|].
  destruct (Ascii.eqb colon ":"); [|discriminate].
  destruct (Json.scan_once py fuel depth _) as [[v0 r2]|]; [|discriminate].
  destruct (Json.skip_ws r2) as [|d0 r3]; [discriminate|].
  destruct (Ascii.eqb d0 "}").
  - intro H; injection H as <- _. reflexivity.
  - destruct (Ascii.eqb d0 ","); [|discriminate]. apply IH.
Qed.

Lemma loads_object_is_dict (py : interpreter) (t : string) (v : value) :
  Json.loads py (String "{" t) = Ok v -> isinstance_dict v = true.
Proof.
  unfold Json.loads.
  replace (2 * String.length (String "{" t) + 2)%nat
    with (S (S (2 * String.length (String "{" t))))%nat by lia.
  change (Json.skip_ws (String "{" t)) with (String "{" t).
  cbn [Json.scan_once Ascii.eqb Bool.eqb].
  destruct (json_depth py) as [|depth]; [discriminate|].
  destruct (Json.skip_ws t) as [|c r] eqn:Ews; [discriminate|].
  destruct (Ascii.eqb c "}").
  - destruct (Json.skip_ws r); [|discriminate].
    intro H; injection H as <-. reflexivity.
  - destruct (Json.members _ _ _ _ _) as [[v0 r0]|] eqn:Em; [|discriminate].
    destruct (Json.skip_ws r0); [|discriminate].
    intro H; injection H as <-.
    exact (members_returns_dict _ _ _ _ _ _ _ Em).
Qed.

(** On scenario D both steps return; on a text whose object holds an
    integer of more digits than the interpreter converts, the decoder's
    [ValueError] leaves both. *)
Lemma parse_then_validate_witness :
  Json.loads cpython EmptyString = Raise JSONDecodeError
  /\ (forall t v, Json.loads cpython (String "{" t) = Ok v ->
                  isinstance_dict v = true)
  /\ TyphoonSafetyAnalyzer._parse_response (Json.loads cpython)
       scenario_d_text
     = Ok scenario_d_parsed
  /\ TyphoonSafetyAnalyzer.parse_and_validate cpython (Json.loads cpython)
       scenario_d_text
     = Ok scenario_d_report
  /\ TyphoonSafetyAnalyzer.parse_and_validate cpython (Json.loads cpython)
       (long_integer_text 4301)
     = Raise ValueError
  /\ ((exists x,
          x <> JSONDecodeError
          /\ contains "{" scenario_d_text = true
          /\ Json.loads cpython (spanned scenario_d_text) = Raise x
          /\ TyphoonSafetyAnalyzer._parse_response (Json.loads cpython)
               scenario_d_text
             = Raise x
          /\ TyphoonSafetyAnalyzer.parse_and_validate cpython
               (Json.loads cpython) scenario_d_text
             = Raise x)
      \/ (exists d,
             TyphoonSafetyAnalyzer._parse_response (Json.loads cpython)
               scenario_d_text
             = Ok (VDict d)
             /\ TyphoonSafetyAnalyzer.parse_and_validate cpython
                  (Json.loads cpython) scenario_d_text
                = validate cpython (VDict d)
             /\ match raised cpython d with
                | None =>
                    exists r,
                      validate cpython (VDict d) = Ok (VDict r)
                      /\ repaired r = true
                | Some x =>
                    validate cpython (VDict d) = Raise x
                    /\ (x = AttributeError \/ x = ValueError
                        \/ x = RecursionError)
                end)).
Proof.
  split; [reflexivity|]. split; [exact (loads_object_is_dict cpython)|].
  split; [vm_compute; reflexivity|]. split; [vm_compute; reflexivity|].
  split; [vm_compute; reflexivity|].
  exact (parse_then_validate cpython (Json.loads cpython) scenario_d_text
           eq_refl (loads_object_is_dict cpython)).
Defined.

(** ** The hazard total of the test script *)

(** X13.  On a report that [validate] returned, the hazard total of the
    test script is computed without an exception and is the number of
    entries that the input lists under the four known categories;
    entries under any other key of [hazards_by_category], and categories
    that hold no list, count for nothing, and so does a
    [hazards_by_category] that is absent or not a mapping. *)
Theorem total_hazards_of_report (py : interpreter) (d r : dict) :
  validate py (VDict d) = Ok (VDict r) ->
  total_hazards r
  = Ok (match dict_get "hazards_by_category" d with
        | Some (VDict h) =>
            Z.of_nat (List.length (category_items "flying_objects" h))
            + Z.of_nat (List.length (category_items "structural_damage" h))
            + Z.of_nat (List.length (category_items "elevated_objects" h))
            + Z.of_nat (List.length (category_items "tree_hazards" h))
        | _ => 0
        end).
Proof.
  intro Hv.
  pose proof (validate_ok_normalises py d r Hv) as Hr.
  unfold total_hazards, dict_get_or. rewrite (nf_hazards _ _ _ Hr).
  unfold hazards_out.
  destruct (dict_get "hazards_by_category" d) as [[| | | | | |h]|];
    try reflexivity.
  unfold normal_hazards, hazard_categories.
  cbn [map foldM bind py_len snd]. rewrite !length_map. reflexivity.
Qed.

Lemma total_hazards_of_report_witness :
  validate cpython (VDict stray_input) = Ok (VDict stray_output)
  /\ total_hazards stray_output = Ok 1.
Proof.
  split; [reflexivity|].
  exact (total_hazards_of_report cpython stray_input stray_output
           eq_refl).
Defined.
